(* ===== verification/_CoqProject ===== *)
-Q . S2P
Prelude.v
Regex.v
Url.v
Json.v
Verdict.v
Scoring.v
UrlAnalyzer.v
UrlHandler.v
EmailHybrid.v
LogoHeuristic.v
EmailHeuristic.v
LogoVision.v
Database.v
ScanClient.v
Tabs.v
ResultView.v
AdminPage.v
Pages.v
