(* ===== verification/Prelude.v ===== *)
(** * secure-grid-ai: a verification development of the phishing analysers

    The repository is a web application that classifies a URL, an e-mail
    (sender, subject, body) or a logo image reference as safe, suspicious,
    phishing or unknown.  The classification runs in Supabase edge functions
    (TypeScript on Deno): each one extracts features from its input, scores
    them with a fixed table of additive rules, optionally asks an AI gateway
    (the "oracle") for a second opinion, and combines the two into a verdict,
    a confidence and a list of threat indicators.  The React client calls the
    functions and keeps the results in a scan history.

    ** Sources and their models

    - src/supabase/functions/analyze-logo/index.ts bundles two functions:
      lines 1-140 the heuristic logo analyser, modelled in [LogoHeuristic];
      lines 141-510 the URL analyser, modelled in [UrlAnalyzer] (features,
      entropy, consonant ratio, [calculateRiskScore]) and [UrlHandler] (the
      request handler and its hybrid combination).
    - src/unnamed/part_001, the AI-assisted e-mail analyser: [EmailHybrid].
    - src/unnamed/part_002, the heuristic e-mail analyser ([getDomain],
      [calcEmailScore] and its handler): [EmailHeuristic].
    - src/unnamed/part_000, the hybrid vision logo analyser
      ([analyzeImageUrl], the brand table, the handler): [LogoVision].
    - src/unnamed/part_003, the database migration: [Database] holds the
      tables as lists in a record, the sign-up trigger [handle_new_user],
      [has_role] and [is_admin], the constraints and row-level-security
      policies of [scans] as the checks of [insert_scan], [select_scans] and
      [delete_scans], and [db_step], every API operation on the tables, with
      [reachable] its reflexive-transitive closure from the empty database.
    - src/unnamed/part_008 ([useScans]) and part_009 (the dashboard):
      [ScanClient] holds the hook's state ([hook_state]), [fetchScans],
      [analyzeUrl] (a call of [UrlHandler.serve], then [insert_scan], then
      a fetch), [deleteScan], the dashboard counters and [exportToCSV], with
      an RFC 4180 reader to state the round trip.
    - src/src/pages/Index.tsx ([handleScan]), src/src/components/AuthModal.tsx
      ([handleSubmit]) and the two effects of the dashboard (part_009,
      lines 24-51): [Pages], with React's semantics written out (an effect
      runs again after a commit when a dependency changed by [Object.is])
      and the auth notifications as a sequence of events.
    - src/unnamed/part_010 (the admin page) and part_006 (the navigation
      bar's role check): [AdminPage], over the same [Database] model.
    - The scan tabs (part_004 [EmailScanTab], [ScanInput], [ScanResult];
      part_008 [LogoScanTab]; part_005 [ScanHistory]): [Tabs], which sees
      the edge functions through the [Endpoint] interface, with instances
      for [EmailHybrid], [EmailHeuristic] and [LogoHeuristic]; [ResultView]
      holds what [ScanResult] and [ScanHistory] render of a result.
    - Shared semantics: [Prelude] (JS numbers as [option Q] with NaN as
      [None], strings, [Set] deduplication), [Regex] (the regular-expression
      literals, a backtracking matcher proved equal to a declarative
      semantics), [Url] (the WHATWG [URL] constructor on ASCII input),
      [Json] (JS values, truthiness, [ToNumber], [ToString], the gateway
      reply, [JSON.parse] as an interface), [Scoring] (the additive
      rule-table evaluator all three scorers are instances of) and [Verdict]
      (the oracle axis, the 0.4/0.6 mix, the 50/25 thresholds, and [Spec],
      the specification's policy).

    A handler is a total function from the request (method and parsed body)
    to a [response]: [Preflight], [Respond] with the 200 result, or [Fail]
    with the status and the reason (validation 400, or the exception the
    outer [catch] turns into 500).  The gateway and [JSON.parse] are type
    classes ([Gateway], [JsonParser]), so every theorem about a handler holds
    for every oracle answer and every parser; concrete instances
    ([gw_says], [json_parse_std]) only serve the examples.

    ** What is proved

    - Scorers: the URL score lies in [0, 100], its threats are distinct, and
      the score is positive exactly when some threat explains it (C1-C3);
      'verify' is counted twice and earns the keyword rule 8 extra points
      (C4).
    - URL handler: the rule-based fallback on an HTTP error (C5), the 500 on
      a network error (C6), refinement of the specification's policy on a
      well-formed oracle signal (C7), a confidence string that is not a
      numeric literal of [Number] gives a NaN mix and "safe" (C8), distinct
      threats (C9), a reported confidence above 100 for every non-safe
      answer below the rounding threshold (C10), the TypeError of a
      non-iterable [additionalThreats] (C11).
    - E-mail handler: confidence in [0, 100] for a well-formed signal (C12),
      at most eight distinct threats (C13), the default analysis on an HTTP
      error (C14), NaN confidence (C15), network error (C16), the suffix test
      of official domains (C17).
    - Logo heuristic: verdict and probability ranges (C18), the PayPal
      override (C19), short references are never safe (C20), the safe floor
      of 8 (C21), uploads are unknown at 30 (C22).
    - Heuristic e-mail analyser: phishing exactly above 50 (C23), the forced
      SAFE 12 of official benign mail (C24), never given to an official
      sender whose address has a hyphen, such as no-reply@ (C25).
    - Vision logo analyser: brands without official domains are always
      flagged (C26), official domains matched anywhere in the URL (C27), an
      empty oracle reply gives phishing (C28), unchecked confidence (C29).
    - Database: by induction on [reachable], the admin role is held exactly
      by the user with the admin address (C30), and every state is a value
      of the schema: keys, one role and one profile per user, and scan rows
      within their column types and CHECKs (C31).
    - Client: a delete is a no-op that the client reports as done (C32); a
      scan is stored exactly when its confidence passes the CHECK (C33); the
      CSV export round-trips when no cell holds a quote (C34); the scan
      handed from the landing page is analysed once per new [User] object
      (C35); the logo tab analyses a URL the user erased (C36); the result
      view throws exactly on a NaN confidence or an object among the first
      five indicators, and never on a rule-based answer (C37); the admin page loads
      everything for the administrator and nothing for anyone else, its
      scan counter capped at 100 (C38); the navigation bar, the admin page
      and [is_admin] agree on who is an administrator (C39); the
      dashboard's render loop terminates after at most one commit (C40).

    ** Bounds and fuel

    Numbers are exact rationals: the analysers add, scale by constants and
    compare small integers and ratios.  IEEE rounding is not modelled: where
    [0.4 * rule + 0.6 * ai] falls exactly on a threshold, the double result
    may lie one unit in the last place on either side, and the theorems
    speak of the exact value.  [Math.round] is [floor (x + 1/2)].
    [Number(s)] on a string follows ECMAScript's StringToNumber (decimal
    literals with fraction and exponent, [0x]/[0o]/[0b], "Infinity"); the
    infinities are not values of the model, and the theorems that read a
    string as a number assume it is not a numeric literal.  The regular-expression matcher takes as fuel for
    a repetition the length of the input plus its lower bound, enough since
    every iteration but the mandatory ones consumes a character.  The JSON
    parser of the examples takes [3 * length + 3] steps, more than the
    number of values and separators of its input.  Global matching
    ([re_match_all]) takes [length + 1] steps, one per possible start.  The
    CSV reader takes [length + 1] steps for the file and for each record,
    enough since each step but the last consumes a character; C34 proves
    that this fuel suffices.  The render loop of [Pages.settle] takes two
    rounds, which C40 proves enough from any state.

    ** Not modelled

    The random [blockchainHash] and the [timestamp] of the responses; the
    system prompts sent to the gateway (the oracle request records the
    artifact and the features it is given); non-ASCII input (Unicode case
    mapping, IDNA, IPv6 hosts, percent-decoding); IEEE rounding; objects
    whose own [toString] or [valueOf] keys change [ToPrimitive].  In the
    database: UUIDs are numbers handed out in order, [now()] is a counter,
    the profile UPDATE policy and its timestamp trigger and the realtime
    publication are not modelled.  In the client: the realtime
    subscription (it only calls [fetchScans] again), [toISOString] (a
    parameter of the export), the text of the toasts (their kind is
    recorded), the Blob download; the password check of the auth service
    (a boolean parameter of [handleSubmit]).  The React components that
    only render (icons, animations, layout, part_007's card) are out of
    scope: they hold no state the analysers, the database or the handlers
    read. *)

From stdpp Require Import base list strings decidable sets.
From Stdlib Require Import QArith Qminmax Qround Qabs Lqa Ascii DecimalString.

(** ** JavaScript numbers

    A JS number is modelled as [option Q]: [Some q] is the exact rational value,
    [None] is NaN.  The analysers only add, subtract, multiply by constants,
    divide by 2, 20 or a string length, and compare; rationals are exact for all
    of these.  IEEE rounding is not modelled (see the header). *)

Definition jsnum := option Q.

Declare Scope js_scope.
Delimit Scope js_scope with js.

Definition jlit (q : Q) : jsnum := Some q.
Definition NaN : jsnum := None.

Definition jlift2 (f : Q -> Q -> Q) (x y : jsnum) : jsnum :=
  match x, y with Some a, Some b => Some (f a b) | _, _ => None end.

Definition jadd := jlift2 Qplus.
Definition jsub := jlift2 Qminus.
Definition jmul := jlift2 Qmult.

(** [x / y]: [0/0] is NaN; the analysers never divide a non-zero number by 0. *)
Definition jdiv (x y : jsnum) : jsnum :=
  match x, y with
  | Some a, Some b => if Qeq_bool b 0 then None else Some (a / b)
  | _, _ => None
  end.

(** Strict order on rationals as a boolean test. *)
Definition Qlt_bool (a b : Q) : bool := negb (Qle_bool b a).

Lemma Qlt_bool_iff (a b : Q) : Qlt_bool a b = true <-> a < b.
Proof.
  unfold Qlt_bool. rewrite negb_true_iff. split.
  - intros H. apply Qnot_le_lt. intros H'. apply Qle_bool_iff in H'. congruence.
  - intros H. destruct (Qle_bool b a) eqn:E; [|reflexivity].
    apply Qle_bool_iff in E. exfalso. apply (Qlt_not_le a b); assumption.
Qed.

(** Comparisons with NaN are false. *)
Definition jlt (x y : jsnum) : bool :=
  match x, y with Some a, Some b => Qlt_bool a b | _, _ => false end.
Definition jle (x y : jsnum) : bool :=
  match x, y with Some a, Some b => Qle_bool a b | _, _ => false end.
Definition jgt (x y : jsnum) : bool := jlt y x.
Definition jge (x y : jsnum) : bool := jle y x.

(** [Math.min], [Math.max] (NaN is contagious), [Math.round], [Math.abs]. *)
Definition math_min := jlift2 Qmin.
Definition math_max := jlift2 Qmax.
Definition math_round (x : jsnum) : jsnum :=
  match x with Some a => Some (inject_Z (Qfloor (a + (1 # 2)))) | None => None end.
Definition math_abs (x : jsnum) : jsnum := option_map Qabs x.

Notation "x + y" := (jadd x y) : js_scope.
Notation "x - y" := (jsub x y) : js_scope.
Notation "x * y" := (jmul x y) : js_scope.
Notation "x / y" := (jdiv x y) : js_scope.
Notation "x >? y" := (jgt x y) : js_scope.
Notation "x >=? y" := (jge x y) : js_scope.

Definition jnat (n : nat) : jsnum := Some (inject_Z (Z.of_nat n)).

(** ** JavaScript strings

    Strings are Stdlib [string]s of 8-bit characters; the inputs are taken to be
    ASCII, where [toLowerCase], [length] and the iteration [for (c of s)]
    coincide with their Unicode versions. *)

Open Scope string_scope.

Definition lower_ascii (c : ascii) : ascii :=
  let n := nat_of_ascii c in
  if Nat.leb 65 n && Nat.leb n 90 then ascii_of_nat (n + 32)%nat else c.

(** [s.toLowerCase()] *)
Fixpoint lower (s : string) : string :=
  match s with
  | EmptyString => EmptyString
  | String c s' => String (lower_ascii c) (lower s')
  end.

(** [s.startsWith(p)] *)
Definition starts_with (s p : string) : bool := String.prefix p s.

(** [s.includes(t)] *)
Fixpoint includes (s t : string) : bool :=
  String.prefix t s ||
  match s with
  | EmptyString => false
  | String _ s' => includes s' t
  end.

(** [s.endsWith(p)] *)
Definition ends_with (s p : string) : bool :=
  Nat.leb (String.length p) (String.length s) &&
  String.eqb (String.substring (String.length s - String.length p)%nat (String.length p) s) p.

(** Number of occurrences of one character, [(s.match(/c/g) || []).length]. *)
Fixpoint count_char (c : ascii) (s : string) : nat :=
  match s with
  | EmptyString => 0
  | String d s' => ((if Ascii.eqb c d then 1 else 0) + count_char c s')%nat
  end.

(** Number of characters satisfying a class, [(s.match(/[..]/g) || []).length]. *)
Fixpoint count_class (p : ascii -> bool) (s : string) : nat :=
  match s with
  | EmptyString => 0
  | String d s' => ((if p d then 1 else 0) + count_class p s')%nat
  end.

(** [s.split(c)] on a one-character separator. *)
Fixpoint js_split (sep : ascii) (s : string) : list string :=
  match s with
  | EmptyString => [EmptyString]
  | String c s' =>
      match js_split sep s' with
      | [] => [EmptyString]
      | w :: ws => if Ascii.eqb sep c then EmptyString :: w :: ws else String c w :: ws
      end
  end.

(** Longest prefix of elements satisfying [p], and the rest. *)
Fixpoint take_while {A} (p : A -> bool) (l : list A) : list A :=
  match l with x :: l' => if p x then x :: take_while p l' else [] | [] => [] end.
Fixpoint drop_while {A} (p : A -> bool) (l : list A) : list A :=
  match l with x :: l' => if p x then drop_while p l' else l | [] => [] end.

(** [arr.join(sep)] *)
Definition join (sep : string) (l : list string) : string := String.concat sep l.

(** Decimal rendering of a count, as in a template literal [`${n}`]. *)
Definition nat_to_string (n : nat) : string :=
  NilEmpty.string_of_uint (Nat.to_uint n).

Definition is_digit (c : ascii) : bool :=
  let n := nat_of_ascii c in Nat.leb 48 n && Nat.leb n 57.
Definition is_lower_letter (c : ascii) : bool :=
  let n := nat_of_ascii c in Nat.leb 97 n && Nat.leb n 122.
Definition is_upper_letter (c : ascii) : bool :=
  let n := nat_of_ascii c in Nat.leb 65 n && Nat.leb n 90.
Definition is_letter (c : ascii) : bool := is_lower_letter c || is_upper_letter c.
Definition is_hex_digit (c : ascii) : bool :=
  is_digit c || let n := nat_of_ascii (lower_ascii c) in Nat.leb 97 n && Nat.leb n 102.
(** [\s] restricted to ASCII: space, tab, LF, VT, FF, CR. *)
Definition is_space (c : ascii) : bool :=
  let n := nat_of_ascii c in Nat.eqb n 32 || (Nat.leb 9 n && Nat.leb n 13).

(** ** Order-preserving deduplication: [[...new Set(l)]]

    A JS [Set] keeps its elements in insertion order and ignores an insertion of
    an element it already holds; spreading it lists them in that order. *)

Definition set_add (acc : list string) (x : string) : list string :=
  if decide (x ∈ acc) then acc else acc ++ [x].

Definition set_dedup (l : list string) : list string := foldl set_add [] l.

(** [arr.slice(0, n)] *)
Definition slice0 {A} (n : nat) (l : list A) : list A := take n l.

(** ** Automation shared by the components *)

Create HintDb secure.

(** Turn the boolean tests of the models into propositions. *)
Ltac bool_props :=
  repeat match goal with
  | H : (_ && _)%bool = true |- _ => apply andb_prop in H as [? ?]
  | H : (_ || _)%bool = false |- _ => apply orb_false_elim in H as [? ?]
  | H : Qle_bool _ _ = true |- _ => apply Qle_bool_iff in H
  | H : Qlt_bool _ _ = true |- _ => apply Qlt_bool_iff in H
  end.

(** Case analysis on every [if] of the goal, keeping the equations. *)
Ltac split_ifs :=
  repeat match goal with
  | |- context [if ?b then _ else _] => destruct b eqn:?
  end.

(** ** Shared lemmas *)

Lemma prefix_app_iff (p s : string) :
  String.prefix p s = true <-> exists r, s = p ++ r.
Proof.
  revert s; induction p as [|a p IH]; intros s.
  - split; [intros _; by exists s | by destruct s].
  - destruct s as [|b s]; simpl.
    + split; [done | intros [r Hr]; discriminate].
    + destruct (ascii_dec a b) as [->|Hne].
      * rewrite IH. split; intros [r Hr]; exists r; [by rewrite Hr | by injection Hr].
      * split; [done | intros [r Hr]; injection Hr; congruence].
Qed.

Lemma includes_iff (s t : string) :
  includes s t = true <-> exists a b, s = a ++ t ++ b.
Proof.
  induction s as [|c s IH]; cbn [includes]; rewrite orb_true_iff, prefix_app_iff.
  - split.
    + intros [[r Hr]|H]; [exists EmptyString, r; exact Hr | discriminate].
    + intros [a [b Hab]]. left. exists b. destruct a; [exact Hab|discriminate].
  - rewrite IH. split.
    + intros [[r Hr]|[a [b Hab]]].
      * exists EmptyString, r. exact Hr.
      * exists (String c a), b. by rewrite Hab.
    + intros [a [b Hab]]. destruct a as [|c' a].
      * left. exists b. exact Hab.
      * right. exists a, b. by injection Hab.
Qed.

Lemma includes_app_l (a t b : string) : includes (a ++ t ++ b) t = true.
Proof. apply includes_iff. eauto. Qed.

Lemma includes_empty_string (t : string) : includes EmptyString t = true -> t = EmptyString.
Proof. intros [a [b H]]%includes_iff. destruct a, t; done. Qed.

Lemma length_js_split (c : ascii) (s : string) :
  length (js_split c s) = S (count_char c s).
Proof.
  induction s as [|d s IH]; [done|]. simpl.
  destruct (js_split c s) as [|w ws]; [done|].
  rewrite Ascii.eqb_sym. destruct (Ascii.eqb d c); simpl in *; lia.
Qed.

Lemma count_class_le (p : ascii -> bool) (s : string) :
  (count_class p s <= String.length s)%nat.
Proof. induction s; simpl; [lia|]. destruct (p a); lia. Qed.

Lemma count_class_mono (p q : ascii -> bool) (s : string) :
  (forall c, p c = true -> q c = true) -> (count_class p s <= count_class q s)%nat.
Proof.
  intros Hpq. induction s as [|c s IH]; simpl; [lia|].
  destruct (p c) eqn:E; [rewrite (Hpq c E)|destruct (q c)]; lia.
Qed.

Section SetDedup.
Implicit Types acc l : list string.
Local Open Scope list_scope.

Lemma foldl_set_add_prefix acc l : exists r, foldl set_add acc l = acc ++ r.
Proof.
  revert acc; induction l as [|x l IH]; intros acc; simpl.
  - exists []. by rewrite app_nil_r.
  - destruct (IH (set_add acc x)) as [r Hr]. rewrite Hr. unfold set_add.
    case_decide; [by exists r|]. exists (x :: r). by rewrite <- app_assoc.
Qed.

Lemma elem_of_foldl_set_add acc l y :
  y ∈ foldl set_add acc l <-> y ∈ acc \/ y ∈ l.
Proof.
  revert acc; induction l as [|x l IH]; intros acc; simpl.
  - set_solver.
  - rewrite IH. unfold set_add. case_decide; set_solver.
Qed.

Lemma NoDup_foldl_set_add acc l : NoDup acc -> NoDup (foldl set_add acc l).
Proof.
  revert acc; induction l as [|x l IH]; intros acc Hacc; simpl; [done|].
  apply IH. unfold set_add. case_decide; [done|].
  apply NoDup_app. split_and!; [done| |by apply NoDup_singleton]. set_solver.
Qed.

Lemma foldl_set_add_NoDup acc l :
  NoDup (acc ++ l) -> foldl set_add acc l = acc ++ l.
Proof.
  revert acc; induction l as [|x l IH]; intros acc Hnd; simpl.
  - by rewrite app_nil_r.
  - unfold set_add. case_decide as Hx.
    + exfalso. apply NoDup_app in Hnd as (_ & Hdis & _). apply (Hdis x); [done | set_solver].
    + rewrite IH; [by rewrite <- app_assoc|]. by rewrite <- app_assoc.
Qed.
End SetDedup.

(** The three facts the callers of [set_dedup] use: no duplicates, the same
    elements, and lists that already have no duplicates are unchanged. *)
Lemma set_dedup_NoDup l : NoDup (set_dedup l).
Proof. apply NoDup_foldl_set_add, NoDup_nil_2. Qed.

Lemma elem_of_set_dedup l y : y ∈ set_dedup l <-> y ∈ l.
Proof. unfold set_dedup. rewrite elem_of_foldl_set_add. set_solver. Qed.

Lemma set_dedup_id l : NoDup l -> set_dedup l = l.
Proof. intros H. apply foldl_set_add_NoDup. done. Qed.

#[export] Hint Resolve set_dedup_NoDup includes_app_l : secure.

(** ** Counts as rationals *)

Lemma Q_of_nat_nonneg (n : nat) : (0 <= inject_Z (Z.of_nat n))%Q.
Proof. change 0%Q with (inject_Z 0). rewrite <- Zle_Qle. lia. Qed.

(** [k < n] on counts, with the constant [k] given as the rational [q]. *)
Lemma Q_of_nat_ltb (k n : nat) (q : Q) :
  (inject_Z (Z.of_nat k) == q)%Q -> Nat.ltb k n = true ->
  (q + 1 <= inject_Z (Z.of_nat n))%Q.
Proof.
  intros Hq H%Nat.ltb_lt. rewrite <- Hq. change 1%Q with (inject_Z 1).
  rewrite <- inject_Z_plus, <- Zle_Qle. lia.
Qed.

(** A boolean [existsb] over a list holds exactly when the [filter] is non-empty. *)
Lemma existsb_filter_nonempty {A} (p : A -> bool) (l : list A) :
  existsb p l = true <-> filter (fun x => p x = true) l <> [].
Proof.
  induction l as [|x l IH]; simpl; [done|]. rewrite filter_cons.
  destruct (p x); simpl; [done|]. by rewrite IH.
Qed.

(** [Math.round] keeps a number inside integer bounds. *)
Lemma math_round_range (lo hi : Z) (x : Q) :
  (inject_Z lo <= x <= inject_Z hi)%Q ->
  exists c, math_round (Some x) = Some c /\ (inject_Z lo <= c <= inject_Z hi)%Q.
Proof.
  intros [Hlo Hhi]. eexists. split; [reflexivity|]. split.
  - rewrite <- Zle_Qle, <- (Qfloor_Z lo). apply Qfloor_resp_le. lra.
  - pose proof (Qfloor_le (x + (1 # 2))) as Hf.
    assert (Hlt : (inject_Z (Qfloor (x + (1 # 2))) < inject_Z (hi + 1))%Q).
    { rewrite inject_Z_plus. change (inject_Z 1) with 1%Q. lra. }
    rewrite <- Zlt_Qlt in Hlt. rewrite <- Zle_Qle. lia.
Qed.

(** [Math.round(x) < n] for an integer [n] exactly when [x + 1/2 < n]. *)
Lemma math_round_lt (x : Q) (n : Z) :
  (inject_Z (Qfloor (x + (1 # 2))) < inject_Z n)%Q <-> (x + (1 # 2) < inject_Z n)%Q.
Proof.
  split; intros H.
  - pose proof (Qlt_floor (x + (1 # 2))) as Hf. rewrite <- Zlt_Qlt in H.
    assert (inject_Z (Qfloor (x + (1 # 2)) + 1) <= inject_Z n)%Q by (rewrite <- Zle_Qle; lia).
    lra.
  - pose proof (Qfloor_le (x + (1 # 2))). lra.
Qed.

Lemma length_string_app (a t : string) :
  String.length (a ++ t) = (String.length a + String.length t)%nat.
Proof. induction a as [|c a IH]; simpl; [done|]. by rewrite IH. Qed.

Lemma substring_all (t : string) : String.substring 0 (String.length t) t = t.
Proof. induction t as [|c t IH]; simpl; [done|]. by rewrite IH. Qed.

Lemma substring_app_r (a t : string) (m : nat) :
  String.substring (String.length a) m (a ++ t) = String.substring 0 m t.
Proof. induction a as [|c a IH]; simpl; [done|]. exact IH. Qed.

(** [(a + t).endsWith(t)] *)
Lemma ends_with_app (a t : string) : ends_with (a ++ t) t = true.
Proof.
  unfold ends_with. rewrite length_string_app.
  replace (String.length a + String.length t - String.length t)%nat with (String.length a) by lia.
  rewrite substring_app_r, substring_all, String.eqb_refl. apply andb_true_intro. split; [|done].
  apply Nat.leb_le. lia.
Qed.

(** A filter that keeps every element is the identity. *)
Lemma filter_all {A} (P : A -> Prop) `{!forall x, Decision (P x)} (l : list A) :
  (forall x, P x) -> filter P l = l.
Proof. intros HP. induction l as [|x l IH]; [done|]. by rewrite filter_cons_True, IH. Qed.

Lemma list_ascii_of_string_app (a b : string) :
  String.list_ascii_of_string (a ++ b) = (String.list_ascii_of_string a ++ String.list_ascii_of_string b)%list.
Proof. induction a as [|c a IH]; simpl; [done|]. by rewrite IH. Qed.

Lemma sublist_map {A B} (f : A -> B) (l1 l2 : list A) :
  sublist l1 l2 -> sublist (List.map f l1) (List.map f l2).
Proof. induction 1; cbn; by constructor. Qed.

Lemma filter_none {A} (P : A -> Prop) `{!forall x, Decision (P x)} (l : list A) :
  (forall x, x ∈ l -> ~ P x) -> filter P l = [].
Proof.
  induction l as [|y l IH]; intros HP; [done|]. rewrite filter_cons, decide_False.
  - apply IH. intros x Hx. apply HP. by right.
  - apply HP. by left.
Qed.

(** In a list whose keys are distinct, the rows with the key of a member
    are that member alone. *)
Lemma filter_key_single {A} (key : A -> nat) (l : list A) (x : A) :
  NoDup (List.map key l) -> x ∈ l ->
  filter (fun y => Nat.eqb (key y) (key x) = true) l = [x].
Proof.
  induction l as [|y l IH]; intros Hnd Hx; [by apply not_elem_of_nil in Hx|].
  cbn in Hnd. apply list.NoDup_cons in Hnd as [Hy Hnd]. rewrite filter_cons.
  apply elem_of_cons in Hx as [->|Hx].
  - rewrite Nat.eqb_refl, decide_True by done. f_equal. apply filter_none.
    intros z Hz Hk. apply Nat.eqb_eq in Hk. apply Hy. rewrite <- Hk.
    apply list_elem_of_In, in_map, list_elem_of_In, Hz.
  - case_decide as Hk.
    + apply Nat.eqb_eq in Hk. exfalso. apply Hy. rewrite Hk.
      apply list_elem_of_In, in_map, list_elem_of_In, Hx.
    + by apply IH.
Qed.

Lemma existsb_filter_and {A} (f g : A -> bool) (l : list A) :
  existsb (fun x => f x && g x) l = existsb g (filter (fun x => f x = true) l).
Proof.
  induction l as [|x l IH]; [done|]. rewrite filter_cons. cbn.
  destruct (f x) eqn:E; cbn; rewrite IH; [|done]. by rewrite decide_True.
Qed.
