(* ===== verification/Regex.v ===== *)
(** * Regular expressions as the analysers use them

    The analysers test strings with JavaScript regular-expression literals
    (character classes, bounded and unbounded greedy repetition, alternation,
    the [i] and [g] flags, one capture group).  This file gives those literals
    a syntax ([regex]), the backtracking matcher of ECMAScript ([ends], which
    lists the end positions of the matches at the front of a string in the
    order the JS engine tries them), a declarative semantics ([rmatch]) and the
    proof that the two agree.  On top of them come [RegExp.prototype.test],
    [String.prototype.match] with and without [g]. *)

From Stdlib Require Import Ascii String.
From stdpp Require Import base list strings.
From S2P Require Import Prelude.

Local Open Scope list_scope.

Inductive regex : Type :=
| REmpty
| RClass (p : ascii -> bool)
| RSeq (r1 r2 : regex)
| RAlt (r1 r2 : regex)
| RRep (lo : nat) (hi : option nat) (r : regex).

Definition chars := list ascii.

(** [r{lo,hi}], greedy: one more iteration is tried before stopping; once the
    minimum is reached an iteration that consumes nothing is rejected. *)
Fixpoint rep_ends (e : chars -> list nat) (fuel lo : nat) (hi : option nat)
    (s : chars) : list nat :=
  match fuel with
  | O => []
  | S f =>
      (if decide (hi = Some 0) then []
       else flat_map (fun n =>
              if Nat.eqb n 0 && Nat.eqb lo 0 then []
              else map (Nat.add n) (rep_ends e f (pred lo) (option_map pred hi) (drop n s)))
            (e s))
      ++ (if Nat.eqb lo 0 then [0] else [])
  end.

(** The lengths of the prefixes of [s] that [r] matches, in backtracking order. *)
Fixpoint ends (r : regex) (s : chars) : list nat :=
  match r with
  | REmpty => [0]
  | RClass p => match s with c :: _ => if p c then [1] else [] | [] => [] end
  | RSeq r1 r2 => flat_map (fun n => map (Nat.add n) (ends r2 (drop n s))) (ends r1 s)
  | RAlt r1 r2 => ends r1 s ++ ends r2 s
  | RRep lo hi r1 => rep_ends (ends r1) (S (length s + lo)) lo hi s
  end.

(** Declarative semantics: [rmatch r w] when [r] matches exactly [w]. *)
Inductive rmatch : regex -> chars -> Prop :=
| rm_empty : rmatch REmpty []
| rm_class p c : p c = true -> rmatch (RClass p) [c]
| rm_seq r1 r2 w1 w2 : rmatch r1 w1 -> rmatch r2 w2 -> rmatch (RSeq r1 r2) (w1 ++ w2)
| rm_alt_l r1 r2 w : rmatch r1 w -> rmatch (RAlt r1 r2) w
| rm_alt_r r1 r2 w : rmatch r2 w -> rmatch (RAlt r1 r2) w
| rm_rep_stop hi r : rmatch (RRep 0 hi r) []
| rm_rep_more lo hi r w1 w2 :
    hi <> Some 0 -> rmatch r w1 -> (w1 <> [] \/ lo <> 0) ->
    rmatch (RRep (pred lo) (option_map pred hi) r) w2 ->
    rmatch (RRep lo hi r) (w1 ++ w2).

(** ** Syntax helpers used to transcribe the literals *)

Definition chr (c : ascii) : regex := RClass (Ascii.eqb c).
Fixpoint lit (s : string) : regex :=
  match s with
  | EmptyString => REmpty
  | String c EmptyString => chr c
  | String c s' => RSeq (chr c) (lit s')
  end.
Definition digit : regex := RClass is_digit.
Definition any_char : regex := RClass (fun _ => true).
Definition rep (lo hi : nat) (r : regex) : regex := RRep lo (Some hi) r.
Definition rstar (r : regex) : regex := RRep 0 None r.
Definition rplus (r : regex) : regex := RRep 1 None r.
Definition at_least (n : nat) (r : regex) : regex := RRep n None r.
Fixpoint alts (rs : list regex) : regex :=
  match rs with
  | [] => RClass (fun _ => false)
  | [r] => r
  | r :: rs' => RAlt r (alts rs')
  end.

(** The [i] flag on a pattern whose letters are written in lower case: an input
    character is canonicalised before the class is consulted. *)
Fixpoint ci (r : regex) : regex :=
  match r with
  | REmpty => REmpty
  | RClass p => RClass (fun c => p (lower_ascii c))
  | RSeq r1 r2 => RSeq (ci r1) (ci r2)
  | RAlt r1 r2 => RAlt (ci r1) (ci r2)
  | RRep lo hi r1 => RRep lo hi (ci r1)
  end.

(** ** The JavaScript API *)

(** Leftmost match: the first position, from [i] on, at which [r] matches, and
    the length of the match the engine prefers there. *)
Fixpoint scan (r : regex) (i : nat) (rest : chars) : option (nat * nat) :=
  match ends r rest with
  | n :: _ => Some (i, n)
  | [] => match rest with [] => None | _ :: rest' => scan r (S i) rest' end
  end.

Definition exec_from (r : regex) (s : chars) (from : nat) : option (nat * nat) :=
  scan r from (drop from s).

(** [re.test(s)] *)
Definition re_test (r : regex) (s : string) : bool :=
  if exec_from r (list_ascii_of_string s) 0 is Some _ then true else false.

(** [s.match(re)] without [g]: the text of the first match. *)
Definition re_match (r : regex) (s : string) : option string :=
  let cs := list_ascii_of_string s in
  match exec_from r cs 0 with
  | Some (i, n) => Some (string_of_list_ascii (take n (drop i cs)))
  | None => None
  end.

(** [s.match(re)] with [g]: the texts of all matches, scanning left to right; an
    empty match advances the scan by one character. *)
Fixpoint match_all_go (r : regex) (cs : chars) (from fuel : nat) : list string :=
  match fuel with
  | O => []
  | S f =>
      match exec_from r cs from with
      | Some (i, n) =>
          string_of_list_ascii (take n (drop i cs))
            :: match_all_go r cs (i + Nat.max n 1) f
      | None => []
      end
  end.

Definition re_match_all (r : regex) (s : string) : list string :=
  let cs := list_ascii_of_string s in match_all_go r cs 0 (S (length cs)).

(** ** The matcher agrees with the declarative semantics *)

Lemma rep_ends_sound (r : regex) (e : chars -> list nat) :
  (forall s n, In n (e s) -> n <= length s /\ rmatch r (take n s)) ->
  forall fuel lo hi s n, In n (rep_ends e fuel lo hi s) ->
  n <= length s /\ rmatch (RRep lo hi r) (take n s).
Proof.
  intros He fuel. induction fuel as [|f IH]; intros lo hi s n Hin; simpl in Hin; [done|].
  apply in_app_or in Hin as [Hin|Hin].
  - destruct (decide (hi = Some 0)) as [|Hhi]; [done|].
    apply in_flat_map in Hin as (m & Hm & Hin).
    destruct (Nat.eqb m 0 && Nat.eqb lo 0) eqn:Hz; [done|].
    apply in_map_iff in Hin as (k & <- & Hk).
    destruct (He _ _ Hm) as [Hmlen Hmr]. destruct (IH _ _ _ _ Hk) as [Hklen Hkr].
    rewrite length_drop in Hklen. split; [lia|].
    rewrite <- take_take_drop. apply rm_rep_more; [done|done| |done].
    apply andb_false_iff in Hz as [Hz|Hz]; apply Nat.eqb_neq in Hz; [left|by right].
    intros Ht. apply (f_equal length) in Ht. rewrite length_take in Ht. simpl in Ht. lia.
  - destruct (Nat.eqb lo 0) eqn:Hlo; [|done]. destruct Hin as [<-|[]].
    apply Nat.eqb_eq in Hlo as ->. split; [lia|]. apply rm_rep_stop.
Qed.

Lemma ends_sound r s n : In n (ends r s) -> n <= length s /\ rmatch r (take n s).
Proof.
  revert s n. induction r as [|p|r1 IH1 r2 IH2|r1 IH1 r2 IH2|lo hi r IH]; intros s n Hin; simpl in Hin.
  - destruct Hin as [<-|[]]. split; [lia|constructor].
  - destruct s as [|c s]; [done|]. destruct (p c) eqn:Hp; [|done].
    destruct Hin as [<-|[]]. split; [simpl; lia|by constructor].
  - apply in_flat_map in Hin as (m & Hm & Hin). apply in_map_iff in Hin as (k & <- & Hk).
    destruct (IH1 _ _ Hm) as [? ?]. destruct (IH2 _ _ Hk) as [Hk' ?].
    rewrite length_drop in Hk'. split; [lia|]. rewrite <- take_take_drop. by constructor.
  - apply in_app_or in Hin as [Hin|Hin].
    + destruct (IH1 _ _ Hin). split; [done|]. by apply rm_alt_l.
    + destruct (IH2 _ _ Hin). split; [done|]. by apply rm_alt_r.
  - exact (rep_ends_sound r (ends r) IH (S (length s + lo)) lo hi s n Hin).
Qed.

Lemma rep_ends_fuel_mono e f f' lo hi s n :
  f <= f' -> In n (rep_ends e f lo hi s) -> In n (rep_ends e f' lo hi s).
Proof.
  revert f' lo hi s n. induction f as [|f IH]; intros f' lo hi s n Hle Hin; [done|].
  destruct f' as [|f']; [lia|]. simpl in *.
  apply in_app_or in Hin as [Hin|Hin]; apply in_or_app; [left|by right].
  destruct (decide (hi = Some 0)); [done|].
  apply in_flat_map in Hin as (m & Hm & Hin). apply in_flat_map. exists m. split; [done|].
  destruct (_ && _); [done|]. apply in_map_iff in Hin as (k & <- & Hk).
  apply in_map. apply (IH f'); [lia|done].
Qed.

Lemma ends_complete_app r w : rmatch r w -> forall rest, In (length w) (ends r (w ++ rest)).
Proof.
  induction 1 as [ | p c Hp | r1 r2 w1 w2 _ IH1 _ IH2 | r1 r2 w _ IH | r1 r2 w _ IH
                 | hi r | lo hi r w1 w2 Hhi _ IH1 Hne _ IH2]; intros rest; simpl.
  - by left.
  - rewrite Hp. by left.
  - apply in_flat_map. exists (length w1). split; [rewrite <- app_assoc; apply IH1|].
    rewrite <- app_assoc, drop_app_length, length_app. apply in_map. apply IH2.
  - apply in_or_app. left. apply IH.
  - apply in_or_app. right. apply IH.
  - apply in_or_app. right. by left.
  - apply in_or_app. left. destruct (decide (hi = Some 0)); [contradiction|].
    apply in_flat_map. exists (length w1). split; [rewrite <- app_assoc; apply IH1|].
    assert (Hz : Nat.eqb (length w1) 0 && Nat.eqb lo 0 = false).
    { apply andb_false_iff. destruct Hne as [Hne|Hne]; [left|right]; apply Nat.eqb_neq;
        [destruct w1; simpl; congruence|done]. }
    rewrite Hz, length_app. apply in_map. rewrite <- app_assoc, drop_app_length.
    pose proof (IH2 rest) as H2. cbn [ends] in H2.
    eapply rep_ends_fuel_mono; [|exact H2]. rewrite !length_app.
    destruct Hne as [Hne|Hne]; [destruct w1; [done|simpl]|]; lia.
Qed.

Theorem ends_spec r s n : In n (ends r s) <-> n <= length s /\ rmatch r (take n s).
Proof.
  split; [apply ends_sound|]. intros [Hn Hm].
  pose proof (ends_complete_app _ _ Hm (drop n s)) as H.
  by rewrite take_drop, length_take, Nat.min_l in H.
Qed.

(** ** Leftmost search *)

Lemma scan_none r i rest :
  scan r i rest = None <-> forall k, k <= length rest -> ends r (drop k rest) = [].
Proof.
  revert i; induction rest as [|c rest IH]; intros i; simpl.
  - destruct (ends r []) eqn:E; split; try done.
    + intros _ k Hk. by replace k with 0 by lia.
    + intros H. specialize (H 0 (le_n 0)). simpl in H. congruence.
  - destruct (ends r (c :: rest)) eqn:E.
    + rewrite IH. split.
      * intros H [|k] Hk; [done|]. apply H. simpl in Hk. lia.
      * intros H k Hk. apply (H (S k)). lia.
    + split; [done|]. intros H. specialize (H 0 (Nat.le_0_l _)). simpl in H. congruence.
Qed.

Lemma scan_some r i rest j n :
  scan r i rest = Some (j, n) ->
  exists k, j = i + k /\ k <= length rest /\ In n (ends r (drop k rest)).
Proof.
  revert i; induction rest as [|c rest IH]; intros i; simpl.
  - destruct (ends r []) as [|m l] eqn:E; [done|]. intros [= <- <-].
    exists 0. simpl. rewrite E. split_and!; [lia|lia|by left].
  - destruct (ends r (c :: rest)) as [|m l] eqn:E.
    + intros (k & -> & Hk & Hin)%IH. exists (S k). split_and!; [lia|simpl; lia|done].
    + intros [= <- <-]. exists 0. simpl. rewrite E. split_and!; [lia|lia|by left].
Qed.

(** [re.test(s)] holds exactly when some substring of [s] matches. *)
Theorem re_test_spec r s :
  re_test r s = true <->
  exists a w b, list_ascii_of_string s = a ++ w ++ b /\ rmatch r w.
Proof.
  unfold re_test, exec_from. rewrite drop_0.
  set (cs := list_ascii_of_string s). split.
  - destruct (scan r 0 cs) as [[j n]|] eqn:E; [|done]. intros _.
    apply scan_some in E as (k & _ & Hk & Hin). apply ends_spec in Hin as [Hn Hm].
    exists (take k cs), (take n (drop k cs)), (drop n (drop k cs)).
    by rewrite take_drop, take_drop.
  - intros (a & w & b & Hcs & Hm). destruct (scan r 0 cs) eqn:E; [done|].
    apply scan_none with (k := length a) in E; [|rewrite Hcs, !length_app; lia].
    pose proof (ends_complete_app _ _ Hm b) as H.
    rewrite Hcs, drop_app_length in E. rewrite E in H. done.
Qed.
