(* ===== verification/Url.v ===== *)
(** * The [URL] constructor of the runtime, as far as the analysers observe it

    [extractUrlFeatures] and [domainFromUrl] call [new URL(s)] and read
    [protocol], [hostname], [port], [pathname] and [search]; a string the WHATWG
    URL parser rejects makes the constructor throw, which both callers catch.
    This file models the parser for absolute URLs (it is a runtime library, not
    code of the repository): scheme, the special-scheme authority with userinfo,
    host and port, the host checks that make parsing fail (empty host,
    forbidden code points, malformed IPv4 numbers, invalid ports), IPv4
    canonicalisation, elision of the scheme's default port, and the split of
    path and query.  Not modelled: IPv6 literals, percent-decoding and IDNA
    mapping of hosts (a [%] in a host is rejected), dot-segment removal and
    percent-encoding of paths, relative URLs (there is no base URL here), the
    host rules of the [file] scheme. *)

From Stdlib Require Import Ascii String NArith DecimalString.
From stdpp Require Import base list strings.
From S2P Require Import Prelude.

Local Open Scope list_scope.

Record url_parts := mk_url {
  protocol : string;   (** [url.protocol], scheme plus [":"] *)
  hostname : string;   (** [url.hostname] *)
  port : string;       (** [url.port], the empty string for the default port *)
  pathname : string;   (** [url.pathname] *)
  search : string      (** [url.search], empty or ["?..."] *)
}.

Definition chars_of (s : string) : list ascii := list_ascii_of_string s.
Definition str (l : list ascii) : string := string_of_list_ascii l.

(** Split at the first character satisfying [p]. *)
Fixpoint break (p : ascii -> bool) (l : list ascii) : list ascii * list ascii :=
  match l with
  | [] => ([], [])
  | c :: l' => if p c then ([], l) else let '(a, b) := break p l' in (c :: a, b)
  end.

(** Split at the last occurrence of [c]: the part before and the part after. *)
Definition rsplit (c : ascii) (l : list ascii) : option (list ascii * list ascii) :=
  let '(a, b) := break (Ascii.eqb c) (reverse l) in
  match b with
  | [] => None
  | _ :: b' => Some (reverse b', reverse a)
  end.

Definition is_scheme_char (c : ascii) : bool :=
  is_letter c || is_digit c || Ascii.eqb c "+" || Ascii.eqb c "-" || Ascii.eqb c ".".

(** Leading and trailing C0 controls and spaces are stripped first. *)
Definition is_c0_or_space (c : ascii) : bool := Nat.leb (nat_of_ascii c) 32.
Fixpoint drop_c0 (l : list ascii) : list ascii :=
  match l with c :: l' => if is_c0_or_space c then drop_c0 l' else l | [] => [] end.
Definition trim_c0 (l : list ascii) : list ascii := reverse (drop_c0 (reverse (drop_c0 l))).

(** Forbidden domain code points (ASCII part), plus [%] (see the header). *)
Definition forbidden_host_char (c : ascii) : bool :=
  is_c0_or_space c || Nat.eqb (nat_of_ascii c) 127 ||
  existsb (Ascii.eqb c) ["#"; "/"; ":"; "<"; ">"; "?"; "@"; "["; "092"; "]"; "^"; "|"; "%"]%char.

(** Digits in a radix (8, 10 or 16). *)
Definition digit_value (c : ascii) : N :=
  if is_digit c then (N_of_ascii c - 48)%N else (N_of_ascii (lower_ascii c) - 87)%N.
Definition radix_digit (radix : N) (c : ascii) : bool :=
  if N.eqb radix 16 then is_hex_digit c
  else is_digit c && N.ltb (digit_value c) radix.
Definition parse_radix (radix : N) (l : list ascii) : option N :=
  if forallb (radix_digit radix) l
  then Some (foldl (fun acc c => acc * radix + digit_value c)%N 0%N l) else None.

Definition N_to_string (n : N) : string := NilEmpty.string_of_uint (N.to_uint n).

(** An IPv4 number: [0x..] is hexadecimal, a leading [0] octal, else decimal. *)
Definition ipv4_number (l : list ascii) : option N :=
  match l with
  | "0" :: x :: rest => if Ascii.eqb (lower_ascii x) "x" then parse_radix 16 rest
                        else parse_radix 8 (x :: rest)
  | [] => None
  | _ => parse_radix 10 l
  end%char.

(** The host "ends in a number" when its last label is one. *)
Definition ends_in_number (host : list ascii) : bool :=
  let labels := map chars_of (js_split "." (str host)) in
  let labels := if last labels is Some [] then take (length labels - 1) labels else labels in
  match last labels with
  | Some l => if ipv4_number l is Some _ then true else false
  | None => false
  end%char.

Definition ipv4_serialize (n : N) : string :=
  join "." (map (fun k => N_to_string (N.modulo (N.div n (256 ^ k)) 256)) [3; 2; 1; 0])%N.

(** The IPv4 parser: at most four numbers, all but the last below 256, the
    last below [256 ^ (5 - parts)]. *)
Definition parse_ipv4 (host : list ascii) : option string :=
  let parts := map chars_of (js_split "." (str host)) in
  let parts := if last parts is Some [] then take (length parts - 1) parts else parts in
  match mapM ipv4_number parts with
  | None => None
  | Some nums =>
      let k := length nums in
      if Nat.ltb 4 k || Nat.eqb k 0 then None
      else if existsb (fun x => N.leb 256 x) (take (k - 1) nums) then None
      else
        let lastn := default 0%N (last nums) in
        let width := (256 ^ N.of_nat (5 - k))%N in
        if N.leb width lastn then None
        else
          let pre := foldl (fun acc x => acc * 256 + x)%N 0%N (take (k - 1) nums) in
          Some (ipv4_serialize (pre * width + lastn)%N)
  end%char.

(** Host parser of a special URL. *)
Definition parse_host (h : list ascii) : option string :=
  let h := map lower_ascii h in
  if decide (h = []) then None
  else if existsb forbidden_host_char h then None
  else if ends_in_number h then parse_ipv4 h
  else Some (str h).

Definition default_port (scheme : string) : option N :=
  if String.eqb scheme "http" || String.eqb scheme "ws" then Some 80%N
  else if String.eqb scheme "https" || String.eqb scheme "wss" then Some 443%N
  else if String.eqb scheme "ftp" then Some 21%N else None.

(** Port: empty, or decimal below 65536; the default port serialises as the empty string. *)
Definition parse_port (scheme : string) (p : list ascii) : option string :=
  match p with
  | [] => Some EmptyString
  | _ =>
      match parse_radix 10 p with
      | None => None
      | Some n =>
          if N.leb 65536 n then None
          else if default_port scheme is Some d then
                 (if N.eqb n d then Some EmptyString else Some (N_to_string n))
               else Some (N_to_string n)
      end
  end.

(** The special schemes but [file], whose host rules are not modelled (a
    [file:] URL is parsed as a non-special one). *)
Definition is_special (scheme : string) : bool :=
  existsb (String.eqb scheme) ["http"; "https"; "ws"; "wss"; "ftp"].

Definition is_path_end (c : ascii) : bool := Ascii.eqb c "?" || Ascii.eqb c "#".

(** Path and query: [pathname] up to [?] or [#], [search] up to [#]. *)
Definition path_and_query (special : bool) (l : list ascii) : string * string :=
  let '(p, rest) := break is_path_end l in
  let p := if special then map (fun c => if Ascii.eqb c "092" then "/"%char else c) p else p in
  let p := if special && bool_decide (p = []) then ["/"%char] else p in
  let q := match rest with
           | "?" :: r => let '(q, _) := break (Ascii.eqb "#") r in
                          if decide (q = []) then EmptyString else str ("?" :: q)
           | _ => EmptyString
           end%char in
  (str p, q).

Definition is_authority_end (special : bool) (c : ascii) : bool :=
  Ascii.eqb c "/" || Ascii.eqb c "?" || Ascii.eqb c "#" || (special && Ascii.eqb c "092").

(** Authority: userinfo ends at the last [@]; the port follows the last [:]. *)
Definition parse_authority (scheme : string) (auth : list ascii)
    : option (string * string) :=
  let hostport := if rsplit "@" auth is Some (_, hp) then hp else auth in
  let '(h, p) := if rsplit ":" hostport is Some (h, p) then (h, p) else (hostport, []) in
  match parse_host h, parse_port scheme p with
  | Some host, Some port => Some (host, port)
  | _, _ => None
  end%char.

Fixpoint drop_slashes (l : list ascii) : list ascii :=
  match l with
  | c :: l' => if Ascii.eqb c "/" || Ascii.eqb c "092" then drop_slashes l' else l
  | [] => []
  end%char.

(** [new URL(input)] for an absolute URL; [None] when the constructor throws. *)
Definition new_URL (input : string) : option url_parts :=
  let l := trim_c0 (chars_of input) in
  match l with
  | c :: _ =>
      if negb (is_letter c) then None else
      let '(sch, rest) := break (fun c => negb (is_scheme_char c)) l in
      match rest with
      | ":" :: after =>
          let scheme := lower (str sch) in
          if is_special scheme then
            let after := drop_slashes after in
            let '(auth, tail) := break (is_authority_end true) after in
            match parse_authority scheme auth with
            | Some (host, port) =>
                let '(p, q) := path_and_query true tail in
                Some (mk_url (scheme +:+ ":") host port p q)
            | None => None
            end
          else
            match after with
            | "/" :: "/" :: after' =>
                let '(auth, tail) := break (is_authority_end false) after' in
                let '(p, q) := path_and_query false tail in
                if decide (auth = []) then Some (mk_url (scheme +:+ ":") EmptyString EmptyString p q) else
                match parse_authority scheme auth with
                | Some (host, port) => Some (mk_url (scheme +:+ ":") host port p q)
                | None => None
                end
            | _ =>
                let '(p, q) := path_and_query false after in
                Some (mk_url (scheme +:+ ":") EmptyString EmptyString p q)
            end
      | _ => None
      end
  | [] => None
  end%char.
