(* ===== verification/Json.v ===== *)
(** * JSON values and the oracle's reply, as the handlers read them

    The three AI-assisted handlers read the chat-completion reply of the AI
    gateway with optional chaining ([aiData.choices?.[0]?.message?.content]),
    pick the first [{...}] block out of the text with a greedy regular
    expression, [JSON.parse] it, and then read [isPhishing], [confidence],
    [reasoning], ... with JavaScript's truthiness, [||] and implicit number
    conversion.  This file models JS values ([jvalue]), those operators, the
    gateway reply ([gateway_reply]), the extraction of the content and of the
    JSON block, and [JSON.parse] as an interface ([JsonParser]) with a concrete
    instance used by the examples. *)

From Stdlib Require Import Ascii String QArith.
From stdpp Require Import base list strings.
From S2P Require Import Prelude Regex.

Local Open Scope list_scope.
#[local] Set Warnings "-register-all".

(** A JavaScript value reachable from a parsed JSON document. *)
Inductive jvalue : Type :=
| JUndefined
| JNull
| JBool (b : bool)
| JNum (q : Q)
| JStr (s : string)
| JArr (l : list jvalue)
| JObj (fields : list (string * jvalue)).

(** Property access [o.k] on an object: the last binding wins, as with the
    duplicate keys of [JSON.parse]; other receivers have none of the keys the
    handlers read. *)
Definition assoc_last (k : string) (fs : list (string * jvalue)) : option jvalue :=
  foldl (fun acc kv => if String.eqb kv.1 k then Some kv.2 else acc) None fs.

Definition get (v : jvalue) (k : string) : jvalue :=
  match v with
  | JObj fs => default JUndefined (assoc_last k fs)
  | _ => JUndefined
  end.

(** [o?.[0]]: element 0 of an array, property "0" of an object. *)
Definition index0 (v : jvalue) : jvalue :=
  match v with
  | JArr (x :: _) => x
  | JObj _ => get v "0"
  | _ => JUndefined
  end.

(** Optional chaining: [o?.k] is [undefined] when [o] is [null] or [undefined]. *)
Definition get_opt (v : jvalue) (k : string) : jvalue :=
  match v with JUndefined | JNull => JUndefined | _ => get v k end.
Definition index0_opt (v : jvalue) : jvalue :=
  match v with JUndefined | JNull => JUndefined | _ => index0 v end.

(** Truthiness: [undefined], [null], [false], [0], [NaN] and the empty string are falsy. *)
Definition truthy (v : jvalue) : bool :=
  match v with
  | JUndefined | JNull => false
  | JBool b => b
  | JNum q => negb (Qeq_bool q 0)
  | JStr s => negb (String.eqb s EmptyString)
  | JArr _ | JObj _ => true
  end.

(** [a || b] *)
Definition js_or (a b : jvalue) : jvalue := if truthy a then a else b.

(** [StringToNumber] (ECMAScript 7.1.4.1.1) on ASCII input: surrounding
    white space is trimmed; an empty string is 0; a [StrDecimalLiteral]
    (optional sign, digits with an optional fraction, an optional exponent
    [e]/[E] with its own sign) or "Infinity" with an optional sign; or a
    [NonDecimalIntegerLiteral] ([0x], [0o], [0b] and their upper-case
    forms, without sign).  Anything else is NaN.  A literal is read as an
    exact rational: the rounding and the overflow of a double are not
    modelled. *)
Inductive num_lit := LFinite (q : Q) | LInfinity (negative : bool).

Fixpoint digits_value (l : list ascii) (acc : Z) : option (Z * nat) :=
  match l with
  | [] => Some (acc, 0%nat)
  | c :: l' =>
      if is_digit c then
        match digits_value l' (acc * 10 + (Z.of_nat (nat_of_ascii c) - 48))%Z with
        | Some (v, n) => Some (v, S n)
        | None => None
        end
      else None
  end.

(** The value of a digit in radix 2, 8 or 16. *)
Definition radix_digit (radix : Z) (c : ascii) : option Z :=
  let n := Z.of_nat (nat_of_ascii (lower_ascii c)) in
  let v := if is_digit c then (n - 48)%Z
           else if (97 <=? n)%Z && (n <=? 102)%Z then (n - 87)%Z else radix in
  if (v <? radix)%Z then Some v else None.

Fixpoint radix_value (radix : Z) (l : list ascii) (acc : Z) : option Z :=
  match l with
  | [] => Some acc
  | c :: l' => match radix_digit radix c with
               | Some v => radix_value radix l' (acc * radix + v)%Z
               | None => None
               end
  end.

(** An optional exponent: nothing, or [e]/[E], a sign and at least one digit. *)
Definition exponent_value (l : list ascii) : option Z :=
  match l with
  | [] => Some 0%Z
  | e :: r =>
      if Ascii.eqb (lower_ascii e) "e" then
        let '(sgn, r') := match r with
                          | "-" :: r' => (-1, r')
                          | "+" :: r' => (1, r')
                          | _ => (1, r)
                          end%char%Z in
        if decide (r' = []) then None else
        (fun '(v, _) => sgn * v)%Z <$> digits_value r' 0
      else None
  end%char.

(** [StrUnsignedDecimalLiteral]: "Infinity", or digits, an optional
    fraction and an optional exponent, with a digit before or after the
    point. *)
Definition decimal_value (l : list ascii) : option num_lit :=
  if decide (l = list_ascii_of_string "Infinity") then Some (LInfinity false) else
  let int := take_while is_digit l in
  let rest := drop_while is_digit l in
  let '(frac, rest') := match rest with
                        | "." :: f => (take_while is_digit f, drop_while is_digit f)
                        | _ => ([], rest)
                        end%char in
  if decide (int = [] /\ frac = []) then None else
  match digits_value (int ++ frac) 0, exponent_value rest' with
  | Some (m, _), Some e =>
      Some (LFinite (inject_Z m * Qpower (inject_Z 10) (e - Z.of_nat (length frac)))%Q)
  | _, _ => None
  end.

Definition negate_lit (x : num_lit) : num_lit :=
  match x with LFinite q => LFinite (- q)%Q | LInfinity n => LInfinity (negb n) end.

(** [StringNumericLiteral] after trimming. *)
Definition numeric_literal_value (s : string) : option num_lit :=
  let l := reverse (drop_while is_space (reverse (drop_while is_space (list_ascii_of_string s)))) in
  match l with
  | [] => Some (LFinite 0%Q)
  | "0" :: x :: r =>
      let x' := lower_ascii x in
      if Ascii.eqb x' "x" then (fun v => LFinite (inject_Z v)) <$> (if decide (r = []) then None else radix_value 16 r 0)
      else if Ascii.eqb x' "o" then (fun v => LFinite (inject_Z v)) <$> (if decide (r = []) then None else radix_value 8 r 0)
      else if Ascii.eqb x' "b" then (fun v => LFinite (inject_Z v)) <$> (if decide (r = []) then None else radix_value 2 r 0)
      else decimal_value l
  | "-" :: r => negate_lit <$> decimal_value r
  | "+" :: r => decimal_value r
  | _ => decimal_value l
  end%char.

(** Whether [Number(s)] is not NaN. *)
Definition numeric_literal (s : string) : bool := bool_decide (is_Some (numeric_literal_value s)).

(** The number of a string.  The infinities are not values of [jsnum]: for
    "Infinity" and its signed forms the model answers NaN, and no theorem
    depends on it (those that read a string number assume
    [numeric_literal s = false], which excludes them). *)
Definition string_to_number (s : string) : jsnum :=
  match numeric_literal_value s with
  | Some (LFinite q) => Some q
  | _ => NaN
  end.

(** [ToNumber] as used by [x / 2] and [Math.max(x, y)].  An array goes
    through [ToPrimitive], that is [join(",")]: an empty array and a one-element
    array holding [null] or [undefined] give [""], hence 0; a one-element array
    gives its element's string; two elements give a string with a comma, NaN. *)
Fixpoint to_number (v : jvalue) : jsnum :=
  match v with
  | JUndefined => NaN
  | JNull => Some 0%Q
  | JBool b => Some (if b then 1 else 0)%Q
  | JNum q => Some q
  | JStr s => string_to_number s
  | JArr [] => Some 0%Q
  | JArr [x] =>
      match x with
      | JUndefined | JNull => Some 0%Q
      | JBool _ | JObj _ => NaN
      | _ => to_number x
      end
  | JArr _ | JObj _ => NaN
  end.

(** [Number.prototype.toString], the rendering of a number in a template
    literal: supplied by the runtime.  Every theorem holds for any instance. *)
Class NumberFormat := number_to_string : Q -> string.

(** [ToString] of a value in a template literal [`${v}`]: an array is
    [join(",")] of its elements, [null] and [undefined] inside it giving the
    empty string; a plain object is ["[object Object]"]. *)
Fixpoint to_js_string {NF : NumberFormat} (v : jvalue) : string :=
  match v with
  | JUndefined => "undefined"
  | JNull => "null"
  | JBool b => if b then "true" else "false"
  | JNum q => number_to_string q
  | JStr s => s
  | JArr l =>
      join "," (map (fun x => match x with
                              | JUndefined | JNull => EmptyString
                              | _ => to_js_string x
                              end) l)
  | JObj _ => "[object Object]"
  end.

(** ** The reply of the AI gateway

    [fetch] either rejects (network failure), or resolves to a response whose
    [ok] flag is false (an HTTP error status), or to a successful response
    whose body [aiResponse.json()] either parses ([Some]) or throws ([None]). *)
Inductive gateway_reply : Type :=
| NetworkError
| HttpError (status : Z)
| HttpOk (body : option jvalue).

(** [aiData.choices?.[0]?.message?.content || "{}"]; [None] when [aiData] is
    [null] or [undefined] and reading [choices] throws. *)
Definition reply_content (aiData : jvalue) : option jvalue :=
  match aiData with
  | JUndefined | JNull => None
  | _ => Some (js_or (get_opt (get_opt (index0_opt (get aiData "choices")) "message") "content")
                     (JStr "{}"))
  end.

(** The lenient decoding step: [/\{[\s\S]*\}/], the text from the first [{] to
    the last [}] after it. *)
Definition json_block_re : regex := RSeq (chr "{") (RSeq (rstar any_char) (chr "}"))%char.

Definition json_block (s : string) : option string := re_match json_block_re s.

(** [JSON.parse]: [None] when it throws. *)
Class JsonParser := json_parse : string -> option jvalue.

(** The AI gateway: what [fetch] yields for the request a handler sends.  A
    handler's theorems hold for every gateway. *)
Class Gateway (Req : Type) := ask : Req -> gateway_reply.

(** Property access that throws on [null] and [undefined] receivers. *)
Definition prop (v : jvalue) (k : string) : option jvalue :=
  match v with JUndefined | JNull => None | _ => Some (get v k) end.

(** The spread [...v] of a truthy value; [None] when it is not iterable. *)
Definition spread (v : jvalue) : option (list jvalue) :=
  match v with
  | JArr l => Some l
  | JStr s => Some (map (fun c => JStr (String c EmptyString)) (list_ascii_of_string s))
  | _ => None
  end.

(** SameValueZero, the equality of a [Set]: primitives by value; every object
    or array that [JSON.parse] builds is a distinct reference. *)
Definition same_value_zero (a b : jvalue) : bool :=
  match a, b with
  | JUndefined, JUndefined | JNull, JNull => true
  | JBool x, JBool y => Bool.eqb x y
  | JNum x, JNum y => Qeq_bool x y
  | JStr x, JStr y => String.eqb x y
  | _, _ => false
  end.

(** [[...new Set(l)]] on JS values. *)
Definition set_add_v (acc : list jvalue) (x : jvalue) : list jvalue :=
  if existsb (same_value_zero x) acc then acc else acc ++ [x].
Definition set_dedup_v (l : list jvalue) : list jvalue := foldl set_add_v [] l.

(** The strings of a list of values. *)
Definition strings_of (l : list jvalue) : list string :=
  omap (fun v => match v with JStr s => Some s | _ => None end) l.

(** ** A concrete [JSON.parse] for the examples

    Recursive descent over the characters; the fuel [3 * length + 3] covers
    the three nested calls a value, a member list and a value make per
    character consumed.  Escapes [\uXXXX] above 255 become [?]. *)

Definition quote : ascii := "034"%char.
Definition backslash : ascii := "092"%char.

Definition is_json_ws (c : ascii) : bool :=
  let n := nat_of_ascii c in Nat.eqb n 32 || Nat.eqb n 9 || Nat.eqb n 10 || Nat.eqb n 13.
Definition skip_ws (l : list ascii) : list ascii := drop_while is_json_ws l.

Definition hex4 (a b c d : ascii) : option ascii :=
  if forallb is_hex_digit [a; b; c; d] then
    let v := foldl (fun acc x => acc * 16 + (if is_digit x then nat_of_ascii x - 48
                                             else nat_of_ascii (lower_ascii x) - 87))
                   0 [a; b; c; d] in
    Some (if Nat.ltb v 256 then ascii_of_nat v else "?"%char)
  else None.

Definition simple_escape (e : ascii) : option ascii :=
  if Ascii.eqb e quote then Some quote
  else if Ascii.eqb e backslash then Some backslash
  else if Ascii.eqb e "/"%char then Some "/"%char
  else if Ascii.eqb e "b"%char then Some (ascii_of_nat 8)
  else if Ascii.eqb e "f"%char then Some (ascii_of_nat 12)
  else if Ascii.eqb e "n"%char then Some (ascii_of_nat 10)
  else if Ascii.eqb e "r"%char then Some (ascii_of_nat 13)
  else if Ascii.eqb e "t"%char then Some (ascii_of_nat 9)
  else None.

(** The characters of a string literal after its opening quote. *)
Fixpoint parse_chars (l : list ascii) (acc : list ascii) : option (string * list ascii) :=
  match l with
  | [] => None
  | c :: r =>
      if Ascii.eqb c quote then Some (string_of_list_ascii (reverse acc), r)
      else if Ascii.eqb c backslash then
        match r with
        | "u" :: a :: b :: c' :: d :: r' => match hex4 a b c' d with
                                           | Some x => parse_chars r' (x :: acc)
                                           | None => None
                                           end
        | e :: r' => match simple_escape e with
                     | Some x => parse_chars r' (x :: acc)
                     | None => None
                     end
        | [] => None
        end
      else if Nat.ltb (nat_of_ascii c) 32 then None
      else parse_chars r (c :: acc)
  end%char.

(** [-? (0 | [1-9][0-9]* ) (. [0-9]+)? ([eE] [+-]? [0-9]+)?] *)
Definition parse_number (l : list ascii) : option (Q * list ascii) :=
  let '(neg, l1) := match l with "-" :: r => (true, r) | _ => (false, l) end%char in
  let int := take_while is_digit l1 in
  let l2 := drop_while is_digit l1 in
  let int_ok := match int with
                | [] => false
                | "0" :: _ :: _ => false
                | _ => true
                end%char in
  let '(frac, l3, frac_ok) :=
    match l2 with
    | "." :: r => (take_while is_digit r, drop_while is_digit r,
                   negb (bool_decide (take_while is_digit r = [])))
    | _ => ([], l2, true)
    end%char in
  let '(expo, l4, exp_ok) :=
    match l3 with
    | e :: r =>
        if Ascii.eqb (lower_ascii e) "e" then
          let '(sgn, r') := match r with
                            | "-" :: r' => (-1, r')
                            | "+" :: r' => (1, r')
                            | _ => (1, r)
                            end%char%Z in
          let ds := take_while is_digit r' in
          (sgn * default 0 (fst <$> digits_value ds 0), drop_while is_digit r',
           negb (bool_decide (ds = [])))%Z
        else (0%Z, l3, true)
    | [] => (0%Z, l3, true)
    end%char in
  if int_ok && frac_ok && exp_ok then
    match digits_value (int ++ frac) 0 with
    | Some (m, _) =>
        let q := (inject_Z m * Qpower (inject_Z 10) (expo - Z.of_nat (length frac)))%Q in
        Some (if neg then (- q)%Q else q, l4)
    | None => None
    end
  else None.

Fixpoint parse_value (fuel : nat) (l : list ascii) : option (jvalue * list ascii) :=
  match fuel with
  | O => None
  | S f =>
      match skip_ws l with
      | "{" :: r => match skip_ws r with
                    | "}" :: r' => Some (JObj [], r')
                    | r' => parse_members f r' []
                    end
      | "[" :: r => match skip_ws r with
                    | "]" :: r' => Some (JArr [], r')
                    | r' => parse_elems f r' []
                    end
      | "t" :: "r" :: "u" :: "e" :: r => Some (JBool true, r)
      | "f" :: "a" :: "l" :: "s" :: "e" :: r => Some (JBool false, r)
      | "n" :: "u" :: "l" :: "l" :: r => Some (JNull, r)
      | c :: r =>
          if Ascii.eqb c quote then
            (fun '(s, r') => (JStr s, r')) <$> parse_chars r []
          else (fun '(q, r') => (JNum q, r')) <$> parse_number (c :: r)
      | [] => None
      end
  end%char
with parse_members (fuel : nat) (l : list ascii) (acc : list (string * jvalue))
    : option (jvalue * list ascii) :=
  match fuel with
  | O => None
  | S f =>
      match l with
      | c :: r =>
          if negb (Ascii.eqb c quote) then None else
          match parse_chars r [] with
          | Some (k, r1) =>
              match skip_ws r1 with
              | ":" :: r2 =>
                  match parse_value f r2 with
                  | Some (v, r3) =>
                      match skip_ws r3 with
                      | "," :: r4 => parse_members f (skip_ws r4) ((k, v) :: acc)
                      | "}" :: r4 => Some (JObj (reverse ((k, v) :: acc)), r4)
                      | _ => None
                      end
                  | None => None
                  end
              | _ => None
              end
          | None => None
          end
      | [] => None
      end
  end%char
with parse_elems (fuel : nat) (l : list ascii) (acc : list jvalue)
    : option (jvalue * list ascii) :=
  match fuel with
  | O => None
  | S f =>
      match parse_value f l with
      | Some (v, r) =>
          match skip_ws r with
          | "," :: r' => parse_elems f r' (v :: acc)
          | "]" :: r' => Some (JArr (reverse (v :: acc)), r')
          | _ => None
          end
      | None => None
      end
  end%char.

#[export] Instance json_parse_std : JsonParser := fun s =>
  let l := list_ascii_of_string s in
  match parse_value (3 * length l + 3) l with
  | Some (v, rest) => if decide (skip_ws rest = []) then Some v else None
  | None => None
  end.

(** ** Replies for the examples *)

(** A JSON string literal: the text between double quotes. *)
Definition dq (s : string) : string := String quote (s +:+ String quote EmptyString).

(** A chat-completion body whose first choice carries [content]. *)
Definition chat_reply (content : string) : gateway_reply :=
  HttpOk (Some (JObj [("choices", JArr [JObj [("message", JObj [("content", JStr content)])]])])).

(** ** Deduplication of values keeps the strings distinct *)

Lemma strings_of_app (l1 l2 : list jvalue) :
  strings_of (l1 ++ l2) = strings_of l1 ++ strings_of l2.
Proof. apply omap_app. Qed.

Lemma strings_of_cons (v : jvalue) (l : list jvalue) :
  strings_of (v :: l) = match v with JStr s => s :: strings_of l | _ => strings_of l end.
Proof. by destruct v. Qed.

Lemma existsb_same_str (s : string) (acc : list jvalue) :
  s ∈ strings_of acc -> existsb (same_value_zero (JStr s)) acc = true.
Proof.
  induction acc as [|v acc IH]; [by intros ?%elem_of_nil|].
  rewrite strings_of_cons. cbn [existsb]. intros Hin. apply orb_true_iff.
  destruct v; try (right; by apply IH).
  apply elem_of_cons in Hin as [->|Hin]; [left; apply String.eqb_refl | right; by apply IH].
Qed.

Lemma NoDup_strings_foldl_set_add_v (acc l : list jvalue) :
  NoDup (strings_of acc) -> NoDup (strings_of (foldl set_add_v acc l)).
Proof.
  revert acc. induction l as [|x l IH]; intros acc Hacc; simpl; [done|].
  apply IH. unfold set_add_v. destruct (existsb _ acc) eqn:E; [done|].
  rewrite strings_of_app. destruct x; cbn [strings_of omap list_omap]; rewrite ?app_nil_r; try done.
  apply NoDup_app. split_and!; [done| |apply NoDup_singleton].
  intros s' Hs' ->%list_elem_of_singleton. by rewrite existsb_same_str in E.
Qed.

(** No string occurs twice in [[...new Set(l)]]. *)
Lemma set_dedup_v_NoDup_strings (l : list jvalue) : NoDup (strings_of (set_dedup_v l)).
Proof. apply NoDup_strings_foldl_set_add_v. constructor. Qed.

(** A prefix of a list keeps the strings of the list distinct. *)
Lemma strings_of_take_NoDup (n : nat) (l : list jvalue) :
  NoDup (strings_of l) -> NoDup (strings_of (take n l)).
Proof.
  rewrite <- (take_drop n l) at 1. rewrite strings_of_app.
  intros (H & _ & _)%NoDup_app. exact H.
Qed.

(** A string that is not a numeric literal reads as NaN. *)
Lemma string_to_number_not_literal (s : string) :
  numeric_literal s = false -> string_to_number s = NaN.
Proof.
  unfold numeric_literal, string_to_number. intros H%bool_decide_eq_false.
  destruct (numeric_literal_value s); [|done]. by destruct H.
Qed.

Lemma prop_some (v : jvalue) (k : string) (p : jvalue) : prop v k = Some p -> p = get v k.
Proof. destruct v; by intros [= <-]. Qed.
