(* ===== verification/Verdict.v ===== *)
(** * The verdict policy shared by the hybrid URL and e-mail handlers

    Both [analyze-url] and the hybrid [analyze-email] map the oracle's
    [isPhishing]/[confidence] onto the 0-100 axis ([aiScore]), mix it with the
    rule score ([combinedScore] = 0.4 rule + 0.6 ai) and classify the mix
    with the thresholds 50 and 25 ([classify]); the two handlers repeat the
    same lines (analyze-logo/index.ts 457-466, part_001 297-303).  The
    arithmetic is on JS numbers ([jsnum]): a confidence that is not a number
    makes the mix NaN.

    [Spec] states the policy of the specification (§4.4) on rationals, for a
    well-formed oracle signal; [UrlHandler] and [EmailHybrid] prove their
    handlers refine it when the oracle's reply is well formed. *)

From Stdlib Require Import String QArith Qminmax Lqa.
From stdpp Require Import base list strings decidable.
From S2P Require Import Prelude Json.

Inductive verdict : Type := Safe | Suspicious | Phishing | Unknown.

#[export] Instance verdict_eq_dec : EqDecision verdict.
Proof. solve_decision. Defined.

Definition verdict_string (v : verdict) : string :=
  match v with
  | Safe => "safe" | Suspicious => "suspicious" | Phishing => "phishing" | Unknown => "unknown"
  end.

(** [aiAnalysis.isPhishing ? 50 + (aiAnalysis.confidence || 50) / 2
                            : 50 - (aiAnalysis.confidence || 50) / 2] *)
Definition aiScore (isPhishing confidence : jvalue) : jsnum :=
  let half := jdiv (to_number (js_or confidence (JNum 50))) (jlit 2) in
  if truthy isPhishing then jadd (jlit 50) half else jsub (jlit 50) half.

(** [(ruleBasedScore * 0.4) + (aiScore * 0.6)] *)
Definition combinedScore (ruleBasedScore : Q) (ai : jsnum) : jsnum :=
  jadd (jmul (jlit ruleBasedScore) (jlit (4 # 10))) (jmul ai (jlit (6 # 10))).

(** [combinedScore >= 50 ? "phishing" : combinedScore >= 25 ? "suspicious" : "safe"] *)
Definition classify (combined : jsnum) : verdict :=
  if jge combined (jlit 50) then Phishing
  else if jge combined (jlit 25) then Suspicious
  else Safe.

(** ** The policy of the specification, on a well-formed signal *)
Module Spec.
(** Oracle verdict [positive] with confidence [conf] in [0, 100]. *)
Definition oracle_scaled (positive : bool) (conf : Q) : Q :=
  if positive then 50 + conf / 2 else 50 - conf / 2.

Definition combined (rule : Q) (positive : bool) (conf : Q) : Q :=
  rule * (4 # 10) + oracle_scaled positive conf * (6 # 10).

Definition verdict_of (c : Q) : verdict :=
  if Qle_bool 50 c then Phishing else if Qle_bool 25 c then Suspicious else Safe.
End Spec.

(** ** Properties of the combination *)

Lemma classify_some (c : Q) : classify (Some c) = Spec.verdict_of c.
Proof. reflexivity. Qed.

(** NaN fails both comparisons: a NaN mix is classified safe. *)
Lemma classify_nan : classify NaN = Safe.
Proof. reflexivity. Qed.

(** The thresholds never answer "unknown". *)
Lemma classify_not_unknown (c : jsnum) : classify c <> Unknown.
Proof. unfold classify. by destruct (jge c (jlit 50)), (jge c (jlit 25)). Qed.

Lemma Qeq_bool_false (q : Q) : ~ (q == 0)%Q -> Qeq_bool q 0 = false.
Proof. intros H. destruct (Qeq_bool q 0) eqn:E; [|done]. by apply Qeq_bool_iff in E. Qed.

(** On a boolean verdict and a non-zero numeric confidence, [aiScore] is the
    specification's [oracle_scaled]. *)
Lemma aiScore_wellformed (b : bool) (q : Q) :
  ~ (q == 0)%Q -> aiScore (JBool b) (JNum q) = Some (Spec.oracle_scaled b q).
Proof.
  intros Hq. unfold aiScore, js_or. cbn [truthy]. rewrite Qeq_bool_false by done.
  by destruct b.
Qed.

Lemma combined_wellformed (rule : Q) (b : bool) (q : Q) :
  ~ (q == 0)%Q ->
  classify (combinedScore rule (aiScore (JBool b) (JNum q))) =
  Spec.verdict_of (Spec.combined rule b q).
Proof. intros Hq. by rewrite aiScore_wellformed. Qed.
