(* ===== verification/Scoring.v ===== *)
(** * Additive rule scoring, shared by the URL, e-mail and logo scorers

    [calculateRiskScore] and [calculateEmailRiskScore] are each a sequence of
    [if (condition) { score += points; threats.push(message); }] blocks
    followed by [Math.min(100, score)].  [run_rules] runs such a sequence,
    given as a table of (condition, points, message) rows in source order;
    the lemmas here give its score and threat list in closed form and the
    bounds, no-duplicate and explanation properties both scorers inherit. *)

From Stdlib Require Import String QArith Qminmax Lqa.
From stdpp Require Import base list strings.
From S2P Require Import Prelude.

Local Open Scope list_scope.

(** A row: the rule's condition, its points, its explanation. *)
Definition score_rule : Type := bool * Q * string.

Definition fires (r : score_rule) : bool := r.1.1.
Definition points (r : score_rule) : Q := r.1.2.
Definition message (r : score_rule) : string := r.2.

(** One [if] block: [score += points; threats.push(message)]. *)
Definition rule (st : Q * list string) (r : score_rule) : Q * list string :=
  if fires r then ((st.1 + points r)%Q, st.2 ++ [message r]) else st.

Definition run_rules (rs : list score_rule) : Q * list string := foldl rule (0%Q, []) rs.

(** Sum of the points of the rules that fire. *)
Definition fired_points (rs : list score_rule) : Q :=
  foldr (fun r acc => (if fires r then points r else 0) + acc)%Q 0%Q rs.

Section RunRules.
Implicit Types rs : list score_rule.

Lemma foldl_rule_closed rs st :
  (foldl rule st rs).2 = st.2 ++ map message (filter (fun r => fires r = true) rs) /\
  ((foldl rule st rs).1 == st.1 + fired_points rs)%Q.
Proof.
  revert st; induction rs as [|r rs IH]; intros st; simpl.
  - rewrite app_nil_r. split; [done|ring].
  - destruct (IH (rule st r)) as [H2 H1]. rewrite H2, H1. unfold rule.
    rewrite filter_cons. destruct (fires r); simpl.
    + rewrite <- app_assoc. split; [done|ring].
    + split; [done|ring].
Qed.

Lemma run_rules_threats rs :
  (run_rules rs).2 = map message (filter (fun r => fires r = true) rs).
Proof. apply (foldl_rule_closed rs (0%Q, [])). Qed.

Lemma run_rules_score rs : ((run_rules rs).1 == fired_points rs)%Q.
Proof. unfold run_rules. rewrite (proj2 (foldl_rule_closed rs _)). simpl. ring. Qed.

(** Every rule that fires adds a non-negative amount. *)
Definition rules_nonneg rs : Prop :=
  Forall (fun r => fires r = true -> (0 <= points r)%Q) rs.
(** Every rule that fires adds a positive amount. *)
Definition rules_pos rs : Prop :=
  Forall (fun r => fires r = true -> (0 < points r)%Q) rs.

Lemma fired_points_nonneg rs : rules_nonneg rs -> (0 <= fired_points rs)%Q.
Proof.
  induction 1 as [|r rs Hr _ IH]; simpl; [lra|].
  destruct (fires r); [specialize (Hr eq_refl)|]; lra.
Qed.

Lemma fired_points_pos_iff rs :
  rules_pos rs ->
  ((0 < fired_points rs)%Q <-> filter (fun r => fires r = true) rs <> []).
Proof.
  induction 1 as [|r rs Hr Hrs IH]; simpl; [split; [lra|done]|].
  assert (0 <= fired_points rs)%Q.
  { apply fired_points_nonneg. eapply Forall_impl; [exact Hrs|].
    intros r' H' Hf. specialize (H' Hf). lra. }
  rewrite filter_cons. destruct (fires r) eqn:E; simpl.
  - specialize (Hr eq_refl). split; [done|lra].
  - rewrite <- IH. lra.
Qed.

Lemma run_rules_nonneg rs : rules_nonneg rs -> (0 <= (run_rules rs).1)%Q.
Proof. intros H. rewrite run_rules_score. by apply fired_points_nonneg. Qed.

(** The threats explain the score: the score is positive exactly when at
    least one threat is reported. *)
Lemma run_rules_explained rs :
  rules_pos rs -> ((0 < (run_rules rs).1)%Q <-> (run_rules rs).2 <> []).
Proof.
  intros H. rewrite run_rules_score, run_rules_threats, fired_points_pos_iff by done.
  split; intros Hne Hnil; apply Hne; [by apply map_eq_nil in Hnil|by rewrite Hnil].
Qed.

(** Distinct messages in the table give distinct threats. *)
Lemma run_rules_NoDup rs :
  NoDup (map message rs) -> NoDup (run_rules rs).2.
Proof.
  rewrite run_rules_threats. induction rs as [|r rs IH]; simpl; [done|].
  rewrite filter_cons. intros [Hr Hrs]%NoDup_cons.
  destruct (fires r); simpl; [|by apply IH]. apply NoDup_cons. split; [|by apply IH].
  intros Hin. apply Hr. rewrite list_elem_of_In in Hin |- *.
  apply in_map_iff in Hin as (r' & <- & Hin). apply in_map.
  rewrite <- list_elem_of_In, list_elem_of_filter in Hin.
  apply list_elem_of_In. by destruct Hin.
Qed.

(** [Math.min(100, score)] of a non-negative score lies in [0, 100]. *)
Lemma min100_bounds (s : Q) : (0 <= s)%Q -> (0 <= Qmin 100 s <= 100)%Q.
Proof.
  intros H. split.
  - apply Q.min_glb; lra.
  - apply Q.le_min_l.
Qed.
Lemma min100_pos (s : Q) : (0 < Qmin 100 s)%Q <-> (0 < s)%Q.
Proof.
  split; intros H.
  - apply Qnot_le_lt. intros Hs. apply (Qlt_not_le _ _ H).
    apply Q.min_le_iff. right. exact Hs.
  - apply Q.min_glb_lt; [reflexivity|exact H].
Qed.
(** When every row that fires is worth at least [m], a non-zero total is at
    least [m]. *)
Lemma fired_points_gap (m : Q) rs :
  (0 <= m)%Q -> Forall (fun r => fires r = true -> (m <= points r)%Q) rs ->
  (fired_points rs == 0)%Q \/ (m <= fired_points rs)%Q.
Proof.
  intros Hm. induction 1 as [|r rs Hr _ IH]; simpl; [by left|].
  destruct (fires r); [specialize (Hr eq_refl)|]; destruct IH as [H|H].
  - right. rewrite H. lra.
  - right. assert (0 <= fired_points rs)%Q by lra. lra.
  - left. rewrite H. reflexivity.
  - right. lra.
Qed.
End RunRules.

(** Split a property of every row of a concrete table into one goal per row,
    with the row's condition as a hypothesis. *)
Ltac by_rows :=
  unfold rules_nonneg, rules_pos;
  repeat (apply Forall_cons; split); try apply Forall_nil_2;
  unfold fires, points; cbn [fst snd]; intros ?Hfires.

(** Use the row's condition to instantiate the hypotheses that need it. *)
Ltac use_fires :=
  repeat match goal with
  | H : ?b = true -> _, Hf : ?b = true |- _ => specialize (H Hf)
  end.

#[export] Hint Resolve run_rules_nonneg run_rules_NoDup min100_bounds : secure.
