(* ===== verification/UrlAnalyzer.v ===== *)
(** * The URL analyser: feature extraction and rule-based risk score

    Models [extractUrlFeatures], [calculateEntropy], [calculateConsonantRatio]
    and [calculateRiskScore] of the [analyze-url] edge function
    (src/supabase/functions/analyze-logo/index.ts, lines 148-348, the second
    function bundled in that file).  The HTTP handler that uses them is in
    [UrlHandler].

    Shannon entropy is a real number; the record keeps what determines it (the
    length and the character frequencies, a [gmap] as the code's [freq]
    object), and [entropy_gt] decides [entropy > a/b] exactly on integers. *)

From Stdlib Require Import Ascii String QArith Qminmax ZArith Lqa.
From stdpp Require Import base list gmap strings.
From S2P Require Import Prelude Regex Url Scoring.

Module UrlAnalyzer.

(** ** Dictionaries (constants of [extractUrlFeatures]) *)

(** The suspicious-keyword list, in source order; ['verify'] occurs twice. *)
Definition suspiciousKeywords_dict : list string :=
  ["login"; "signin"; "verify"; "secure"; "account"; "update"; "confirm";
   "banking"; "password"; "credential"; "suspended"; "unusual"; "alert";
   "verify"; "wallet"; "paypal"; "apple"; "microsoft"; "google"; "facebook";
   "amazon"; "netflix"; "support"; "help"; "service"; "billing"; "payment";
   "authenticate"; "validation"; "security"; "urgent"; "immediately"; "action";
   "required"; "expire"; "limited"; "restore"; "unlock"; "reactivate"].

Definition suspiciousTlds : list string :=
  [".xyz"; ".top"; ".tk"; ".ml"; ".ga"; ".cf"; ".gq"; ".pw"; ".cc";
   ".club"; ".online"; ".site"; ".website"; ".space"; ".icu"; ".buzz"].

(** ** Entropy *)

(** [freq[char] = (freq[char] || 0) + 1] for each character. *)
Fixpoint char_freq (s : string) (freq : gmap ascii nat) : gmap ascii nat :=
  match s with
  | EmptyString => freq
  | String c s' => char_freq s' (<[c := default 0 (freq !! c) + 1]> freq)
  end.

Record entropy_val := mk_entropy { ent_len : nat; ent_freq : gmap ascii nat }.

(** [calculateEntropy(str)] = - sum over characters of p log2 p, p = count / length. *)
Definition calculateEntropy (str : string) : entropy_val :=
  mk_entropy (String.length str) (char_freq str ∅).

(** [H > a/b]  iff  [n^(b n) > 2^(a n) * prod_c c^(b c)], n the length. *)
Definition entropy_gt (e : entropy_val) (a b : positive) : bool :=
  let n := Z.of_nat (ent_len e) in
  let prod := map_fold (fun _ c acc => acc * Z.of_nat c ^ (Z.of_nat c * Zpos b))%Z 1%Z
                       (ent_freq e) in
  Z.ltb (2 ^ (Zpos a * n) * prod) (n ^ (n * Zpos b)).

(** ** Character classes of the counting regexes *)

Definition is_consonant (c : ascii) : bool :=
  existsb (Ascii.eqb (lower_ascii c))
    ["b"; "c"; "d"; "f"; "g"; "h"; "j"; "k"; "l"; "m"; "n"; "p"; "q"; "r"; "s";
     "t"; "v"; "w"; "x"; "y"; "z"]%char.

(** [calculateConsonantRatio(str)] *)
Definition calculateConsonantRatio (str : string) : jsnum :=
  let consonants := count_class is_consonant str in
  let letters := count_class is_letter str in
  if Nat.ltb 0 letters then jdiv (jnat consonants) (jnat letters) else jlit 0.

(** [/\d{1,3}\.\d{1,3}\.\d{1,3}\.\d{1,3}/] *)
Definition ipv4_re : regex :=
  let d := rep 1 3 digit in
  RSeq d (RSeq (chr ".") (RSeq d (RSeq (chr ".") (RSeq d (RSeq (chr ".") d)))))%char.

(** [/%[0-9a-fA-F]{2}/] *)
Definition encoded_re : regex := RSeq (chr "%") (rep 2 2 (RClass is_hex_digit))%char.

(** ** Features *)

Record UrlFeatures := mkUrlFeatures {
  urlLength : nat;            (** [length] *)
  numDots : nat;
  numHyphens : nat;
  numUnderscores : nat;
  numSlashes : nat;
  numDigits : nat;
  numAtSymbols : nat;
  hasHttps : bool;
  hasIpAddress : bool;
  hasSuspiciousTld : bool;
  hasSuspiciousKeywords : bool;
  hasEncodedChars : bool;
  domainLength : nat;
  pathLength : nat;
  queryLength : nat;
  numSubdomains : nat;
  hasPortNumber : bool;
  suspiciousKeywords : list string;
  entropy : entropy_val;
  consonantRatio : jsnum;
  digitRatio : jsnum
}.

(** [suspiciousKeywords.filter(kw => url.toLowerCase().includes(kw))] *)
Definition found_keywords (url : string) : list string :=
  filter (fun kw => includes (lower url) kw = true) suspiciousKeywords_dict.

(** [extractUrlFeatures(url)]: [new URL] on the input, or on ["https://" + url]
    when it does not start with ["http"]; when the constructor throws, the
    string-level features with the structural ones zeroed. *)
Definition extractUrlFeatures (url : string) : UrlFeatures :=
  let count c := count_char c url in
  let digits := count_class is_digit url in
  match new_URL (if starts_with url "http" then url else "https://" +:+ url) with
  | None =>
      mkUrlFeatures (String.length url) (count ".") (count "-") (count "_") (count "/")
        digits (count "@") false
        (re_test ipv4_re url)
        (existsb (fun tld => includes (lower url) tld) suspiciousTlds)
        (existsb (fun kw => includes (lower url) kw) suspiciousKeywords_dict)
        (re_test encoded_re url)
        0 0 0 0 false
        (found_keywords url)
        (calculateEntropy url)
        (calculateConsonantRatio url)
        (jdiv (jnat digits) (jnat (String.length url)))
  | Some parsed =>
      let host := hostname parsed in
      let subdomains := length (js_split "." host) - 2 in
      let foundKeywords := found_keywords url in
      mkUrlFeatures (String.length url) (count ".") (count "-") (count "_") (count "/")
        digits (count "@")
        (String.eqb (protocol parsed) "https:")
        (re_test ipv4_re host)
        (existsb (fun tld => ends_with (lower host) tld) suspiciousTlds)
        (Nat.ltb 0 (length foundKeywords))
        (re_test encoded_re url)
        (String.length host) (String.length (pathname parsed)) (String.length (search parsed))
        (Nat.max 0 subdomains)
        (negb (String.eqb (port parsed) EmptyString))
        foundKeywords
        (calculateEntropy url)
        (calculateConsonantRatio host)
        (jdiv (jnat digits) (jnat (String.length url)))
  end%char.

(** ** Rule-based score *)

Definition keyword_threat (f : UrlFeatures) : string :=
  "Phishing keywords detected: " +:+ join ", " (take 3 (suspiciousKeywords f)).

(** The [if] blocks of [calculateRiskScore], in source order. *)
Definition url_rules (f : UrlFeatures) : list score_rule :=
  [(hasIpAddress f, 25, "IP address used instead of domain name");
   (negb (hasHttps f), 10, "Insecure HTTP connection");
   (hasSuspiciousTld f, 20, "Suspicious top-level domain detected");
   (hasSuspiciousKeywords f,
      Qmin 25 (inject_Z (Z.of_nat (length (suspiciousKeywords f))) * 8),
      keyword_threat f);
   (Nat.ltb 100 (urlLength f),
      Qmin 15 ((inject_Z (Z.of_nat (urlLength f)) - 100) / 20 * 5),
      "Abnormally long URL");
   (Nat.ltb 3 (numSubdomains f),
      Qmin 15 ((inject_Z (Z.of_nat (numSubdomains f)) - 3) * 5),
      "Multiple subdomain levels detected");
   (Nat.ltb 3 (numHyphens f),
      Qmin 10 ((inject_Z (Z.of_nat (numHyphens f)) - 3) * 3),
      "Excessive hyphens in URL");
   (Nat.ltb 0 (numAtSymbols f), 20, "URL contains @ symbol (potential redirect attack)");
   (hasEncodedChars f, 10, "URL contains encoded characters");
   (hasPortNumber f, 15, "Non-standard port number in URL");
   (entropy_gt (entropy f) 9 2, 10, "High entropy domain (potentially auto-generated)");
   (jgt (digitRatio f) (jlit (3 # 10)), 10, "High ratio of digits in URL")]%Q.

(** [calculateRiskScore(features)]: the rules, then [Math.min(100, score)]. *)
Definition calculateRiskScore (f : UrlFeatures) : Q * list string :=
  let st := run_rules (url_rules f) in (Qmin 100 st.1, st.2).

(** ** Well-formedness of a feature record *)

(** What [extractUrlFeatures] guarantees of the record it returns and the
    scorer relies on. *)
Record features_wf (f : UrlFeatures) : Prop := {
  wf_keywords : hasSuspiciousKeywords f = true <-> suspiciousKeywords f <> [];
  wf_dict : Forall (fun kw => kw ∈ suspiciousKeywords_dict) (suspiciousKeywords f);
  wf_digits : (numDigits f <= urlLength f)%nat;
  wf_digit_ratio : digitRatio f = jdiv (jnat (numDigits f)) (jnat (urlLength f))
}.

(** The fixed messages of the table, all but the keyword message. *)
Definition fixed_messages : list string :=
  ["IP address used instead of domain name"; "Insecure HTTP connection";
   "Suspicious top-level domain detected"; "Abnormally long URL";
   "Multiple subdomain levels detected"; "Excessive hyphens in URL";
   "URL contains @ symbol (potential redirect attack)"; "URL contains encoded characters";
   "Non-standard port number in URL"; "High entropy domain (potentially auto-generated)";
   "High ratio of digits in URL"].

Lemma found_keywords_dict url :
  Forall (fun kw => kw ∈ suspiciousKeywords_dict) (found_keywords url).
Proof.
  apply Forall_forall. intros kw Hkw. unfold found_keywords in Hkw.
  by apply list_elem_of_filter in Hkw as [_ ?].
Qed.

Theorem extractUrlFeatures_wf url : features_wf (extractUrlFeatures url).
Proof.
  unfold extractUrlFeatures.
  destruct (new_URL _); constructor;
    cbn [hasSuspiciousKeywords suspiciousKeywords numDigits urlLength digitRatio];
    try apply found_keywords_dict; try apply count_class_le; try reflexivity.
  - rewrite Nat.ltb_lt. unfold found_keywords.
    destruct (filter _ _); simpl; split; (done || lia).
  - apply existsb_filter_nonempty.
Qed.

(** ** The score *)

Lemma url_rules_nonneg f : rules_nonneg (url_rules f).
Proof.
  pose proof (Q_of_nat_nonneg (length (suspiciousKeywords f))).
  pose proof (Q_of_nat_ltb 100 (urlLength f) 100 eq_refl).
  pose proof (Q_of_nat_ltb 3 (numSubdomains f) 3 eq_refl).
  pose proof (Q_of_nat_ltb 3 (numHyphens f) 3 eq_refl).
  unfold url_rules; by_rows; try apply Q.min_glb; try lra; use_fires; simpl in *;
    unfold Qdiv; change (/ 20)%Q with (1 # 20)%Q; lra.
Qed.

Lemma url_rules_pos f : features_wf f -> rules_pos (url_rules f).
Proof.
  intros Hwf.
  pose proof (Q_of_nat_ltb 0 (length (suspiciousKeywords f)) 0 eq_refl) as Hk.
  pose proof (Q_of_nat_ltb 100 (urlLength f) 100 eq_refl).
  pose proof (Q_of_nat_ltb 3 (numSubdomains f) 3 eq_refl).
  pose proof (Q_of_nat_ltb 3 (numHyphens f) 3 eq_refl).
  unfold url_rules; by_rows; try lra; apply Q.min_glb_lt; try lra; use_fires;
    simpl in *; unfold Qdiv; change (/ 20)%Q with (1 # 20)%Q; try lra.
  apply (wf_keywords f Hwf) in Hfires. destruct (suspiciousKeywords f) as [|kw kws];
    [done|]. specialize (Hk eq_refl). lra.
Qed.

Lemma keyword_threat_fresh f : keyword_threat f ∉ fixed_messages.
Proof.
  assert (Hp : String.prefix "Phishing keywords detected: " (keyword_threat f) = true).
  { apply prefix_app_iff. eexists. reflexivity. }
  assert (Hfix : Forall (fun m => String.prefix "Phishing keywords detected: " m = false)
                   fixed_messages) by (repeat constructor).
  intros Hin. rewrite Forall_forall in Hfix. specialize (Hfix _ Hin). congruence.
Qed.

Lemma url_rules_messages_NoDup f : NoDup (map message (url_rules f)).
Proof.
  assert (Hperm : map message (url_rules f) ≡ₚ keyword_threat f :: fixed_messages).
  { simpl. unfold message. simpl. solve_Permutation. }
  rewrite Hperm. apply NoDup_cons. split; [apply keyword_threat_fresh|].
  apply (bool_decide_eq_true (NoDup fixed_messages)). vm_compute. reflexivity.
Qed.

(** C1: the rule-based score of any feature record lies in [0, 100]. *)
Theorem calculateRiskScore_bounds f : (0 <= (calculateRiskScore f).1 <= 100)%Q.
Proof. apply min100_bounds, run_rules_nonneg, url_rules_nonneg. Qed.

(** C2: the threat list of the URL scorer never holds the same string twice. *)
Theorem calculateRiskScore_NoDup f : NoDup (calculateRiskScore f).2.
Proof. apply run_rules_NoDup, url_rules_messages_NoDup. Qed.

(** C3: for the features of any URL, the score is positive exactly when some
    threat explains it: no points without a reason, no reason without points. *)
Theorem url_score_explained url :
  (0 < (calculateRiskScore (extractUrlFeatures url)).1)%Q <->
  (calculateRiskScore (extractUrlFeatures url)).2 <> [].
Proof.
  unfold calculateRiskScore. cbn [fst snd]. rewrite min100_pos.
  apply run_rules_explained, url_rules_pos, extractUrlFeatures_wf.
Qed.

Lemma suspiciousKeywords_extract url :
  suspiciousKeywords (extractUrlFeatures url) = found_keywords url.
Proof. unfold extractUrlFeatures. by destruct (new_URL _). Qed.

(** Dropping the first of the two ['verify'] entries of the table leaves
    the table without duplicates ([remove_dups] keeps the last copy). *)
Lemma remove_dups_suspiciousKeywords :
  remove_dups suspiciousKeywords_dict = (take 2 suspiciousKeywords_dict ++ drop 3 suspiciousKeywords_dict)%list.
Proof. vm_compute. reflexivity. Qed.

(** A URL that contains ['verify'] finds one keyword more than there are
    distinct keywords in it. *)
Lemma found_keywords_length_verify url :
  includes (lower url) "verify" = true ->
  length (found_keywords url) =
  S (length (filter (fun kw => includes (lower url) kw = true) (remove_dups suspiciousKeywords_dict))).
Proof.
  intros H. unfold found_keywords. rewrite remove_dups_suspiciousKeywords.
  assert (Hd : suspiciousKeywords_dict =
               (take 2 suspiciousKeywords_dict ++ "verify" :: drop 3 suspiciousKeywords_dict)%list)
    by reflexivity.
  rewrite Hd at 1. rewrite !filter_app, filter_cons_True by done.
  rewrite !length_app. cbn [length]. lia.
Qed.

(** C4: ['verify'] is listed twice in the keyword table, so a URL that
    contains it gets it twice in its keyword list, and the keyword rule
    (the fourth [if] of [calculateRiskScore]) fires with
    [min(25, 8 * (d + 1))] points, [d] the number of distinct keywords in
    the URL: a URL whose only keyword is ['verify'] gets 16 points, not 8. *)
Theorem verify_counted_twice url :
  includes (lower url) "verify" = true ->
  let f := extractUrlFeatures url in
  let d := length (filter (fun kw => includes (lower url) kw = true) (remove_dups suspiciousKeywords_dict)) in
  length (filter (fun kw => kw = "verify") (suspiciousKeywords f)) = 2%nat /\
  url_rules f !! 3%nat = Some (true, Qmin 25 (inject_Z (Z.of_nat (S d)) * 8), keyword_threat f).
Proof.
  intros H. cbv zeta. split.
  - rewrite suspiciousKeywords_extract. unfold found_keywords.
    rewrite list_filter_filter.
    rewrite (list_filter_iff _ (fun kw => includes (lower url) kw = true /\ kw = "verify"))
      by naive_solver.
    rewrite <- list_filter_filter.
    change (filter (fun kw => kw = "verify") suspiciousKeywords_dict) with ["verify"; "verify"].
    rewrite !filter_cons_True by done. reflexivity.
  - pose proof (found_keywords_length_verify url H) as Hlen.
    rewrite <- suspiciousKeywords_extract in Hlen.
    assert (Hk : hasSuspiciousKeywords (extractUrlFeatures url) = true).
    { apply (wf_keywords _ (extractUrlFeatures_wf url)). intros He. by rewrite He in Hlen. }
    cbn [url_rules lookup list_lookup]. by rewrite Hk, Hlen.
Qed.

(** ** Witnesses *)

Lemma verify_counted_twice_witness :
  let f := extractUrlFeatures "http://example.test/verify" in
  length (filter (fun kw => kw = "verify") (suspiciousKeywords f)) = 2%nat /\
  url_rules f !! 3%nat = Some (true, 16%Q, keyword_threat f).
Proof.
  destruct (verify_counted_twice "http://example.test/verify" ltac:(reflexivity)) as [H1 H2].
  split; [exact H1|]. rewrite H2. vm_compute. reflexivity.
Defined.

End UrlAnalyzer.
