(* ===== verification/UrlHandler.v ===== *)
(** * The [analyze-url] request handler

    Models the [serve] callback of the [analyze-url] edge function
    (src/supabase/functions/analyze-logo/index.ts, lines 350-510): request
    validation, the missing API key, the rule-based pass of [UrlAnalyzer],
    the call to the AI gateway (an instance of [Gateway], so that every
    theorem holds whatever the oracle answers), the rule-based fallback on an
    HTTP error, the lenient decoding of the reply, the hybrid combination of
    [Verdict] and the response.  The random [blockchainHash] and the
    [timestamp] of a response are not modelled. *)

From Stdlib Require Import Ascii String QArith Qminmax Qabs Qround ZArith Lqa.
From stdpp Require Import base list strings.
From S2P Require Import Prelude Regex Json Verdict Scoring UrlAnalyzer.

Module UrlHandler.
Import UrlAnalyzer.

(** The incoming request: its method and its JSON body ([None] when
    [req.json()] throws). *)
Record request := mk_request { method : string; body : option jvalue }.

(** What is sent to the oracle: the URL and the features computed for it. *)
Record oracle_request := mk_oracle_request { oq_url : string; oq_features : UrlFeatures }.

Record details := mk_details {
  d_features : UrlFeatures;
  d_ruleBasedScore : Q;
  d_aiScore : option jsnum;         (** [Math.round(aiScore)], hybrid path only *)
  d_combinedScore : option jsnum;   (** [Math.round(combinedScore)], hybrid path only *)
  d_aiAnalysis : jvalue;            (** [null] on the rule-based path *)
  d_method : string
}.

Record result := mk_result {
  res_url : string;
  res_verdict : verdict;
  res_confidence : jsnum;
  res_threatIndicators : list jvalue;
  res_details : details
}.

(** Why a request fails: the 400 of the validation, or the exception caught
    by the outer [catch] and reported with status 500. *)
Inductive failure : Type :=
  | UrlRequired          (** [!url || typeof url !== "string"] *)
  | KeyNotConfigured     (** [throw new Error("LOVABLE_API_KEY is not configured")] *)
  | BodyNotJson          (** [req.json()] throws *)
  | FetchRejected        (** [fetch] rejects *)
  | ReplyNotJson         (** [aiResponse.json()] throws *)
  | TypeErrorThrown.     (** property of [null], spread of a non-iterable *)

Inductive response : Type :=
  | Preflight                          (** [OPTIONS]: CORS headers only *)
  | Respond (r : result)               (** 200 *)
  | Fail (status : Z) (why : failure).

(** The object the [catch] of the decoding step substitutes. *)
Definition parse_fallback : jvalue :=
  JObj [("isPhishing", JBool false); ("confidence", JNum 50);
        ("reasoning", JStr "Unable to parse AI response")].

(** [jsonMatch = aiContent.match(/\{[\s\S]*\}/);
     aiAnalysis = jsonMatch ? JSON.parse(jsonMatch[0]) : {}], inside
    [try ... catch]: a content that is not a string has no [match] method. *)
Definition decode_analysis {JP : JsonParser} (aiContent : jvalue) : jvalue :=
  match aiContent with
  | JStr s =>
      match json_block s with
      | Some blk => default parse_fallback (json_parse blk)
      | None => JObj []
      end
  | _ => parse_fallback
  end.

(** The response of the rule-based path, taken when [!aiResponse.ok]. *)
Definition rule_based_result (url : string) (features : UrlFeatures) (ruleBasedScore : Q)
    (threats : list string) : result :=
  mk_result url (classify (jlit ruleBasedScore))
    (jsub (jlit 100) (math_abs (jsub (jlit 50) (jlit ruleBasedScore))))
    (map JStr threats)
    (mk_details features ruleBasedScore None None JNull "rule-based").

(** [finalConfidence] of the hybrid path. *)
Definition finalConfidence (ruleBasedScore : Q) (aiAnalysis : jvalue) (combined : jsnum) : jsnum :=
  math_round
    (if Qlt_bool 20 ruleBasedScore || truthy (get aiAnalysis "isPhishing")
     then math_max combined (to_number (js_or (get aiAnalysis "confidence") (JNum 70)))
     else math_min (jsub (jlit 100) combined) (jlit 95)).

(** [result === "safe" ? finalConfidence : 100 - finalConfidence + 50] *)
Definition reported_confidence (v : verdict) (fc : jsnum) : jsnum :=
  if decide (v = Safe) then fc else jadd (jsub (jlit 100) fc) (jlit 50).

(** The hybrid path, from the decoded analysis on. *)
Definition hybrid_response (url : string) (features : UrlFeatures) (ruleBasedScore : Q)
    (threats : list string) (aiAnalysis : jvalue) : response :=
  match prop aiAnalysis "isPhishing" with
  | None => Fail 500 TypeErrorThrown
  | Some isPhishing =>
      let ai := aiScore isPhishing (get aiAnalysis "confidence") in
      let combined := combinedScore ruleBasedScore ai in
      let fc := finalConfidence ruleBasedScore aiAnalysis combined in
      let verdict := classify combined in
      let additional := get aiAnalysis "additionalThreats" in
      match (if truthy additional then spread additional else Some []) with
      | None => Fail 500 TypeErrorThrown
      | Some extra =>
          let reasoning := get aiAnalysis "reasoning" in
          let allThreats :=
            (map JStr threats ++ extra ++
             (if truthy reasoning && negb (bool_decide (verdict = Safe)) then [reasoning] else []))%list in
          Respond (mk_result url verdict (reported_confidence verdict fc)
                     (set_dedup_v allThreats)
                     (mk_details features ruleBasedScore (Some (math_round ai))
                        (Some (math_round combined)) aiAnalysis "hybrid-ai"))
      end
  end.

(** The handler.  [apiKey] is [Deno.env.get("LOVABLE_API_KEY")]. *)
Definition serve {JP : JsonParser} {GW : Gateway oracle_request}
    (apiKey : option string) (req : request) : response :=
  if String.eqb (method req) "OPTIONS" then Preflight else
  match body req with
  | None => Fail 500 BodyNotJson
  | Some JNull | Some JUndefined => Fail 500 TypeErrorThrown
  | Some b =>
      match get b "url" with
      | JStr url =>
          if String.eqb url EmptyString then Fail 400 UrlRequired else
          match apiKey with
          | None => Fail 500 KeyNotConfigured
          | Some k =>
              if String.eqb k EmptyString then Fail 500 KeyNotConfigured else
              let features := extractUrlFeatures url in
              let '(ruleBasedScore, threats) := calculateRiskScore features in
              match ask (mk_oracle_request url features) with
              | NetworkError => Fail 500 FetchRejected
              | HttpError _ => Respond (rule_based_result url features ruleBasedScore threats)
              | HttpOk None => Fail 500 ReplyNotJson
              | HttpOk (Some aiData) =>
                  match reply_content aiData with
                  | None => Fail 500 TypeErrorThrown
                  | Some aiContent =>
                      hybrid_response url features ruleBasedScore threats
                        (decode_analysis aiContent)
                  end
              end
          end
      | _ => Fail 400 UrlRequired
      end
  end.

(** ** Example requests and gateways *)

Definition demo_url : string := "http://192.168.1.5/paypal-login-verify".
Definition demo_request : request := mk_request "POST" (Some (JObj [("url", JStr demo_url)])).

(** Gateways for the examples: down, unreachable, and answering with a text. *)
Definition gw_down : Gateway oracle_request := fun _ => HttpError 503.
Definition gw_unreachable : Gateway oracle_request := fun _ => NetworkError.
Definition gw_says (content : string) : Gateway oracle_request := fun _ => chat_reply content.

(** The oracle calls the URL phishing with confidence 90, inside prose. *)
Definition demo_content : string :=
  "Analysis: {" +:+ dq "isPhishing" +:+ ": true, " +:+ dq "confidence" +:+ ": 90, "
  +:+ dq "reasoning" +:+ ": " +:+ dq "IP host with brand keyword" +:+ "} done".

(** The oracle gives a confidence that is not a number. *)
Definition demo_content_nan : string :=
  "{" +:+ dq "isPhishing" +:+ ": true, " +:+ dq "confidence" +:+ ": " +:+ dq "high" +:+ "}".

(** The oracle lists its additional threats as a number. *)
Definition demo_content_count : string :=
  "{" +:+ dq "isPhishing" +:+ ": true, " +:+ dq "confidence" +:+ ": 80, "
  +:+ dq "additionalThreats" +:+ ": 3}".

(** A login page on a private IP address, and an oracle that calls it safe
    with confidence 10. *)
Definition login_url : string := "http://192.168.1.5/login".
Definition login_request : request := mk_request "POST" (Some (JObj [("url", JStr login_url)])).
Definition safe10_content : string :=
  "{" +:+ dq "isPhishing" +:+ ": false, " +:+ dq "confidence" +:+ ": 10}".

Definition response_result (resp : response) : result :=
  match resp with
  | Respond r => r
  | _ => mk_result EmptyString Unknown NaN [] (mk_details (extractUrlFeatures EmptyString) 0 None None JNull EmptyString)
  end.

Definition demo_hybrid : result :=
  response_result (serve (JP := json_parse_std) (GW := gw_says demo_content) (Some "key") demo_request).
Definition demo_nan : result :=
  response_result (serve (JP := json_parse_std) (GW := gw_says demo_content_nan) (Some "key") demo_request).
Definition demo_login_safe10 : result :=
  response_result (serve (JP := json_parse_std) (GW := gw_says safe10_content) (Some "key") login_request).

(** ** Properties *)

Section Properties.
Context {JP : JsonParser} {GW : Gateway oracle_request}.

(** The verdict of the hybrid path, read off the decoded analysis. *)
Definition hybrid_verdict (ruleBasedScore : Q) (aiAnalysis : jvalue) : verdict :=
  classify (combinedScore ruleBasedScore
              (aiScore (get aiAnalysis "isPhishing") (get aiAnalysis "confidence"))).

Lemma hybrid_response_inv url f s t a r :
  hybrid_response url f s t a = Respond r ->
  res_verdict r = hybrid_verdict s a /\ d_aiAnalysis (res_details r) = a /\
  d_ruleBasedScore (res_details r) = s /\ d_method (res_details r) = "hybrid-ai" /\
  exists extra, res_threatIndicators r =
    set_dedup_v (map JStr t ++ extra ++
      (if truthy (get a "reasoning") && negb (bool_decide (hybrid_verdict s a = Safe))
       then [get a "reasoning"] else []))%list.
Proof.
  unfold hybrid_response, prop. destruct a; try done;
  (destruct (if truthy _ then spread _ else Some []) as [extra|]; [|done]);
  intros [= <-]; cbn; split_and!; try done; by exists extra.
Qed.

Lemma hybrid_response_confidence url f s t a r :
  hybrid_response url f s t a = Respond r ->
  let combined := combinedScore s (aiScore (get a "isPhishing") (get a "confidence")) in
  res_confidence r = reported_confidence (res_verdict r) (finalConfidence s a combined) /\
  d_combinedScore (res_details r) = Some (math_round combined).
Proof.
  unfold hybrid_response, prop. destruct a; try done;
  (destruct (if truthy _ then spread _ else Some []) as [extra|]; [|done]);
  intros [= <-]; split; reflexivity.
Qed.

(** On the path where [finalConfidence] is a [Math.max], a non-safe answer
    whose rounded combined score and numeric confidence are below 50
    reports [100 - finalConfidence + 50 > 100]. *)
Lemma hybrid_confidence_exceeds_100 url f s t a r c k :
  hybrid_response url f s t a = Respond r -> (20 < s)%Q ->
  get a "confidence" = JNum c -> (0 < c <= 49)%Q ->
  d_combinedScore (res_details r) = Some (Some k) -> (k < 50)%Q -> res_verdict r <> Safe ->
  exists q, res_confidence r = Some q /\ (100 < q)%Q.
Proof.
  intros H Hs Hc Hc0 Hk Hk50 Hv.
  destruct (hybrid_response_confidence _ _ _ _ _ _ H) as [-> Hcomb]. rewrite Hcomb, Hc in Hk.
  unfold reported_confidence. rewrite decide_False by done.
  unfold finalConfidence. rewrite Hc. unfold js_or. cbn [truthy].
  rewrite Qeq_bool_false by lra. rewrite (proj2 (Qlt_bool_iff 20 s) Hs). cbn [orb negb to_number].
  destruct (combinedScore _ _) as [m|]; [|discriminate]. unfold math_round in Hk.
  assert (k = inject_Z (Qfloor (m + (1 # 2)))) as -> by congruence.
  eexists. split; [reflexivity|].
  assert (Hm : (m + (1 # 2) < 50)%Q) by exact (proj1 (math_round_lt m 50) Hk50).
  assert (Hmax : (Qmax m c < 99 # 2)%Q) by (destruct (Q.max_spec m c) as [[_ ->]|[_ ->]]; lra).
  assert (Hr : (inject_Z (Qfloor (Qmax m c + (1 # 2))) < 50)%Q)
    by (apply (proj2 (math_round_lt _ 50)); change (inject_Z 50) with 50%Q; lra).
  lra.
Qed.

(** Every response the handler sends with status 200 comes from the rule-based
    path or from the hybrid path, for the URL of the request. *)
Lemma serve_respond_cases key req r :
  serve key req = Respond r ->
  exists url,
    let f := extractUrlFeatures url in
    r = rule_based_result url f (calculateRiskScore f).1 (calculateRiskScore f).2 \/
    exists a, hybrid_response url f (calculateRiskScore f).1 (calculateRiskScore f).2 a
              = Respond r.
Proof.
  unfold serve. intros H.
  destruct (String.eqb (method req) "OPTIONS"); [done|].
  destruct (body req) as [b|]; [|done].
  destruct b; try done;
  destruct (get _ "url") as [| | | | url | |]; try done;
  destruct (String.eqb url EmptyString); try done;
  destruct key as [k|]; try done; destruct (String.eqb k EmptyString); try done;
  exists url; cbn zeta;
  destruct (calculateRiskScore (extractUrlFeatures url)) as [s t]; cbn [fst snd];
  destruct (ask _) as [|st|[aiData|]]; try done;
  [left; congruence|];
  destruct (reply_content aiData); [|done]; right; eauto.
Qed.

(** A 200 response of the URL handler is "safe", "suspicious" or "phishing". *)
Lemma serve_verdict_known key req r : serve key req = Respond r -> res_verdict r <> Unknown.
Proof.
  intros (url & [-> | [a Ha]])%serve_respond_cases; [apply classify_not_unknown|].
  apply hybrid_response_inv in Ha as (-> & _). apply classify_not_unknown.
Qed.

Lemma strings_of_map_JStr (l : list string) : strings_of (map JStr l) = l.
Proof. induction l as [|x l IH]; [done|]. cbn [map]. by rewrite strings_of_cons, IH. Qed.

Lemma rule_based_confidence (s : Q) :
  (0 <= s <= 100)%Q ->
  exists c, jsub (jlit 100) (math_abs (jsub (jlit 50) (jlit s))) = Some c /\ (50 <= c <= 100)%Q.
Proof.
  intros Hs. exists (100 - Qabs (50 - s))%Q. split; [reflexivity|].
  destruct (Qlt_le_dec (50 - s) 0) as [Hn|Hp].
  - rewrite Qabs_neg by lra. lra.
  - rewrite Qabs_pos by lra. lra.
Qed.

(** C5: when the gateway answers with an HTTP error, a valid request still
    gets a complete result from the rule-based path alone: method
    "rule-based", the verdict the thresholds give the rule score, and a
    confidence [100 - |50 - score|] between 50 and 100. *)
Theorem serve_oracle_http_error key m fs url status :
  String.eqb m "OPTIONS" = false -> get (JObj fs) "url" = JStr url ->
  url <> EmptyString -> key <> EmptyString ->
  ask (mk_oracle_request url (extractUrlFeatures url)) = HttpError status ->
  exists r, serve (Some key) (mk_request m (Some (JObj fs))) = Respond r /\
    d_method (res_details r) = "rule-based" /\
    res_verdict r = Spec.verdict_of (calculateRiskScore (extractUrlFeatures url)).1 /\
    exists c, res_confidence r = Some c /\ (50 <= c <= 100)%Q.
Proof.
  intros Hm Hurl Hu Hk Hask. unfold serve. cbn [method body]. rewrite Hm, Hurl.
  apply String.eqb_neq in Hu, Hk. rewrite Hu, Hk.
  destruct (calculateRiskScore (extractUrlFeatures url)) as [s t] eqn:E.
  rewrite Hask. eexists. split_and!; [reflexivity|reflexivity|reflexivity|].
  apply rule_based_confidence.
  pose proof (min100_bounds _ (run_rules_nonneg _ (url_rules_nonneg (extractUrlFeatures url))))
    as Hb. unfold calculateRiskScore in E. by injection E as <- _.
Qed.

(** C6: a network failure of the gateway is not absorbed: the request fails
    with status 500 (the specification asks for the neutral fallback). *)
Theorem serve_network_error key m fs url :
  String.eqb m "OPTIONS" = false -> get (JObj fs) "url" = JStr url ->
  url <> EmptyString -> key <> EmptyString ->
  ask (mk_oracle_request url (extractUrlFeatures url)) = NetworkError ->
  serve (Some key) (mk_request m (Some (JObj fs))) = Fail 500 FetchRejected.
Proof.
  intros Hm Hurl Hu Hk Hask. unfold serve. cbn [method body]. rewrite Hm, Hurl.
  apply String.eqb_neq in Hu, Hk. rewrite Hu, Hk.
  destruct (calculateRiskScore (extractUrlFeatures url)). by rewrite Hask.
Qed.

(** C7: on the hybrid path with a well-formed signal (a boolean [isPhishing],
    a non-zero numeric [confidence]) the verdict is the specification's:
    thresholds 50 and 25 on [0.4 rule + 0.6 (50 +/- confidence/2)]. *)
Theorem serve_hybrid_refines_spec key req r b q :
  serve key req = Respond r -> d_method (res_details r) = "hybrid-ai" ->
  get (d_aiAnalysis (res_details r)) "isPhishing" = JBool b ->
  get (d_aiAnalysis (res_details r)) "confidence" = JNum q -> ~ (q == 0)%Q ->
  res_verdict r = Spec.verdict_of (Spec.combined (d_ruleBasedScore (res_details r)) b q).
Proof.
  intros (url & [-> | [a Ha]])%serve_respond_cases Hm Hb Hq Hq0; [done|].
  apply hybrid_response_inv in Ha as (Hv & Ha & Hs & _).
  rewrite Hv, Hs. rewrite Ha in Hb, Hq. unfold hybrid_verdict. rewrite Hb, Hq.
  by apply combined_wellformed.
Qed.

(** C8: a confidence that is a non-empty string which is not a numeric
    literal of [Number] (["high"]; not "1e3", "0x10" or "Infinity") makes
    the mix NaN, and NaN fails both thresholds: the verdict is "safe" whatever the rule
    score and whatever [isPhishing] says. *)
Theorem serve_nan_confidence_safe key req r s :
  serve key req = Respond r -> d_method (res_details r) = "hybrid-ai" ->
  get (d_aiAnalysis (res_details r)) "confidence" = JStr s -> s <> EmptyString ->
  numeric_literal s = false ->
  res_verdict r = Safe.
Proof.
  intros (url & [-> | [a Ha]])%serve_respond_cases Hm Hc Hs Hnum; [done|].
  apply hybrid_response_inv in Ha as (Hv & Ha & _).
  rewrite Hv. rewrite Ha in Hc. unfold hybrid_verdict, aiScore, js_or. rewrite Hc. cbn [truthy].
  apply String.eqb_neq in Hs. rewrite Hs. cbn [negb to_number]. rewrite (string_to_number_not_literal _ Hnum).
  by destruct (truthy _).
Qed.

(** C9: whatever the oracle answers, no string occurs twice among the threat
    indicators of a 200 response. *)
Theorem serve_threats_distinct key req r :
  serve key req = Respond r -> NoDup (strings_of (res_threatIndicators r)).
Proof.
  intros (url & [-> | [a Ha]])%serve_respond_cases.
  - cbn [res_threatIndicators rule_based_result]. rewrite strings_of_map_JStr.
    apply run_rules_NoDup, url_rules_messages_NoDup.
  - apply hybrid_response_inv in Ha as (_ & _ & _ & _ & extra & ->).
    apply set_dedup_v_NoDup_strings.
Qed.

(** C11: an [additionalThreats] that is truthy but not iterable (a number, an
    object) makes [allThreats.push(...aiAnalysis.additionalThreats)] throw a
    TypeError: the whole request fails with status 500 although the gateway
    answered and its reply was decoded. *)
Theorem serve_additional_threats_not_iterable key m fs url aiData content a :
  String.eqb m "OPTIONS" = false -> get (JObj fs) "url" = JStr url ->
  url <> EmptyString -> key <> EmptyString ->
  ask (mk_oracle_request url (extractUrlFeatures url)) = HttpOk (Some aiData) ->
  reply_content aiData = Some content -> decode_analysis content = a ->
  prop a "isPhishing" <> None ->
  truthy (get a "additionalThreats") = true -> spread (get a "additionalThreats") = None ->
  serve (Some key) (mk_request m (Some (JObj fs))) = Fail 500 TypeErrorThrown.
Proof.
  intros Hm Hurl Hu Hk Hask Hc Ha Hp Ht Hs. unfold serve. cbn [method body]. rewrite Hm, Hurl.
  apply String.eqb_neq in Hu, Hk. rewrite Hu, Hk.
  destruct (calculateRiskScore (extractUrlFeatures url)). rewrite Hask, Hc, Ha.
  unfold hybrid_response. destruct (prop a "isPhishing"); [|done]. by rewrite Ht, Hs.
Qed.

(** C10: the reported confidence is not bounded by 100.  When the rule
    score is above 20 and the oracle's confidence is a number in (0, 49],
    [finalConfidence] is [Math.round(Math.max(combinedScore, confidence))];
    every non-safe 200 answer of the hybrid path whose rounded combined
    score is below 50 then reports [100 - finalConfidence + 50], which is
    above 100.  For [http://192.168.1.5/login] (rule score 53) and an oracle
    that calls it safe with confidence 10, the answer is "suspicious" with
    confidence 102. *)
Theorem serve_confidence_exceeds_100 key req r c k :
  serve key req = Respond r -> d_method (res_details r) = "hybrid-ai" ->
  (20 < d_ruleBasedScore (res_details r))%Q ->
  get (d_aiAnalysis (res_details r)) "confidence" = JNum c -> (0 < c <= 49)%Q ->
  d_combinedScore (res_details r) = Some (Some k) -> (k < 50)%Q -> res_verdict r <> Safe ->
  exists q, res_confidence r = Some q /\ (100 < q)%Q.
Proof.
  intros (url & [-> | [a Ha]])%serve_respond_cases Hm; [done|].
  pose proof Ha as Hi. apply hybrid_response_inv in Hi as (_ & Ha' & Hs & _).
  rewrite Ha', Hs. by apply hybrid_confidence_exceeds_100 with (1 := Ha).
Qed.

End Properties.

(** ** Witnesses *)

Lemma serve_oracle_http_error_witness :
  exists r, serve (JP := json_parse_std) (GW := gw_down) (Some "key") demo_request = Respond r /\
    d_method (res_details r) = "rule-based" /\
    res_verdict r = Spec.verdict_of (calculateRiskScore (extractUrlFeatures demo_url)).1 /\
    exists c, res_confidence r = Some c /\ (50 <= c <= 100)%Q.
Proof.
  apply (serve_oracle_http_error (GW := gw_down) "key" "POST" _ demo_url 503);
    [reflexivity | reflexivity | discriminate | discriminate | reflexivity].
Defined.

Lemma serve_network_error_witness :
  serve (JP := json_parse_std) (GW := gw_unreachable) (Some "key") demo_request = Fail 500 FetchRejected.
Proof.
  apply (serve_network_error (GW := gw_unreachable) "key" "POST" _ demo_url);
    [reflexivity | reflexivity | discriminate | discriminate | reflexivity].
Defined.

Lemma serve_hybrid_refines_spec_witness :
  res_verdict demo_hybrid =
  Spec.verdict_of (Spec.combined (d_ruleBasedScore (res_details demo_hybrid)) true 90).
Proof.
  apply (serve_hybrid_refines_spec (JP := json_parse_std) (GW := gw_says demo_content)
           (Some "key") demo_request);
    [vm_compute; reflexivity | vm_compute; reflexivity | vm_compute; reflexivity |
     vm_compute; reflexivity | discriminate].
Defined.

Lemma serve_nan_confidence_safe_witness : res_verdict demo_nan = Safe.
Proof.
  apply (serve_nan_confidence_safe (JP := json_parse_std) (GW := gw_says demo_content_nan)
           (Some "key") demo_request _ "high");
    [vm_compute; reflexivity | vm_compute; reflexivity | vm_compute; reflexivity |
     discriminate | vm_compute; reflexivity].
Defined.

(** The login page on a private address, called safe with confidence 10:
    "suspicious", rounded combined score 48, reported confidence 102. *)
Lemma serve_confidence_exceeds_100_witness :
  res_verdict demo_login_safe10 = Suspicious /\ res_confidence demo_login_safe10 = Some 102%Q /\
  exists q, res_confidence demo_login_safe10 = Some q /\ (100 < q)%Q.
Proof.
  split; [vm_compute; reflexivity|]. split; [vm_compute; reflexivity|].
  apply (serve_confidence_exceeds_100 (JP := json_parse_std) (GW := gw_says safe10_content)
           (Some "key") login_request _ 10 48);
    [vm_compute; reflexivity | vm_compute; reflexivity | vm_compute; reflexivity |
     vm_compute; reflexivity | lra | vm_compute; reflexivity | vm_compute; reflexivity |
     vm_compute; discriminate].
Defined.

Lemma serve_threats_distinct_witness : NoDup (strings_of (res_threatIndicators demo_hybrid)).
Proof.
  apply (serve_threats_distinct (JP := json_parse_std) (GW := gw_says demo_content)
           (Some "key") demo_request).
  vm_compute. reflexivity.
Defined.

Lemma serve_additional_threats_not_iterable_witness :
  serve (JP := json_parse_std) (GW := gw_says demo_content_count) (Some "key") demo_request
  = Fail 500 TypeErrorThrown.
Proof.
  eapply (serve_additional_threats_not_iterable (JP := json_parse_std)
            (GW := gw_says demo_content_count) "key" "POST" _ demo_url);
    [reflexivity | reflexivity | discriminate | discriminate | reflexivity | reflexivity |
     reflexivity | vm_compute; discriminate | vm_compute; reflexivity | vm_compute; reflexivity].
Defined.

End UrlHandler.
