(* ===== verification/EmailHybrid.v ===== *)
(** * The hybrid e-mail analyser ([analyze-email], AI-assisted version)

    Models src/unnamed/part_001: the keyword tables and the brand table
    ([legitimateDomains], a JS object used as a map, here a [gmap]),
    [extractEmailFeatures] with its brand loop written as the fold it is,
    [calculateEmailRiskScore] as a table for [Scoring.run_rules], and the
    request handler with its default analysis, its combination through
    [Verdict] and the [slice(0, 8)] of the threat list. *)

From Stdlib Require Import Ascii String QArith Qminmax Qround Qabs ZArith Lqa DecimalString.
From stdpp Require Import base list strings gmap.
From S2P Require Import Prelude Regex Json Verdict Scoring UrlAnalyzer.

Module EmailHybrid.

(** ** Configuration tables (part_001, lines 27-66) *)

Definition urgencyKeywords : list string :=
  ["urgent"; "immediately"; "asap"; "right away"; "right now"; "hurry";
   "time sensitive"; "act now"; "limited time"; "expires"; "deadline";
   "last chance"; "don't delay"; "must act"; "final notice"; "warning";
   "immediate action"; "24 hours"; "48 hours"; "today only"; "now"].

Definition verificationKeywords : list string :=
  ["verify"; "confirm"; "validate"; "authenticate"; "update your";
   "review your"; "check your"; "secure your"; "protect your"].

Definition threateningKeywords : list string :=
  ["suspended"; "disabled"; "blocked"; "locked"; "terminated";
   "closed"; "restricted"; "limited"; "compromised"; "unauthorized";
   "violation"; "penalty"; "legal action"; "prosecution"; "arrest"].

Definition moneyKeywords : list string :=
  ["payment"; "invoice"; "bill"; "charge"; "refund"; "credit";
   "bank"; "transfer"; "wire"; "bitcoin"; "crypto"; "prize";
   "winner"; "lottery"; "inheritance"; "million"; "dollar"].

Definition knownBrands : list string :=
  ["paypal"; "amazon"; "apple"; "microsoft"; "google"; "facebook";
   "netflix"; "spotify"; "instagram"; "twitter"; "linkedin"; "bank";
   "wells fargo"; "chase"; "citi"; "hsbc"; "barclays"; "irs"; "dhl";
   "fedex"; "ups"; "usps"; "dropbox"; "adobe"; "zoom"; "slack"].

(** [legitimateDomains[brand]]: only seven brands have an entry. *)
Definition legitimateDomains : gmap string (list string) :=
  list_to_map
    [("paypal", ["paypal.com"; "paypal.co.uk"]);
     ("amazon", ["amazon.com"; "amazon.co.uk"; "amazon.in"; "amazon.de"]);
     ("apple", ["apple.com"; "icloud.com"]);
     ("microsoft", ["microsoft.com"; "outlook.com"; "live.com"; "hotmail.com"]);
     ("google", ["google.com"; "gmail.com"]);
     ("netflix", ["netflix.com"]);
     ("facebook", ["facebook.com"; "fb.com"])].

(** ** The feature record (lines 8-25) *)

Record EmailFeatures := mkEmailFeatures {
  senderDomain : string;
  senderUser : string;
  isSpoofedDomain : bool;
  hasUrgencyKeywords : bool;
  urgencyCount : nat;
  hasVerificationKeywords : bool;
  hasThreateningLanguage : bool;
  hasSuspiciousLinks : bool;
  linkCount : nat;
  suspiciousLinks : list string;
  hasAttachmentMentions : bool;
  hasMoneyRelatedContent : bool;
  hasBrandImpersonation : bool;
  impersonatedBrands : list string;
  grammarScore : Q;
  sentimentScore : Q
}.

(** ** The regular expressions of [extractEmailFeatures] *)

(** [/@([a-zA-Z0-9.-]+)/]; the group is everything after the [@]. *)
Definition is_domain_char (c : ascii) : bool :=
  is_letter c || is_digit c || Ascii.eqb c "." || Ascii.eqb c "-".
Definition sender_domain_re : regex := RSeq (chr "@") (rplus (RClass is_domain_char)).

(** [/(https?:\/\/[^\s<>Q{}|\\^`\[\]]+)/gi], where Q stands for the double
    quote character. *)
Definition is_link_char (c : ascii) : bool :=
  negb (is_space c || existsb (Ascii.eqb c)
          ["<"; ">"; quote; "{"; "}"; "|"; backslash; "^"; "`"; "["; "]"]%char).
Definition url_re : regex :=
  ci (RSeq (lit "http") (RSeq (rep 0 1 (chr "s")) (RSeq (lit "://") (rplus (RClass is_link_char)))))%char.

Definition attachment_re : regex :=
  alts [lit "attach"; lit "download"; lit "open the file"; lit "see attached"].
Definition double_space_re : regex := at_least 2 (RClass is_space).
Definition capitals_re : regex := at_least 5 (RClass is_upper_letter).
Definition bangs_re : regex := lit "!!!".
Definition greeting_re : regex := ci (alts [lit "dear customer"; lit "dear user"; lit "dear valued"]).
Definition many_digits_re : regex := at_least 3 digit.

(** ** [extractEmailFeatures] (lines 68-153) *)

(** [const domainMatch = senderLower.match(/@([a-zA-Z0-9.-]+)/);
     const senderDomain = domainMatch ? domainMatch[1] : ''] *)
Definition sender_domain (senderLower : string) : string :=
  match re_match sender_domain_re senderLower with
  | Some (String _ group) => group
  | _ => EmptyString
  end.

(** [senderLower.split('@')[0] || ''] *)
Definition sender_user (senderLower : string) : string :=
  match js_split "@" senderLower with w :: _ => w | [] => EmptyString end.

(** One iteration of [for (const brand of knownBrands)], on the state
    [(isSpoofedDomain, impersonatedBrands)]. *)
Definition brand_step (fullText senderLower senderDomain : string)
    (st : bool * list string) (brand : string) : bool * list string :=
  if includes fullText brand || includes senderLower brand then
    match legitimateDomains !! brand with
    | Some legit =>
        if negb (existsb (ends_with senderDomain) legit) then
          if includes senderDomain brand then (true, (st.2 ++ [brand])%list) else st
        else st
    | None => st
    end
  else st.

(** The filter of suspicious links (lines 111-123). *)
Definition suspicious_link (link : string) : bool :=
  let linkLower := lower link in
  re_test UrlAnalyzer.ipv4_re link || includes linkLower "bit.ly" || includes linkLower "tinyurl" ||
  includes linkLower "click" || includes linkLower "verify" || includes linkLower "secure" ||
  re_test (chr "@") link || Nat.ltb 100 (String.length link).

(** [grammarScore]: 100 minus the deductions of lines 130-133. *)
Definition grammar_deductions (body : string) : Q :=
  (if re_test double_space_re body then 10 else 0) +
  (if re_test capitals_re body then 15 else 0) +
  (if re_test bangs_re body then 10 else 0) +
  (if re_test greeting_re body then 20 else 0).

Definition extractEmailFeatures (sender subject body : string) : EmailFeatures :=
  let fullText := lower (subject +:+ " " +:+ body) in
  let senderLower := lower sender in
  let senderDomain := sender_domain senderLower in
  let senderUser := sender_user senderLower in
  let '(spoofed0, impersonatedBrands) :=
    foldl (brand_step fullText senderLower senderDomain) (false, []) knownBrands in
  let spoofed1 :=
    if includes senderDomain "-" && Nat.ltb 2 (length (js_split "-" senderDomain))
    then true else spoofed0 in
  let isSpoofedDomain := if re_test many_digits_re senderDomain then true else spoofed1 in
  let urgencyCount := length (filter (fun kw => includes fullText kw = true) urgencyKeywords) in
  let links := re_match_all url_re body in
  let suspiciousLinks := filter (fun l => suspicious_link l = true) links in
  mkEmailFeatures senderDomain senderUser isSpoofedDomain
    (Nat.ltb 0 urgencyCount) urgencyCount
    (existsb (includes fullText) verificationKeywords)
    (existsb (includes fullText) threateningKeywords)
    (Nat.ltb 0 (length suspiciousLinks)) (length links) suspiciousLinks
    (re_test attachment_re fullText)
    (existsb (includes fullText) moneyKeywords)
    (Nat.ltb 0 (length impersonatedBrands)) impersonatedBrands
    (Qmax 0 (100 - grammar_deductions body)) 50.

(** ** [calculateEmailRiskScore] (lines 155-200) *)

Definition email_rules (f : EmailFeatures) : list score_rule :=
  [(isSpoofedDomain f, 30, "Spoofed sender domain detected: " +:+ senderDomain f);
   (hasBrandImpersonation f, 25, "Brand impersonation attempt: " +:+ join ", " (impersonatedBrands f));
   (hasUrgencyKeywords f, Qmin 20 (inject_Z (Z.of_nat (urgencyCount f)) * 5),
      "Urgency manipulation detected (" +:+ nat_to_string (urgencyCount f) +:+ " keywords)");
   (hasVerificationKeywords f, 15, "Credential harvesting language detected");
   (hasThreateningLanguage f, 20, "Threatening/fear-based language detected");
   (hasSuspiciousLinks f, 20, "Suspicious links found: " +:+ nat_to_string (length (suspiciousLinks f)));
   (hasMoneyRelatedContent f && (hasUrgencyKeywords f || hasThreateningLanguage f), 15,
      "Financial urgency pressure tactics");
   (Qlt_bool (grammarScore f) 60, 10, "Poor grammar quality (common in phishing)")]%Q.

Definition calculateEmailRiskScore (f : EmailFeatures) : Q * list string :=
  let st := run_rules (email_rules f) in (Qmin 100 st.1, st.2).

(** ** The handler (lines 202-351) *)

Record request := mk_request { method : string; body : option jvalue }.

(** What the oracle is sent: the three fields and the features. *)
Record oracle_request := mk_oracle_request {
  oq_sender : string; oq_subject : string; oq_body : string; oq_features : EmailFeatures
}.

Record details := mk_details {
  d_features : EmailFeatures;
  d_ruleBasedScore : Q;
  d_aiScore : jsnum;
  d_combinedScore : jsnum;
  d_aiAnalysis : jvalue;
  d_method : string
}.

Record result := mk_result {
  res_sender : jvalue;
  res_subject : jvalue;
  res_verdict : verdict;
  res_confidence : jsnum;
  res_threatIndicators : list jvalue;
  res_details : details
}.

Inductive failure : Type :=
  | FieldsRequired       (** [!sender || !subject || !body] *)
  | KeyNotConfigured
  | BodyNotJson          (** [req.json()] throws *)
  | FetchRejected        (** [fetch] rejects *)
  | ReplyNotJson         (** [aiResponse.json()] throws *)
  | TypeErrorThrown.     (** a field that is not a string, a property of [null], a bad spread *)

Inductive response : Type :=
  | Preflight
  | Respond (r : result)
  | Fail (status : Z) (why : failure).

(** The analysis assumed before the oracle is consulted (line 283). *)
Definition default_analysis : jvalue :=
  JObj [("isPhishing", JBool false); ("confidence", JNum 50); ("reasoning", JStr EmptyString);
        ("tactics", JArr []); ("redFlags", JArr [])].

(** Lines 285-294: only a successful reply replaces the default; a content
    without a [{...}] block keeps it, and so does the [catch] (a content that
    is not a string, or a block [JSON.parse] rejects). *)
Definition decode_analysis {JP : JsonParser} (aiContent : jvalue) : jvalue :=
  match aiContent with
  | JStr s =>
      match json_block s with
      | Some blk => default default_analysis (json_parse blk)
      | None => default_analysis
      end
  | _ => default_analysis
  end.

(** The analysis the combination sees, or the failure the outer [catch] reports. *)
Definition analysis_of {JP : JsonParser} (reply : gateway_reply) : failure + jvalue :=
  match reply with
  | NetworkError => inl FetchRejected
  | HttpError _ => inr default_analysis
  | HttpOk None => inl ReplyNotJson
  | HttpOk (Some aiData) =>
      match reply_content aiData with
      | None => inl TypeErrorThrown
      | Some aiContent => inr (decode_analysis aiContent)
      end
  end.

(** Lines 304-308: [Math.round(result === "safe" ? 100 - combinedScore
    : Math.min(98, combinedScore + 20))]. *)
Definition email_confidence (v : verdict) (combined : jsnum) : jsnum :=
  math_round (if decide (v = Safe) then jsub (jlit 100) combined
              else math_min (jlit 98) (jadd combined (jlit 20))).

(** [if (v) allThreats.push(...v)] *)
Definition push_spread (v : jvalue) : option (list jvalue) :=
  if truthy v then spread v else Some [].

(** Lines 296-340, from the analysis on. *)
Definition combine (sender subject : jvalue) (features : EmailFeatures) (ruleBasedScore : Q)
    (threats : list string) (aiAnalysis : jvalue) : response :=
  match prop aiAnalysis "isPhishing" with
  | None => Fail 500 TypeErrorThrown
  | Some isPhishing =>
      let ai := aiScore isPhishing (get aiAnalysis "confidence") in
      let combined := combinedScore ruleBasedScore ai in
      let verdict := classify combined in
      match push_spread (get aiAnalysis "tactics"), push_spread (get aiAnalysis "redFlags") with
      | Some tactics, Some redFlags =>
          let reasoning := get aiAnalysis "reasoning" in
          let allThreats :=
            (map JStr threats ++ tactics ++ redFlags ++
             (if truthy reasoning && negb (bool_decide (verdict = Safe)) then [reasoning] else []))%list in
          Respond (mk_result sender subject verdict (email_confidence verdict combined)
                     (slice0 8 (set_dedup_v allThreats))
                     (mk_details features ruleBasedScore (math_round ai) (math_round combined)
                        aiAnalysis "hybrid-email-ai"))
      | _, _ => Fail 500 TypeErrorThrown
      end
  end.

Definition serve {NF : NumberFormat} {JP : JsonParser} {GW : Gateway oracle_request}
    (apiKey : option string) (req : request) : response :=
  if String.eqb (method req) "OPTIONS" then Preflight else
  match body req with
  | None => Fail 500 BodyNotJson
  | Some JNull | Some JUndefined => Fail 500 TypeErrorThrown
  | Some b =>
      let sender := get b "sender" in
      let subject := get b "subject" in
      let bodyText := get b "body" in
      if negb (truthy sender && truthy subject && truthy bodyText) then Fail 400 FieldsRequired else
      match apiKey with
      | None => Fail 500 KeyNotConfigured
      | Some k =>
          if String.eqb k EmptyString then Fail 500 KeyNotConfigured else
          match sender, bodyText with
          | JStr s, JStr t =>
              let subj := to_js_string subject in
              let features := extractEmailFeatures s subj t in
              let '(ruleBasedScore, threats) := calculateEmailRiskScore features in
              match analysis_of (ask (mk_oracle_request s subj t features)) with
              | inl why => Fail 500 why
              | inr aiAnalysis => combine sender subject features ruleBasedScore threats aiAnalysis
              end
          | _, _ => Fail 500 TypeErrorThrown
          end
      end
  end.

(** ** Example inputs: the two test cases of the e-mail tab (part_004, lines 96-127) *)

Definition nl : string := String "010"%char EmptyString.

Definition phishing_sender : string := "support@paypal-security.net".
Definition phishing_subject : string := "URGENT: Your Account Has Been Suspended - Verify Now".
Definition phishing_body : string :=
  "Dear Valued Customer," +:+ nl +:+ nl +:+
  "We have detected unusual activity on your PayPal account. Your account has been temporarily suspended pending verification." +:+ nl +:+ nl +:+
  "CLICK HERE to verify your identity immediately: http://paypal-verify-account.suspicious-site.xyz/login" +:+ nl +:+ nl +:+
  "If you do not verify within 24 hours, your account will be permanently closed and all funds will be frozen." +:+ nl +:+ nl +:+
  "This is your FINAL NOTICE." +:+ nl +:+ nl +:+
  "Best regards," +:+ nl +:+ "PayPal Security Team".

Definition safe_sender : string := "no-reply@paypal.com".
Definition safe_subject : string := "Receipt for your payment".
Definition safe_body : string :=
  "Hello," +:+ nl +:+ nl +:+
  "You sent a payment of $25.00 USD to Example Store." +:+ nl +:+ nl +:+
  "Transaction ID: 1AB23456CD789012E" +:+ nl +:+ "Date: February 4, 2026" +:+ nl +:+ nl +:+
  "If you have questions about this transaction, please contact us." +:+ nl +:+ nl +:+
  "Thanks," +:+ nl +:+ "PayPal".

Definition email_request (sender subject body : string) : request :=
  mk_request "POST" (Some (JObj [("sender", JStr sender); ("subject", JStr subject);
                                 ("body", JStr body)])).

(** Gateways for the examples. *)
Definition gw_status (status : Z) : Gateway oracle_request := fun _ => HttpError status.
Definition gw_unreachable : Gateway oracle_request := fun _ => NetworkError.
Definition gw_says (content : string) : Gateway oracle_request := fun _ => chat_reply content.

(** Number rendering for the examples: exact on integers of magnitude below
    10^21, the only numbers the examples render. *)
Definition integer_format : NumberFormat := fun q => NilEmpty.string_of_int (Z.to_int (Qnum q)).

Definition response_result (resp : response) : result :=
  match resp with
  | Respond r => r
  | _ => mk_result JUndefined JUndefined Unknown NaN []
           (mk_details (extractEmailFeatures EmptyString EmptyString EmptyString) 0 NaN NaN
              JNull EmptyString)
  end.

(** The oracle answers with a confidence that is not a number. *)
Definition demo_content_nan : string :=
  "{" +:+ dq "isPhishing" +:+ ": false, " +:+ dq "confidence" +:+ ": " +:+ dq "low" +:+ "}".

Definition demo_nan : result :=
  response_result (serve (NF := integer_format) (JP := json_parse_std)
                     (GW := gw_says demo_content_nan) (Some "key")
                     (email_request phishing_sender phishing_subject phishing_body)).

(** The oracle calls the phishing test case phishing and lists many tactics. *)
Definition demo_content_many : string :=
  "{" +:+ dq "isPhishing" +:+ ": true, " +:+ dq "confidence" +:+ ": 95, "
  +:+ dq "tactics" +:+ ": [" +:+ dq "urgency" +:+ ", " +:+ dq "fear" +:+ "], "
  +:+ dq "redFlags" +:+ ": [" +:+ dq "look-alike domain" +:+ ", " +:+ dq "urgency" +:+ "], "
  +:+ dq "reasoning" +:+ ": " +:+ dq "spoofed PayPal notice" +:+ "}".

Definition demo_many : response :=
  serve (NF := integer_format) (JP := json_parse_std) (GW := gw_says demo_content_many)
    (Some "key") (email_request phishing_sender phishing_subject phishing_body).

(** ** Properties *)

Lemma email_rules_nonneg f : rules_nonneg (email_rules f).
Proof.
  pose proof (Q_of_nat_nonneg (urgencyCount f)).
  unfold email_rules; by_rows; try lra. apply Q.min_glb; lra.
Qed.

(** Two characters are enough to tell the eight messages apart. *)
Lemma email_messages_NoDup f : NoDup (map message (email_rules f)).
Proof.
  apply (NoDup_fmap_1 (String.substring 0 2)).
  apply (bool_decide_eq_true (NoDup _)). vm_compute. reflexivity.
Qed.

Lemma calculateEmailRiskScore_range f :
  (0 <= (calculateEmailRiskScore f).1 <= 100)%Q.
Proof. apply min100_bounds, run_rules_nonneg, email_rules_nonneg. Qed.

Lemma calculateEmailRiskScore_NoDup f : NoDup (calculateEmailRiskScore f).2.
Proof. apply run_rules_NoDup, email_messages_NoDup. Qed.

(** The brand loop only ever adds a brand that has an entry in
    [legitimateDomains] and whose official domains the sender domain does not
    end with. *)
Lemma brand_fold_elem text sl sd st l brand :
  brand ∈ (foldl (brand_step text sl sd) st l).2 ->
  brand ∈ st.2 \/ exists legit, legitimateDomains !! brand = Some legit /\
                                existsb (ends_with sd) legit = false.
Proof.
  revert st; induction l as [|b l IH]; intros st Hin; simpl in Hin; [by left|].
  destruct (IH _ Hin) as [Hst|]; [|by right]. unfold brand_step in Hst.
  destruct (_ || _); [|by left].
  destruct (legitimateDomains !! b) as [legit|] eqn:E; [|by left].
  destruct (existsb _ legit) eqn:Ex; [by left|]. destruct (includes sd b); [|by left].
  cbn [snd negb] in Hst. apply elem_of_app in Hst as [Hst|Hst]; [by left|].
  apply list_elem_of_singleton in Hst as ->. right; eauto.
Qed.

Lemma impersonatedBrands_extract s subj t :
  impersonatedBrands (extractEmailFeatures s subj t) =
  (foldl (brand_step (lower (subj +:+ " " +:+ t)) (lower s) (sender_domain (lower s)))
     (false, []) knownBrands).2.
Proof. unfold extractEmailFeatures. by destruct (foldl _ _ _). Qed.

Lemma senderDomain_extract s subj t :
  senderDomain (extractEmailFeatures s subj t) = sender_domain (lower s).
Proof. unfold extractEmailFeatures. by destruct (foldl _ _ _). Qed.

Section Properties.
Context {NF : NumberFormat} {JP : JsonParser} {GW : Gateway oracle_request}.

(** The mix the combination computes from a decoded analysis. *)
Definition email_combined (s : Q) (a : jvalue) : jsnum :=
  combinedScore s (aiScore (get a "isPhishing") (get a "confidence")).

Lemma email_combine_inv se su f s t a r :
  combine se su f s t a = Respond r ->
  res_verdict r = classify (email_combined s a) /\
  res_confidence r = email_confidence (classify (email_combined s a)) (email_combined s a) /\
  d_aiAnalysis (res_details r) = a /\ d_ruleBasedScore (res_details r) = s /\
  d_method (res_details r) = "hybrid-email-ai" /\
  exists l, res_threatIndicators r = slice0 8 (set_dedup_v l).
Proof.
  unfold combine. intros H.
  destruct (prop a "isPhishing") as [p|] eqn:Ep; [|done]. apply prop_some in Ep as ->.
  destruct (push_spread (get a "tactics")), (push_spread (get a "redFlags")); try done.
  injection H as <-; cbn; split_and!; try done; eexists; reflexivity.
Qed.

Lemma email_serve_inv key req r :
  serve key req = Respond r ->
  exists se su f a,
    combine se su f (calculateEmailRiskScore f).1 (calculateEmailRiskScore f).2 a = Respond r.
Proof.
  unfold serve. intros H. repeat (case_match; try done).
  match goal with
  | E : calculateEmailRiskScore ?f = _, Hc : combine ?se ?su _ _ _ ?a = _ |- _ =>
      exists se, su, f, a; by rewrite E
  end.
Qed.

(** A well-formed oracle confidence keeps the oracle's axis in [0, 100]. *)
Lemma aiScore_range p q :
  (0 <= q <= 100)%Q -> exists x, aiScore p (JNum q) = Some x /\ (0 <= x <= 100)%Q.
Proof.
  intros Hq. unfold aiScore, js_or. cbn [truthy to_number].
  destruct (Qeq_bool q 0); cbn [negb to_number];
    destruct (truthy p); eexists; (split; [reflexivity|]);
    unfold Qdiv; change (/ 2)%Q with (1 # 2)%Q; lra.
Qed.

Lemma email_confidence_range s x :
  (0 <= s <= 100)%Q -> (0 <= x <= 100)%Q ->
  let c := combinedScore s (Some x) in
  exists y, email_confidence (classify c) c = Some y /\ (0 <= y <= 100)%Q.
Proof.
  intros Hs Hx c. unfold email_confidence, c, combinedScore, classify.
  cbn [jadd jmul jlift2 jlit jge jle jsub math_min].
  destruct (Qle_bool 50 _); [|destruct (Qle_bool 25 _)]; cbn [decide decide_rel verdict_eq_dec];
    apply (math_round_range 0 100); change (inject_Z 0) with 0%Q;
    change (inject_Z 100) with 100%Q; split; try apply Q.min_glb; try apply Q.min_le_iff;
    lra.
Qed.

(** C12: for any request, whatever the oracle answers, the confidence of a
    200 response lies in [0, 100] as soon as the analysis carries a numeric
    confidence in [0, 100]; the default analysis does. *)
Theorem serve_email_confidence_bounds key req r q :
  serve key req = Respond r ->
  get (d_aiAnalysis (res_details r)) "confidence" = JNum q -> (0 <= q <= 100)%Q ->
  exists c, res_confidence r = Some c /\ (0 <= c <= 100)%Q.
Proof.
  intros (se & su & f & a & Hc)%email_serve_inv Hq Hq100.
  pose proof (calculateEmailRiskScore_range f) as Hs.
  apply email_combine_inv in Hc as (_ & -> & Ha & _). rewrite Ha in Hq.
  unfold email_combined. rewrite Hq.
  destruct (aiScore_range (get a "isPhishing") q Hq100) as (x & -> & Hx).
  by apply email_confidence_range.
Qed.

(** C13: the threat indicators of a 200 response are distinct and at most
    eight, whatever the oracle's [tactics], [redFlags] and [reasoning]. *)
Theorem serve_email_threats_capped key req r :
  serve key req = Respond r ->
  NoDup (strings_of (res_threatIndicators r)) /\ (length (res_threatIndicators r) <= 8)%nat.
Proof.
  intros (se & su & f & a & Hc)%email_serve_inv.
  apply email_combine_inv in Hc as (_ & _ & _ & _ & _ & l & ->). unfold slice0. split.
  - apply strings_of_take_NoDup, set_dedup_v_NoDup_strings.
  - rewrite length_take. lia.
Qed.

(** C14: when the gateway answers with an HTTP error, the handler still
    answers 200, combining the rule score with the default analysis
    (not phishing, confidence 50): the verdict is the specification's
    policy at [0.4 rule + 0.6 * 25], and the method is still reported as
    "hybrid-email-ai", not as a degraded mode. *)
Theorem serve_email_gateway_down key m fs s subj t status :
  String.eqb m "OPTIONS" = false ->
  get (JObj fs) "sender" = JStr s -> get (JObj fs) "subject" = JStr subj ->
  get (JObj fs) "body" = JStr t ->
  s <> EmptyString -> subj <> EmptyString -> t <> EmptyString -> key <> EmptyString ->
  ask (mk_oracle_request s subj t (extractEmailFeatures s subj t)) = HttpError status ->
  exists r, serve (Some key) (mk_request m (Some (JObj fs))) = Respond r /\
    d_method (res_details r) = "hybrid-email-ai" /\
    d_aiAnalysis (res_details r) = default_analysis /\
    res_verdict r =
      Spec.verdict_of (Spec.combined (calculateEmailRiskScore (extractEmailFeatures s subj t)).1
                         false 50).
Proof.
  intros Hm Hs Hsu Ht Hs0 Hsu0 Ht0 Hk Hask. unfold serve. cbn [method body].
  rewrite Hm, Hs, Hsu, Ht. apply String.eqb_neq in Hs0, Hsu0, Ht0, Hk.
  cbn [truthy to_js_string]. rewrite Hs0, Hsu0, Ht0, Hk. cbn [negb andb].
  destruct (calculateEmailRiskScore _) as [q l] eqn:E. rewrite Hask.
  eexists. split_and!; reflexivity.
Qed.

(** C15: a confidence that is a non-empty string which is not a numeric
    literal of [Number] (["low"]; not "1e3", "0x10" or "Infinity") makes
    the mix NaN: the
    verdict is "safe" and the reported confidence is NaN, which
    [JSON.stringify] sends as [null]. *)
Theorem serve_email_nan_confidence key req r s :
  serve key req = Respond r ->
  get (d_aiAnalysis (res_details r)) "confidence" = JStr s -> s <> EmptyString ->
  numeric_literal s = false ->
  res_verdict r = Safe /\ res_confidence r = NaN.
Proof.
  intros (se & su & f & a & Hc)%email_serve_inv Hc' Hs Hnum.
  apply email_combine_inv in Hc as (-> & -> & Ha & _). rewrite Ha in Hc'.
  unfold email_combined, aiScore, js_or. rewrite Hc'. cbn [truthy].
  apply String.eqb_neq in Hs. rewrite Hs. cbn [negb to_number]. rewrite (string_to_number_not_literal _ Hnum).
  by destruct (truthy _).
Qed.

(** C16: a network failure of the gateway fails the request with status 500
    (the specification asks for the neutral fallback). *)
Theorem serve_email_network_error key m fs s subj t :
  String.eqb m "OPTIONS" = false ->
  get (JObj fs) "sender" = JStr s -> get (JObj fs) "subject" = JStr subj ->
  get (JObj fs) "body" = JStr t ->
  s <> EmptyString -> subj <> EmptyString -> t <> EmptyString -> key <> EmptyString ->
  ask (mk_oracle_request s subj t (extractEmailFeatures s subj t)) = NetworkError ->
  serve (Some key) (mk_request m (Some (JObj fs))) = Fail 500 FetchRejected.
Proof.
  intros Hm Hs Hsu Ht Hs0 Hsu0 Ht0 Hk Hask. unfold serve. cbn [method body].
  rewrite Hm, Hs, Hsu, Ht. apply String.eqb_neq in Hs0, Hsu0, Ht0, Hk.
  cbn [truthy to_js_string]. rewrite Hs0, Hsu0, Ht0, Hk. cbn [negb andb].
  destruct (calculateEmailRiskScore _). by rewrite Hask.
Qed.

End Properties.

(** C17: the official-domain test is a bare suffix test: a sender whose
    domain ends with one of a brand's official domains is never reported as
    impersonating that brand, even when the domain is a look-alike such as
    [secure-paypal.com] (which ends with [paypal.com]). *)
Theorem official_suffix_not_impersonation s subj t brand legit d :
  legitimateDomains !! brand = Some legit -> d ∈ legit ->
  ends_with (senderDomain (extractEmailFeatures s subj t)) d = true ->
  brand ∉ impersonatedBrands (extractEmailFeatures s subj t).
Proof.
  intros Hl Hd Hend. rewrite senderDomain_extract in Hend. rewrite impersonatedBrands_extract.
  intros [Hin|(legit' & Hl' & Hno)]%brand_fold_elem; [set_solver|].
  rewrite Hl in Hl'. injection Hl' as <-.
  assert (Hyes : existsb (ends_with (sender_domain (lower s))) legit = true).
  { apply existsb_exists. exists d. split; [by apply list_elem_of_In|exact Hend]. }
  congruence.
Qed.

(** With the gateway failing with any HTTP status, the phishing test
    case of the e-mail tab is classified phishing (rule score 100, confidence
    75) and the receipt from paypal.com safe (rule score 0, confidence 85). *)
Theorem email_test_cases_gateway_down (NF : NumberFormat) (JP : JsonParser) (status : Z) :
  (exists r, serve (GW := gw_status status) (Some "key")
               (email_request phishing_sender phishing_subject phishing_body) = Respond r /\
             res_verdict r = Phishing /\ res_confidence r = Some 75%Q /\
             d_ruleBasedScore (res_details r) = 100%Q) /\
  (exists r, serve (GW := gw_status status) (Some "key")
               (email_request safe_sender safe_subject safe_body) = Respond r /\
             res_verdict r = Safe /\ res_confidence r = Some 85%Q /\
             d_ruleBasedScore (res_details r) = 0%Q).
Proof. split; eexists; split_and!; vm_compute; reflexivity. Qed.

(** ** Witnesses *)

Lemma serve_email_confidence_bounds_witness :
  exists c, res_confidence
              (response_result (serve (NF := integer_format) (JP := json_parse_std)
                 (GW := gw_status 503) (Some "key")
                 (email_request phishing_sender phishing_subject phishing_body))) = Some c /\
            (0 <= c <= 100)%Q.
Proof.
  apply (serve_email_confidence_bounds (NF := integer_format) (JP := json_parse_std)
           (GW := gw_status 503) (Some "key")
           (email_request phishing_sender phishing_subject phishing_body) _ 50);
    [vm_compute; reflexivity | vm_compute; reflexivity | split; discriminate].
Defined.

Lemma serve_email_threats_capped_witness :
  NoDup (strings_of (res_threatIndicators (response_result demo_many))) /\
  (length (res_threatIndicators (response_result demo_many)) <= 8)%nat.
Proof.
  apply (serve_email_threats_capped (NF := integer_format) (JP := json_parse_std)
           (GW := gw_says demo_content_many) (Some "key")
           (email_request phishing_sender phishing_subject phishing_body)).
  vm_compute. reflexivity.
Defined.

Lemma serve_email_gateway_down_witness :
  exists r, serve (NF := integer_format) (JP := json_parse_std) (GW := gw_status 503) (Some "key")
              (email_request phishing_sender phishing_subject phishing_body) = Respond r /\
    d_method (res_details r) = "hybrid-email-ai" /\
    d_aiAnalysis (res_details r) = default_analysis /\
    res_verdict r =
      Spec.verdict_of (Spec.combined
        (calculateEmailRiskScore (extractEmailFeatures phishing_sender phishing_subject phishing_body)).1
        false 50).
Proof.
  apply (serve_email_gateway_down (NF := integer_format) (JP := json_parse_std)
           (GW := gw_status 503) "key" "POST" _ phishing_sender phishing_subject phishing_body 503);
    try reflexivity; discriminate.
Defined.

Lemma serve_email_nan_confidence_witness : res_verdict demo_nan = Safe /\ res_confidence demo_nan = NaN.
Proof.
  apply (serve_email_nan_confidence (NF := integer_format) (JP := json_parse_std)
           (GW := gw_says demo_content_nan) (Some "key")
           (email_request phishing_sender phishing_subject phishing_body) _ "low");
    [vm_compute; reflexivity | vm_compute; reflexivity | discriminate | vm_compute; reflexivity].
Defined.

Lemma serve_email_network_error_witness :
  serve (NF := integer_format) (JP := json_parse_std) (GW := gw_unreachable) (Some "key")
    (email_request phishing_sender phishing_subject phishing_body) = Fail 500 FetchRejected.
Proof.
  apply (serve_email_network_error (NF := integer_format) (JP := json_parse_std)
           (GW := gw_unreachable) "key" "POST" _ phishing_sender phishing_subject phishing_body);
    try reflexivity; discriminate.
Defined.

Lemma official_suffix_not_impersonation_witness :
  senderDomain (extractEmailFeatures "service@secure-paypal.com" "Your PayPal account" "Hello")
    = "secure-paypal.com" /\
  "paypal" ∉ impersonatedBrands (extractEmailFeatures "service@secure-paypal.com"
                                   "Your PayPal account" "Hello").
Proof.
  split; [vm_compute; reflexivity|].
  apply (official_suffix_not_impersonation _ _ _ "paypal" ["paypal.com"; "paypal.co.uk"] "paypal.com");
    [vm_compute; reflexivity | by left | vm_compute; reflexivity].
Defined.

End EmailHybrid.
