(* ===== verification/LogoHeuristic.v ===== *)
(** * The logo analyser, heuristic version ([analyze-logo], v2)

    Models src/supabase/functions/analyze-logo/index.ts, lines 1-140: the
    safe-domain and keyword tables, [domainFromUrl], [hasSafeDomain],
    [calcLogoHeuristic] (three additive rules run by [Scoring.run_rules],
    then the PayPal override, then the verdict with its safe floor of 8 and
    its unknown default of 45) and the request handler. *)

From Stdlib Require Import Ascii String QArith Qminmax Lqa ZArith.
From stdpp Require Import base list strings.
From S2P Require Import Prelude Url Json Verdict Scoring.

Module LogoHeuristic.

(** ** Tables (lines 10-11) *)

Definition SAFE_DOMAINS : list string := ["netflix.com"; "amazon.com"; "paypal.com"].
Definition PHISH_KEYWORDS : list string := ["phish"; "fake"; "scam"; "suspicious"].

(** ** Domain helpers (lines 13-24) *)

(** [new URL(url).hostname.toLowerCase()], or [""] when the constructor throws. *)
Definition domainFromUrl (url : string) : string :=
  match new_URL url with Some u => lower (hostname u) | None => EmptyString end.

Definition hasSafeDomain (url : string) : bool :=
  let host := domainFromUrl url in
  existsb (fun d => String.eqb host d || ends_with host ("." +:+ d)) SAFE_DOMAINS.

(** ** [calcLogoHeuristic] (lines 26-74)

    The input is [{ imageUrl, base64Image }]: [imageUrl] is a string, the
    empty string standing for every falsy value (the code only tests its
    truthiness and reads [imageUrl || ""]); of [base64Image] only the
    truthiness is read. *)

Record heuristic := mk_heuristic {
  h_verdict : verdict;
  h_probability : Q;
  h_issues : list string;
  h_detectedBrand : option string
}.

Definition present (imageUrl : string) : bool := negb (String.eqb imageUrl EmptyString).

(** [!!input.base64Image || (!!imageUrl && !imageUrl.startsWith("http"))] *)
Definition isLocal (imageUrl : string) (base64 : bool) : bool :=
  base64 || (present imageUrl && negb (starts_with imageUrl "http")).

(** The three additive blocks (lines 35-49), in source order. *)
Definition logo_rules (imageUrl : string) (base64 : bool) : list score_rule :=
  let url := lower imageUrl in
  [(present imageUrl && existsb (includes url) PHISH_KEYWORDS, 50,
      "URL contains phishing keywords");
   (isLocal imageUrl base64, 30, "Local/base64 image (source cannot be verified)");
   (present imageUrl && (includes url "blur" || Nat.ltb (String.length imageUrl) 50), 20,
      "Low-signal / potentially blurred image reference")]%Q.

(** [hostedOnPaypal] (line 53). *)
Definition hostedOnPaypal (imageUrl : string) : bool :=
  if present imageUrl then includes (domainFromUrl imageUrl) "paypal" || includes imageUrl "paypal.com"
  else false.

(** The override of lines 52-58: [score = Math.max(score, 92)] and one more issue. *)
Definition paypal_override (imageUrl : string) (st : Q * list string) : Q * list string :=
  if includes (lower imageUrl) "paypal" && present imageUrl && negb (hostedOnPaypal imageUrl)
  then (Qmax st.1 92, (st.2 ++ ["PayPal brand on non-official source"])%list)
  else st.

Definition brand_of (url : string) : option string :=
  if includes url "netflix" then Some "netflix"
  else if includes url "amazon" then Some "amazon"
  else if includes url "paypal" then Some "paypal" else None.

Definition calcLogoHeuristic (imageUrl : string) (base64 : bool) : heuristic :=
  let url := lower imageUrl in
  let '(score, issues) := paypal_override imageUrl (run_rules (logo_rules imageUrl base64)) in
  if present imageUrl && hasSafeDomain imageUrl && Qeq_bool score 0 then
    mk_heuristic Safe 8 issues (brand_of url)
  else if Qeq_bool score 0 then
    mk_heuristic Unknown 45 ["Unknown logo / insufficient signals"] None
  else
    let probability := Qmin 95 score in
    mk_heuristic (if Qlt_bool 30 probability then Phishing else Unknown) probability issues
      (if includes url "paypal" then Some "paypal"
       else if includes url "netflix" then Some "netflix"
       else if includes url "amazon" then Some "amazon" else None).

(** ** The handler (lines 76-140) *)

Record request := mk_request { method : string; body : option jvalue }.

Record result := mk_result {
  res_imageUrl : jvalue;              (** [imageUrl || "base64-image"] *)
  res_verdict : verdict;
  res_confidence : Q;
  res_detectedBrand : option string;
  res_threatIndicators : list string;
  res_suspicions : list string;       (** [analysisDetails.urlAnalysis.suspicions] *)
  res_isAuthentic : bool;
  res_reasoning : string;
  res_method : string
}.

Inductive failure : Type :=
  | ImageRequired        (** [!imageSource] *)
  | BodyNotJson
  | TypeErrorThrown.     (** destructuring [null], a truthy [imageUrl] that is not a string *)

Inductive response : Type :=
  | Preflight
  | Respond (r : result)
  | Fail (status : Z) (why : failure).

Definition reasoning_of (v : verdict) : string :=
  if decide (v = Unknown) then "Unknown logo / insufficient signals"
  else if decide (v = Safe) then "Known safe domain and no phishing indicators"
  else "Heuristic indicators suggest a phishing/counterfeit logo".

Definition serve (req : request) : response :=
  if String.eqb (method req) "OPTIONS" then Preflight else
  match body req with
  | None => Fail 500 BodyNotJson
  | Some JNull | Some JUndefined => Fail 500 TypeErrorThrown
  | Some b =>
      let imageUrl := get b "imageUrl" in
      let base64Image := get b "base64Image" in
      if negb (truthy (js_or imageUrl base64Image)) then Fail 400 ImageRequired else
      let imageUrl_s :=
        match imageUrl with
        | JStr s => Some s
        | _ => if truthy imageUrl then None else Some EmptyString
        end in
      match imageUrl_s with
      | None => Fail 500 TypeErrorThrown
      | Some u =>
          let h := calcLogoHeuristic u (truthy base64Image) in
          Respond (mk_result (js_or imageUrl (JStr "base64-image")) (h_verdict h) (h_probability h)
                     (h_detectedBrand h) (set_dedup (h_issues h)) (h_issues h)
                     (bool_decide (h_verdict h = Safe)) (reasoning_of (h_verdict h))
                     "heuristic-logo-v2")
      end
  end.

(** ** Example inputs: the two test cases of the logo tab (part_008, lines 71-83) *)

Definition fake_paypal_url : string := "https://suspicious-site.xyz/paypal-logo-modified.png".
Definition amazon_logo_url : string :=
  "https://upload.wikimedia.org/wikipedia/commons/thumb/a/a9/Amazon_logo.svg/320px-Amazon_logo.svg.png".

Definition logo_request (fields : list (string * jvalue)) : request :=
  mk_request "POST" (Some (JObj fields)).

(** ** Properties *)

Lemma logo_rules_min u b :
  Forall (fun r => fires r = true -> (20 <= points r)%Q) (logo_rules u b).
Proof. unfold logo_rules; by_rows; lra. Qed.

(** After the override the score is zero, or at least 20. *)
Lemma logo_score_gap u b :
  let st := paypal_override u (run_rules (logo_rules u b)) in
  (st.1 == 0)%Q \/ (20 <= st.1)%Q.
Proof.
  cbn zeta.
  pose proof (fired_points_gap 20 (logo_rules u b) ltac:(lra) (logo_rules_min u b)) as H.
  rewrite <- !run_rules_score in H. unfold paypal_override.
  destruct (_ && _ && _); cbn [fst]; [|exact H].
  right. eapply Qle_trans; [|apply Q.le_max_r]. lra.
Qed.

Lemma Qeq_bool_false_iff (q : Q) : Qeq_bool q 0 = false <-> ~ (q == 0)%Q.
Proof.
  split; intros H.
  - intros Hq. apply Qeq_bool_iff in Hq. congruence.
  - destruct (Qeq_bool q 0) eqn:E; [|done]. apply Qeq_bool_iff in E. done.
Qed.

(** C18: the verdicts and probabilities [calcLogoHeuristic] can produce: never
    "suspicious"; a probability between 8 and 95; "phishing" only above 30. *)
Theorem logo_verdict_range u b :
  let h := calcLogoHeuristic u b in
  h_verdict h <> Suspicious /\ (8 <= h_probability h <= 95)%Q /\
  (h_verdict h = Phishing -> (30 < h_probability h)%Q).
Proof.
  cbn zeta. pose proof (logo_score_gap u b) as Hgap. unfold calcLogoHeuristic.
  destruct (paypal_override _ _) as [score issues]. cbn [fst] in Hgap.
  destruct (present u && hasSafeDomain u && Qeq_bool score 0);
    [cbn; split_and!; (done || lra)|].
  destruct (Qeq_bool score 0) eqn:E; [cbn; split_and!; (done || lra)|].
  apply Qeq_bool_false_iff in E. destruct Hgap as [Hz|Hgap]; [done|].
  destruct (Qlt_bool 30 (Qmin 95 score)) eqn:Hp; cbn [h_verdict h_probability];
    (split; [done|]); (split; [split; [apply Q.min_glb; lra|apply Q.le_min_l]|]);
    intros Hv; [by apply Qlt_bool_iff|done].
Qed.

(** A non-zero score never takes the safe or the default branch. *)
Lemma calc_nonzero u b :
  let st := paypal_override u (run_rules (logo_rules u b)) in
  ~ (st.1 == 0)%Q ->
  h_verdict (calcLogoHeuristic u b) <> Safe /\
  h_probability (calcLogoHeuristic u b) = Qmin 95 st.1 /\ h_issues (calcLogoHeuristic u b) = st.2.
Proof.
  cbn zeta. unfold calcLogoHeuristic. destruct (paypal_override _ _) as [score issues].
  cbn [fst snd]. intros Hz. apply Qeq_bool_false_iff in Hz. rewrite Hz, andb_false_r.
  cbn. split_and!; [|done|done]. by destruct (Qlt_bool 30 _).
Qed.

(** C19: the PayPal override: an image reference that mentions PayPal but is
    neither hosted on a host containing "paypal" nor contains "paypal.com" is
    classified phishing with a probability of at least 92, and the issue
    "PayPal brand on non-official source" is reported, whatever the other
    signals. *)
Theorem paypal_override_phishing u b :
  present u = true -> includes (lower u) "paypal" = true -> hostedOnPaypal u = false ->
  let h := calcLogoHeuristic u b in
  h_verdict h = Phishing /\ (92 <= h_probability h <= 95)%Q /\
  "PayPal brand on non-official source" ∈ h_issues h.
Proof.
  intros Hp Hpp Hh. cbn zeta.
  assert (Hst : paypal_override u (run_rules (logo_rules u b)) =
                (Qmax (run_rules (logo_rules u b)).1 92,
                 ((run_rules (logo_rules u b)).2 ++ ["PayPal brand on non-official source"])%list)).
  { unfold paypal_override. by rewrite Hpp, Hp, Hh. }
  assert (H92 : (92 <= Qmax (run_rules (logo_rules u b)).1 92)%Q) by apply Q.le_max_r.
  assert (Hnz : ~ ((paypal_override u (run_rules (logo_rules u b))).1 == 0)%Q)
    by (rewrite Hst; cbn [fst]; lra).
  destruct (calc_nonzero u b Hnz) as (_ & Hprob & Hiss).
  rewrite Hst in Hprob, Hiss. cbn [fst snd] in Hprob, Hiss. rewrite Hprob, Hiss. split_and!.
  - unfold calcLogoHeuristic. rewrite Hst. cbn [fst snd].
    assert (Hz : Qeq_bool (Qmax (run_rules (logo_rules u b)).1 92) 0 = false)
      by (apply Qeq_bool_false_iff; lra).
    rewrite Hz, andb_false_r. cbv beta iota zeta. cbn [h_verdict]. rewrite (proj2 (Qlt_bool_iff _ _)); [done|].
    apply Q.min_glb_lt; lra.
  - apply Q.min_glb; lra.
  - apply Q.le_min_l.
  - apply elem_of_app. right. by left.
Qed.

(** C20: an image reference shorter than 50 characters triggers the
    low-signal rule, so it is never classified safe, even on one of the safe
    domains (https://www.paypal.com/logo.png is "unknown" at 20). *)
Theorem short_url_never_safe u b :
  present u = true -> (String.length u < 50)%nat ->
  h_verdict (calcLogoHeuristic u b) <> Safe.
Proof.
  intros Hp Hlen. apply calc_nonzero.
  enough (20 <= (run_rules (logo_rules u b)).1)%Q.
  { unfold paypal_override. destruct (_ && _ && _); cbn [fst]; [|lra].
    pose proof (Q.le_max_l (run_rules (logo_rules u b)).1 92). lra. }
  rewrite run_rules_score. unfold logo_rules. cbn [fired_points foldr fires points fst snd].
  rewrite Hp. apply Nat.ltb_lt in Hlen. rewrite Hlen, orb_true_r. cbn [andb].
  destruct (existsb _ _), (isLocal _ _); lra.
Qed.

(** C21: the safe floor: a reference on a safe domain (or a subdomain of
    one) that triggers no rule and no override is classified safe with the
    fixed probability 8 and no issue, not 0. *)
Theorem logo_safe_floor u :
  present u = true -> hasSafeDomain u = true -> starts_with u "http" = true ->
  existsb (includes (lower u)) PHISH_KEYWORDS = false -> includes (lower u) "blur" = false ->
  (50 <= String.length u)%nat ->
  includes (lower u) "paypal" = false \/ hostedOnPaypal u = true ->
  calcLogoHeuristic u false = mk_heuristic Safe 8 [] (brand_of (lower u)).
Proof.
  intros Hp Hs Hh Hk Hb Hl Hpp. apply Nat.ltb_ge in Hl.
  assert (Hst : paypal_override u (run_rules (logo_rules u false)) = (0%Q, [])).
  { unfold logo_rules, isLocal. rewrite Hp, Hh, Hk, Hb, Hl. cbn.
    unfold paypal_override. destruct Hpp as [-> | ->]; by rewrite ?andb_false_r. }
  unfold calcLogoHeuristic. rewrite Hst, Hp, Hs. reflexivity.
Qed.

(** C22: an uploaded image (a truthy [base64Image], no [imageUrl]) fires the
    local-image rule alone: 30 points, not above the phishing threshold, so
    the verdict is "unknown" with confidence 30 (not the default 45), and the
    echoed [imageUrl] is "base64-image". *)
Theorem base64_upload_unknown m fs :
  String.eqb m "OPTIONS" = false ->
  truthy (get (JObj fs) "imageUrl") = false -> truthy (get (JObj fs) "base64Image") = true ->
  exists r, serve (mk_request m (Some (JObj fs))) = Respond r /\
    res_verdict r = Unknown /\ res_confidence r = 30%Q /\
    res_threatIndicators r = ["Local/base64 image (source cannot be verified)"] /\
    res_imageUrl r = JStr "base64-image" /\ res_isAuthentic r = false.
Proof.
  intros Hm Hu Hb.
  assert (Hs : match get (JObj fs) "imageUrl" with
               | JStr s => Some s
               | _ => if truthy (get (JObj fs) "imageUrl") then None else Some EmptyString
               end = Some EmptyString).
  { destruct (get (JObj fs) "imageUrl") as [| |bo|q|str| |]; cbn [truthy] in Hu |- *;
      try rewrite Hu; try done.
    apply negb_false_iff, String.eqb_eq in Hu. by subst. }
  unfold serve. cbn [method body]. rewrite Hm. cbv zeta. rewrite Hs.
  unfold js_or. rewrite Hu, Hb. cbn [negb]. eexists. split; [reflexivity|]. vm_compute. done.
Qed.

(** The two test cases of the logo tab: the fake PayPal logo on
    suspicious-site.xyz is "phishing" at 92; the Amazon logo on Wikimedia,
    offered as the safe case, is "unknown" at 45, its host not being one of
    the safe domains. *)
Theorem logo_test_cases :
  (exists r, serve (logo_request [("imageUrl", JStr fake_paypal_url)]) = Respond r /\
     res_verdict r = Phishing /\ res_confidence r = 92%Q /\ res_detectedBrand r = Some "paypal") /\
  (exists r, serve (logo_request [("imageUrl", JStr amazon_logo_url)]) = Respond r /\
     res_verdict r = Unknown /\ res_confidence r = 45%Q /\ res_detectedBrand r = None).
Proof. split; eexists; split_and!; vm_compute; reflexivity. Qed.

(** ** Witnesses *)

Definition netflix_logo_url : string :=
  "https://www.netflix.com/images/brand/netflix-logo-horizontal-2024.png".

Lemma paypal_override_phishing_witness :
  let h := calcLogoHeuristic fake_paypal_url false in
  h_verdict h = Phishing /\ (92 <= h_probability h <= 95)%Q /\
  "PayPal brand on non-official source" ∈ h_issues h.
Proof. apply paypal_override_phishing; vm_compute; reflexivity. Defined.

Lemma short_url_never_safe_witness :
  h_verdict (calcLogoHeuristic "https://www.paypal.com/logo.png" false) <> Safe.
Proof. apply short_url_never_safe; [vm_compute; reflexivity | vm_compute; lia]. Defined.

Lemma logo_safe_floor_witness :
  calcLogoHeuristic netflix_logo_url false = mk_heuristic Safe 8 [] (Some "netflix").
Proof.
  apply (logo_safe_floor netflix_logo_url); try (vm_compute; reflexivity).
  - vm_compute. lia.
  - left. vm_compute. reflexivity.
Defined.

Lemma base64_upload_unknown_witness :
  exists r, serve (logo_request [("base64Image", JStr "data:image/png;base64,iVBORw0KGgo=")])
            = Respond r /\
    res_verdict r = Unknown /\ res_confidence r = 30%Q /\
    res_threatIndicators r = ["Local/base64 image (source cannot be verified)"] /\
    res_imageUrl r = JStr "base64-image" /\ res_isAuthentic r = false.
Proof. apply base64_upload_unknown; reflexivity. Defined.

End LogoHeuristic.
