(* ===== verification/EmailHeuristic.v ===== *)
(** * The heuristic e-mail analyser ([analyze-email], v2)

    Models src/unnamed/part_002: [getDomain], [calcEmailScore] (four
    additive blocks and a subtractive one, each updating the score and one
    category of the breakdown, then the clamp and the hard-coded "SAFE 12%"
    rule for official senders) and the request handler with its threat
    indicators read off the breakdown.  This is the second implementation
    of the e-mail analyser; [EmailHybrid] models the first, and the last
    theorem compares them. *)

From Stdlib Require Import Ascii String ZArith Lia QArith.
From stdpp Require Import base list strings.
From S2P Require Import Prelude Regex Json Verdict EmailHybrid.

Local Open Scope Z_scope.

Module EmailHeuristic.

Definition OFFICIAL_DOMAINS : list string := ["paypal.com"; "amazon.com"; "google.com"].

(** [s.lastIndexOf(c)] for one character. *)
Fixpoint last_index_of (c : ascii) (s : string) : option nat :=
  match s with
  | EmptyString => None
  | String d s' =>
      match last_index_of c s' with
      | Some i => Some (S i)
      | None => if Ascii.eqb c d then Some O else None
      end
  end.

(** [s.trim()] on ASCII white space. *)
Definition trim (s : string) : string :=
  string_of_list_ascii (reverse (drop_while is_space (reverse (drop_while is_space (list_ascii_of_string s))))).

(** [getDomain(sender)] (lines 11-14). *)
Definition getDomain (sender : string) : string :=
  match last_index_of "@" (lower sender) with
  | Some i => trim (String.substring (S i) (String.length sender) (lower sender))
  | None => EmptyString
  end.

(** ** [calcEmailScore] (lines 16-101) *)

Record category := mk_category { points : Z; matched : list string }.

Record breakdown := mk_breakdown {
  bd_sender : category; bd_subject : category; bd_body : category; bd_tld : category
}.

Inductive part := PSender | PSubject | PBody | PTld.

Definition empty_category : category := mk_category 0 [].
Definition empty_breakdown : breakdown :=
  mk_breakdown empty_category empty_category empty_category empty_category.

Definition add_to (c : category) (pts : Z) (tag : string) : category :=
  mk_category (points c + pts) (matched c ++ [tag])%list.

(** One block: [score += pts; breakdown.p.points += pts; breakdown.p.matched.push(tag)]. *)
Definition bump (p : part) (pts : Z) (tag : string) (st : Z * breakdown) : Z * breakdown :=
  let '(score, bd) := st in
  (score + pts,
   match p with
   | PSender => mk_breakdown (add_to (bd_sender bd) pts tag) (bd_subject bd) (bd_body bd) (bd_tld bd)
   | PSubject => mk_breakdown (bd_sender bd) (add_to (bd_subject bd) pts tag) (bd_body bd) (bd_tld bd)
   | PBody => mk_breakdown (bd_sender bd) (bd_subject bd) (add_to (bd_body bd) pts tag) (bd_tld bd)
   | PTld => mk_breakdown (bd_sender bd) (bd_subject bd) (bd_body bd) (add_to (bd_tld bd) pts tag)
   end).

Definition subject_re : regex :=
  ci (alts [lit "urgent"; lit "verify"; lit "suspend"; lit "immediate"; lit "click"; lit "login"]).
Definition body_re : regex :=
  ci (alts [lit "click"; lit "verify"; lit "update"; lit "account"; lit "login"]).
Definition benign_re : regex := ci (alts [lit "receipt"; lit "order confirmation"]).

Definition phish_sender (senderLower : string) : bool :=
  includes senderLower "-" || includes senderLower "update" || includes senderLower "security".

Record flags := mk_flags {
  hasPhishSender : bool; hasPhishSubject : bool; hasPhishBody : bool; isOfficial : bool
}.

Record calc := mk_calc {
  c_senderDomain : string;
  c_rawScore : Z;
  c_probability : Z;
  c_result : verdict;
  c_breakdown : breakdown;
  c_flags : flags
}.

Definition calcEmailScore (sender subject body : string) : calc :=
  let senderLower := lower sender in
  let subjectLower := lower subject in
  let senderDomain := getDomain sender in
  let st0 := (0, empty_breakdown) in
  let st1 := if phish_sender senderLower then bump PSender 40 "hyphen/update/security" st0 else st0 in
  let st2 := if re_test subject_re subject
             then bump PSubject 30 "urgent|verify|suspend|immediate|click|login" st1 else st1 in
  let st3 := if re_test body_re body
             then bump PBody 25 "click|verify|update|account|login" st2 else st2 in
  let st4 := if negb (String.eqb senderDomain EmptyString) && negb (ends_with senderDomain ".com")
             then bump PTld 20 "non-.com" st3 else st3 in
  let st5 := if re_test benign_re subjectLower
             then bump PSubject (-20) "receipt|order confirmation (-20)" st4 else st4 in
  let '(rawScore, bd) := st5 in
  let probability := Z.min 94 (Z.max 0 rawScore) in
  let result := if Z.ltb 50 probability then Phishing else Safe in
  let fl := mk_flags (phish_sender senderLower) (re_test subject_re subject) (re_test body_re body)
              (existsb (String.eqb senderDomain) OFFICIAL_DOMAINS) in
  let forceSafe12 :=
    isOfficial fl && negb (hasPhishSender fl) && negb (hasPhishSubject fl) && negb (hasPhishBody fl) in
  mk_calc senderDomain rawScore (if forceSafe12 then 12 else probability)
    (if forceSafe12 then Safe else result) bd fl.

(** ** The handler (lines 103-161) *)

(** The threat indicators of lines 118-123. *)
Definition threat_list (c : calc) : list string :=
  ((if Z.ltb 0 (points (bd_sender (c_breakdown c))) then ["Suspicious sender pattern"] else []) ++
  (if Z.ltb 0 (points (bd_subject (c_breakdown c))) then ["High-risk subject keywords"] else []) ++
  (if Z.ltb 0 (points (bd_body (c_breakdown c))) then ["High-risk body keywords"] else []) ++
  (if Z.ltb 0 (points (bd_tld (c_breakdown c))) then ["Non-.com sender domain"] else []) ++
  (if isOfficial (c_flags c) && bool_decide (c_result c = Safe) then ["Official sender domain"] else []))%list.

Record result := mk_result {
  res_sender : string;
  res_subject : string;
  res_verdict : verdict;
  res_confidence : Z;
  res_threatIndicators : list string;
  res_calc : calc;                 (** [analysisDetails.features] *)
  res_method : string
}.

Inductive failure : Type := FieldsRequired | BodyNotJson | TypeErrorThrown.

Inductive response : Type :=
  | Preflight
  | Respond (r : result)
  | Fail (status : Z) (why : failure).

Definition serve (req : EmailHybrid.request) : response :=
  if String.eqb (EmailHybrid.method req) "OPTIONS" then Preflight else
  match EmailHybrid.body req with
  | None => Fail 500 BodyNotJson
  | Some JNull | Some JUndefined => Fail 500 TypeErrorThrown
  | Some b =>
      let sender := get b "sender" in
      let subject := get b "subject" in
      let bodyText := get b "body" in
      if negb (truthy sender && truthy subject && truthy bodyText) then Fail 400 FieldsRequired else
      match sender, subject, bodyText with
      | JStr s, JStr su, JStr t =>
          let c := calcEmailScore s su t in
          Respond (mk_result s su (c_result c) (c_probability c)
                     (slice0 8 (set_dedup (threat_list c))) c "email-heuristic-v2")
      | _, _, _ => Fail 500 TypeErrorThrown    (** [toLowerCase] of a non-string *)
      end
  end.

(** ** Properties *)

(** C23: the probability of the heuristic lies in [0, 94] and the verdict is
    phishing exactly when it exceeds 50; the forced "SAFE 12%" agrees. *)
Theorem heuristic_verdict_iff s su t :
  let c := calcEmailScore s su t in
  (0 <= c_probability c <= 94) /\ (c_result c = Phishing <-> 50 < c_probability c).
Proof.
  cbn zeta. unfold calcEmailScore.
  match goal with |- context [let '(_, _) := ?st in _] => destruct st as [raw bd] end.
  cbn zeta. destruct (_ && _ && _ && _); cbn [c_probability c_result]; [split; [lia|done]|].
  split; [lia|]. destruct (Z.ltb_spec 50 (Z.min 94 (Z.max 0 raw))); split; (done || lia).
Qed.

(** The breakdown after the five blocks, category by category. *)
Lemma calc_breakdown s su t :
  let bd := c_breakdown (calcEmailScore s su t) in
  points (bd_sender bd) = (if phish_sender (lower s) then 40 else 0) /\
  points (bd_subject bd) = (if re_test subject_re su then 30 else 0) +
                           (if re_test benign_re (lower su) then -20 else 0) /\
  points (bd_body bd) = (if re_test body_re t then 25 else 0) /\
  points (bd_tld bd) = (if negb (String.eqb (getDomain s) EmptyString) &&
                           negb (ends_with (getDomain s) ".com") then 20 else 0).
Proof.
  cbn zeta. unfold calcEmailScore.
  destruct (phish_sender _), (re_test subject_re su), (re_test body_re t),
    (_ && _), (re_test benign_re _); cbn; lia.
Qed.

(** The forced branch, when its four conditions hold. *)
Lemma calc_forced s su t :
  existsb (String.eqb (getDomain s)) OFFICIAL_DOMAINS = true -> phish_sender (lower s) = false ->
  re_test subject_re su = false -> re_test body_re t = false ->
  let c := calcEmailScore s su t in
  c_result c = Safe /\ c_probability c = 12 /\ isOfficial (c_flags c) = true.
Proof.
  intros Ho Hs Hsu Ht. cbn zeta. unfold calcEmailScore.
  match goal with |- context [let '(_, _) := ?st in _] => destruct st end.
  cbv zeta. cbn [c_result c_probability c_flags isOfficial hasPhishSender hasPhishSubject hasPhishBody].
  by rewrite Ho, Hs, Hsu, Ht.
Qed.

(** An official sender domain ends with ".com". *)
Lemma official_com d :
  existsb (String.eqb d) OFFICIAL_DOMAINS = true ->
  negb (String.eqb d EmptyString) && negb (ends_with d ".com") = false.
Proof.
  intros (d' & Hd & ->%String.eqb_eq)%existsb_exists.
  destruct Hd as [<-|[<-|[<-|[]]]]; reflexivity.
Qed.

(** A request with three non-empty string fields is answered from
    [calcEmailScore]. *)
Lemma serve_strings m fs s su t :
  String.eqb m "OPTIONS" = false ->
  get (JObj fs) "sender" = JStr s -> get (JObj fs) "subject" = JStr su ->
  get (JObj fs) "body" = JStr t ->
  s <> EmptyString -> su <> EmptyString -> t <> EmptyString ->
  let c := calcEmailScore s su t in
  serve (EmailHybrid.mk_request m (Some (JObj fs))) =
  Respond (mk_result s su (c_result c) (c_probability c)
             (slice0 8 (set_dedup (threat_list c))) c "email-heuristic-v2").
Proof.
  intros Hm Hs Hsu Ht Hs0 Hsu0 Ht0.
  unfold serve. cbn [EmailHybrid.method EmailHybrid.body]. rewrite Hm, Hs, Hsu, Ht.
  apply String.eqb_neq in Hs0, Hsu0, Ht0. cbn [truthy]. by rewrite Hs0, Hsu0, Ht0.
Qed.

(** The unforced score of an official sender whose address has a hyphen,
    "update" or "security", with a subject and body matching no phishing
    pattern: 40 for the sender, 20 less for a receipt. *)
Lemma calc_official_phish_sender s su t :
  existsb (String.eqb (getDomain s)) OFFICIAL_DOMAINS = true -> phish_sender (lower s) = true ->
  re_test subject_re su = false -> re_test body_re t = false ->
  let c := calcEmailScore s su t in
  c_result c = Safe /\ c_probability c = (if re_test benign_re (lower su) then 20 else 40) /\
  isOfficial (c_flags c) = true.
Proof.
  intros Ho Hs Hsu Ht. cbn zeta. unfold calcEmailScore. cbv zeta.
  rewrite Ho, Hs, Hsu, Ht, official_com by done.
  by destruct (re_test benign_re _).
Qed.

(** C24: an official sender ([getDomain] in [OFFICIAL_DOMAINS]) with no
    hyphen, "update" or "security" in the address, and a subject and body
    matching none of the phishing patterns, is answered "safe" with the fixed
    confidence 12 and the single indicator "Official sender domain". *)
Theorem official_benign_safe12 m fs s su t :
  String.eqb m "OPTIONS" = false ->
  get (JObj fs) "sender" = JStr s -> get (JObj fs) "subject" = JStr su ->
  get (JObj fs) "body" = JStr t ->
  s <> EmptyString -> su <> EmptyString -> t <> EmptyString ->
  existsb (String.eqb (getDomain s)) OFFICIAL_DOMAINS = true -> phish_sender (lower s) = false ->
  re_test subject_re su = false -> re_test body_re t = false ->
  exists r, serve (EmailHybrid.mk_request m (Some (JObj fs))) = Respond r /\
    res_verdict r = Safe /\ res_confidence r = 12 /\
    res_threatIndicators r = ["Official sender domain"].
Proof.
  intros Hm Hs Hsu Ht Hs0 Hsu0 Ht0 Ho Hps Hsr Hbr.
  rewrite (serve_strings m fs s su t) by done.
  destruct (calc_forced s su t Ho Hps Hsr Hbr) as (Hr & Hp & Hoff).
  destruct (calc_breakdown s su t) as (Hb1 & Hb2 & Hb3 & Hb4).
  eexists. split; [reflexivity|]. cbn [res_verdict res_confidence res_threatIndicators].
  rewrite Hr, Hp. split_and!; [done|done|].
  unfold threat_list. rewrite Hb1, Hb2, Hb3, Hb4, Hps, Hsr, Hbr, official_com, Hoff, Hr by done.
  by destruct (re_test benign_re _).
Qed.

(** C25: the hard-coded "SAFE 12%" is meant for the official senders of
    receipts such as no-reply@paypal.com (the comment of line 76), but it is
    never given to an official sender whose address contains a hyphen: the
    hyphen triggers the sender rule, and a message whose subject and body
    match no phishing pattern is answered "safe" at 40, or at 20 when the
    subject is a receipt or an order confirmation, with the indicators
    "Suspicious sender pattern" and "Official sender domain". *)
Theorem official_hyphen_sender_not_12 m fs s su t :
  String.eqb m "OPTIONS" = false ->
  get (JObj fs) "sender" = JStr s -> get (JObj fs) "subject" = JStr su ->
  get (JObj fs) "body" = JStr t ->
  s <> EmptyString -> su <> EmptyString -> t <> EmptyString ->
  existsb (String.eqb (getDomain s)) OFFICIAL_DOMAINS = true -> includes (lower s) "-" = true ->
  re_test subject_re su = false -> re_test body_re t = false ->
  exists r, serve (EmailHybrid.mk_request m (Some (JObj fs))) = Respond r /\
    res_verdict r = Safe /\ res_confidence r = (if re_test benign_re (lower su) then 20 else 40) /\
    res_threatIndicators r = ["Suspicious sender pattern"; "Official sender domain"].
Proof.
  intros Hm Hs Hsu Ht Hs0 Hsu0 Ht0 Ho Hh Hsr Hbr.
  assert (Hps : phish_sender (lower s) = true) by (unfold phish_sender; by rewrite Hh).
  rewrite (serve_strings m fs s su t) by done.
  destruct (calc_official_phish_sender s su t Ho Hps Hsr Hbr) as (Hr & Hp & Hoff).
  destruct (calc_breakdown s su t) as (Hb1 & Hb2 & Hb3 & Hb4).
  eexists. split; [reflexivity|]. cbn [res_verdict res_confidence res_threatIndicators].
  rewrite Hr, Hp. split_and!; [done|done|].
  unfold threat_list. rewrite Hb1, Hb2, Hb3, Hb4, Hps, Hsr, Hbr, official_com, Hoff, Hr by done.
  by destruct (re_test benign_re _).
Qed.

(** The two e-mail analysers disagree.  On an ordinary message
    ("Urgent" / "Please click to see your account" from alice@example.com)
    the heuristic answers "phishing" at 55, while the hybrid one, with the
    gateway failing, answers "safe" at 83. *)
Theorem email_analysers_disagree (NF : NumberFormat) (JP : JsonParser) (status : Z) :
  let req := EmailHybrid.email_request "alice@example.com" "Urgent" "Please click to see your account" in
  (exists r, serve req = Respond r /\ res_verdict r = Phishing /\ res_confidence r = 55) /\
  (exists r, EmailHybrid.serve (GW := EmailHybrid.gw_status status) (Some "key") req = EmailHybrid.Respond r /\
     EmailHybrid.res_verdict r = Safe /\ EmailHybrid.res_confidence r = Some 83%Q).
Proof. cbn zeta. split; eexists; split_and!; vm_compute; reflexivity. Qed.

(** ** Witnesses *)

Lemma official_benign_safe12_witness :
  exists r, serve (EmailHybrid.email_request "billing@amazon.com" "Your order has shipped"
                     "Your package is on its way.") = Respond r /\
    res_verdict r = Safe /\ res_confidence r = 12 /\
    res_threatIndicators r = ["Official sender domain"].
Proof.
  apply (official_benign_safe12 "POST" _ "billing@amazon.com" "Your order has shipped"
           "Your package is on its way."); try reflexivity; try discriminate; vm_compute; reflexivity.
Defined.

(** The PayPal receipt of the test case, from no-reply@paypal.com: "safe"
    at 20, not 12. *)
Lemma official_hyphen_sender_not_12_witness :
  exists r, serve (EmailHybrid.email_request EmailHybrid.safe_sender EmailHybrid.safe_subject
                     EmailHybrid.safe_body) = Respond r /\
    res_verdict r = Safe /\ res_confidence r = 20 /\
    res_threatIndicators r = ["Suspicious sender pattern"; "Official sender domain"].
Proof.
  apply (official_hyphen_sender_not_12 "POST" _ EmailHybrid.safe_sender EmailHybrid.safe_subject
           EmailHybrid.safe_body); try reflexivity; try discriminate; vm_compute; reflexivity.
Defined.

End EmailHeuristic.
