(* ===== verification/LogoVision.v ===== *)
(** * The logo analyser, hybrid vision version ([analyze-logo], AI-assisted)

    Models src/unnamed/part_000: the brand table (an object whose key order
    matters, here an association list), [analyzeImageUrl] with its brand loop
    that stops at the first brand found, and the request handler: the vision
    oracle behind [Gateway], its default analysis, the decoding of its reply,
    and the combination of the URL suspicions with the oracle's verdict. *)

From Stdlib Require Import Ascii String QArith ZArith Lia.
From stdpp Require Import base list strings gmap.
From S2P Require Import Prelude Regex Json Verdict UrlAnalyzer.

Local Open Scope list_scope.

Module LogoVision.

(** ** The brand table (lines 8-21) *)

Record signature := mk_signature { colors : list string; keywords : list string }.

(** [knownBrandSignatures], in key order: [Object.keys] lists the keys in
    insertion order, and the loop stops at the first brand found. *)
Definition knownBrandSignatures : list (string * signature) :=
  [("paypal", mk_signature ["#003087"; "#009cde"; "#012169"] ["paypal"; "pay"; "pal"]);
   ("amazon", mk_signature ["#ff9900"; "#232f3e"; "#febd69"] ["amazon"; "prime"]);
   ("apple", mk_signature ["#000000"; "#555555"; "#a3aaae"] ["apple"; "icloud"]);
   ("google", mk_signature ["#4285f4"; "#ea4335"; "#fbbc05"; "#34a853"] ["google"; "gmail"]);
   ("microsoft", mk_signature ["#00a4ef"; "#7fba00"; "#f25022"; "#ffb900"] ["microsoft"; "windows"; "office"]);
   ("facebook", mk_signature ["#1877f2"; "#4267b2"] ["facebook"; "meta"; "fb"]);
   ("netflix", mk_signature ["#e50914"; "#221f1f"] ["netflix"]);
   ("instagram", mk_signature ["#833ab4"; "#fd1d1d"; "#fcb045"] ["instagram"; "insta"]);
   ("twitter", mk_signature ["#1da1f2"; "#14171a"] ["twitter"; "x"]);
   ("linkedin", mk_signature ["#0077b5"; "#0a66c2"] ["linkedin"]);
   ("whatsapp", mk_signature ["#25d366"; "#128c7e"] ["whatsapp"]);
   ("spotify", mk_signature ["#1db954"; "#191414"] ["spotify"])].

(** [officialDomains] (lines 43-51): seven of the twelve brands have an entry. *)
Definition officialDomains : gmap string (list string) :=
  list_to_map
    [("paypal", ["paypal.com"; "paypalobjects.com"]);
     ("amazon", ["amazon.com"; "amazonaw.com"; "media-amazon.com"]);
     ("apple", ["apple.com"; "icloud.com"; "mzstatic.com"]);
     ("google", ["google.com"; "gstatic.com"; "googleapis.com"]);
     ("microsoft", ["microsoft.com"; "microsoftonline.com"; "msftauth.net"]);
     ("facebook", ["facebook.com"; "fbcdn.net"; "fb.com"]);
     ("netflix", ["netflix.com"; "nflximg.net"])].

Definition suspiciousTlds : list string := [".xyz"; ".tk"; ".ml"; ".ga"; ".cf"; ".top"; ".icu"].

(** ** [analyzeImageUrl] (lines 31-80) *)

(** The loop of lines 38-59: the first key contained in the URL, and the
    suspicion it raises when none of its official domains occurs in the URL. *)
Fixpoint brand_loop (urlLower : string) (keys : list string) : list string * option string :=
  match keys with
  | [] => ([], None)
  | brand :: keys' =>
      if includes urlLower brand then
        let official := default [] (officialDomains !! brand) in
        (if negb (existsb (includes urlLower) official)
         then [brand +:+ " logo hosted on unofficial domain"] else [], Some brand)
      else brand_loop urlLower keys'
  end.

Definition analyzeImageUrl (imageUrl : string) : list string * option string :=
  let urlLower := lower imageUrl in
  let '(s0, detectedBrand) := brand_loop urlLower (map fst knownBrandSignatures) in
  let s1 := if re_test UrlAnalyzer.ipv4_re imageUrl then s0 ++ ["Image hosted on IP address"] else s0 in
  let s2 := if includes urlLower "data:image"
            then s1 ++ ["Base64 embedded image (cannot verify source)"] else s1 in
  let s3 := if existsb (includes urlLower) suspiciousTlds
            then s2 ++ ["Image hosted on suspicious TLD"] else s2 in
  let s4 := if includes urlLower "logo" && includes urlLower "fake"
            then s3 ++ ["URL contains suspicious keywords"] else s3 in
  (s4, detectedBrand).

(** ** The handler (lines 82-225) *)

Record request := mk_request { method : string; body : option jvalue }.

(** What the vision oracle is sent: the image source and the URL analysis. *)
Record vision_request := mk_vision_request {
  vq_imageSource : jvalue; vq_suspicions : list string; vq_detectedBrand : option string
}.

Definition brand_value (b : option string) : jvalue :=
  match b with Some s => JStr s | None => JNull end.

Record result := mk_result {
  res_imageUrl : jvalue;
  res_verdict : verdict;
  res_confidence : jvalue;             (** whatever [aiAnalysis.confidence || ...] is *)
  res_detectedBrand : jvalue;
  res_threatIndicators : list jvalue;
  res_suspicions : list string;        (** [analysisDetails.urlAnalysis] *)
  res_urlBrand : option string;
  res_aiAnalysis : jvalue;
  res_isAuthentic : jvalue;
  res_method : string
}.

Inductive failure : Type :=
  | ImageRequired | KeyNotConfigured | BodyNotJson | FetchRejected | ReplyNotJson | TypeErrorThrown.

Inductive response : Type :=
  | Preflight
  | Respond (r : result)
  | Fail (status : Z) (why : failure).

(** The analysis assumed when the oracle gives none (lines 160-166). *)
Definition default_analysis (urlBrand : option string) : jvalue :=
  JObj [("brandDetected", brand_value urlBrand); ("isAuthentic", JBool true);
        ("confidence", JNum 50); ("issues", JArr []); ("reasoning", JStr "Unable to analyze")].

(** Lines 168-181: only a block that parses replaces the default. *)
Definition decode_analysis {JP : JsonParser} (dflt aiContent : jvalue) : jvalue :=
  match aiContent with
  | JStr s =>
      match json_block s with
      | Some blk => default dflt (json_parse blk)
      | None => dflt
      end
  | _ => dflt
  end.

(** [v.length], for the values that reach it. *)
Definition js_length (v : jvalue) : option nat :=
  match v with
  | JArr l => Some (length l)
  | JStr s => Some (String.length s)
  | _ => None
  end.

(** Lines 183-214, from the analysis on. *)
Definition combine (imageUrl : jvalue) (suspicions : list string) (urlBrand : option string)
    (aiAnalysis : jvalue) : response :=
  match prop aiAnalysis "issues" with
  | None => Fail 500 TypeErrorThrown
  | Some issues =>
      match (if truthy issues then spread issues else Some []) with
      | None => Fail 500 TypeErrorThrown
      | Some extra =>
          let allIssues := map JStr suspicions ++ extra in
          let isPhishing :=
            negb (truthy (get aiAnalysis "isAuthentic")) || Nat.leb 2 (length suspicions) ||
            (truthy issues && match js_length issues with Some n => Nat.leb 2 n | None => false end) in
          let confidence := js_or (get aiAnalysis "confidence") (JNum (if isPhishing then 85 else 75)) in
          Respond (mk_result (js_or imageUrl (JStr "base64-image"))
                     (if isPhishing then Phishing else Safe) confidence
                     (js_or (get aiAnalysis "brandDetected") (brand_value urlBrand))
                     (set_dedup_v allIssues) suspicions urlBrand aiAnalysis
                     (get aiAnalysis "isAuthentic") "hybrid-vision-ai")
      end
  end.

Definition serve {JP : JsonParser} {GW : Gateway vision_request}
    (apiKey : option string) (req : request) : response :=
  if String.eqb (method req) "OPTIONS" then Preflight else
  match body req with
  | None => Fail 500 BodyNotJson
  | Some JNull | Some JUndefined => Fail 500 TypeErrorThrown
  | Some b =>
      let imageUrl := get b "imageUrl" in
      let imageSource := js_or imageUrl (get b "base64Image") in
      if negb (truthy imageSource) then Fail 400 ImageRequired else
      match apiKey with
      | None => Fail 500 KeyNotConfigured
      | Some k =>
          if String.eqb k EmptyString then Fail 500 KeyNotConfigured else
          let urlAnalysis :=
            if truthy imageUrl then
              match imageUrl with JStr s => Some (analyzeImageUrl s) | _ => None end
            else Some ([], None) in
          match urlAnalysis with
          | None => Fail 500 TypeErrorThrown          (** [toLowerCase] of a non-string *)
          | Some (suspicions, urlBrand) =>
              let dflt := default_analysis urlBrand in
              match ask (mk_vision_request imageSource suspicions urlBrand) with
              | NetworkError => Fail 500 FetchRejected
              | HttpError _ => combine imageUrl suspicions urlBrand dflt
              | HttpOk None => Fail 500 ReplyNotJson
              | HttpOk (Some aiData) =>
                  match reply_content aiData with
                  | None => Fail 500 TypeErrorThrown
                  | Some aiContent =>
                      combine imageUrl suspicions urlBrand (decode_analysis dflt aiContent)
                  end
              end
          end
      end
  end.

(** ** Example requests and gateways *)

Definition logo_request (fields : list (string * jvalue)) : request :=
  mk_request "POST" (Some (JObj fields)).

Definition gw_status (status : Z) : Gateway vision_request := fun _ => HttpError status.
(** A successful reply without any message content. *)
Definition gw_empty : Gateway vision_request := fun _ => HttpOk (Some (JObj [])).
Definition gw_says (content : string) : Gateway vision_request := fun _ => chat_reply content.

Definition response_result (resp : response) : result :=
  match resp with
  | Respond r => r
  | _ => mk_result JUndefined Unknown JUndefined JUndefined [] [] None JUndefined JUndefined EmptyString
  end.

Definition instagram_logo_url : string := "https://www.instagram.com/static/images/logo.png".
Definition paypal_path_url : string := "https://evil.example/paypal.com/logo.png".

(** The oracle finds the logo authentic with a confidence of 250. *)
Definition demo_content_250 : string :=
  "{" +:+ dq "isAuthentic" +:+ ": true, " +:+ dq "confidence" +:+ ": 250}".

(** ** Properties *)

Lemma brand_loop_some u keys s b :
  brand_loop u keys = (s, Some b) ->
  s = if negb (existsb (includes u) (default [] (officialDomains !! b)))
      then [b +:+ " logo hosted on unofficial domain"] else [].
Proof.
  induction keys as [|k keys IH]; simpl; [discriminate|].
  destruct (includes u k); [|exact IH]. intros H. by injection H as <- <-.
Qed.

(** The suspicions are those of the brand loop followed by fixed messages,
    none of which reads like the unofficial-domain message. *)
Lemma analyzeImageUrl_shape u :
  exists extra,
    (analyzeImageUrl u).1 = ((brand_loop (lower u) (map fst knownBrandSignatures)).1 ++ extra) /\
    (analyzeImageUrl u).2 = (brand_loop (lower u) (map fst knownBrandSignatures)).2 /\
    Forall (fun m => ends_with m " logo hosted on unofficial domain" = false) extra.
Proof.
  unfold analyzeImageUrl. destruct (brand_loop _ _) as [s0 b]. cbn [fst snd].
  exists ((if re_test UrlAnalyzer.ipv4_re u then ["Image hosted on IP address"] else []) ++
          (if includes (lower u) "data:image"
           then ["Base64 embedded image (cannot verify source)"] else []) ++
          (if existsb (includes (lower u)) suspiciousTlds
           then ["Image hosted on suspicious TLD"] else []) ++
          (if includes (lower u) "logo" && includes (lower u) "fake"
           then ["URL contains suspicious keywords"] else [])).
  destruct (re_test _ _), (includes _ "data:image"), (existsb _ _), (_ && _);
    rewrite <- ?app_assoc; cbn [app]; rewrite ?app_nil_r; split_and!; try reflexivity;
    repeat constructor.
Qed.

(** C26: a detected brand without an entry in [officialDomains] (instagram,
    twitter, linkedin, whatsapp, spotify) is always reported as hosted on an
    unofficial domain, even on the brand's own site. *)
Theorem brands_without_official_flagged u b :
  (analyzeImageUrl u).2 = Some b -> officialDomains !! b = None ->
  (b +:+ " logo hosted on unofficial domain") ∈ (analyzeImageUrl u).1.
Proof.
  intros Hb Hnone. destruct (analyzeImageUrl_shape u) as (extra & -> & Hsnd & _).
  rewrite Hsnd in Hb. destruct (brand_loop _ _) as [s0 ob] eqn:E. cbn [snd] in Hb. subst ob.
  apply brand_loop_some in E. rewrite E, Hnone. cbn. by left.
Qed.

(** C27: the official-domain test looks for the domain anywhere in the URL:
    a brand logo whose URL merely contains one of the brand's official
    domains (https://evil.example/paypal.com/logo.png) is not reported as
    hosted on an unofficial domain. *)
Theorem official_domain_anywhere u b ds d :
  (analyzeImageUrl u).2 = Some b -> officialDomains !! b = Some ds -> d ∈ ds ->
  includes (lower u) d = true ->
  (b +:+ " logo hosted on unofficial domain") ∉ (analyzeImageUrl u).1.
Proof.
  intros Hb Hds Hd Hinc. destruct (analyzeImageUrl_shape u) as (extra & -> & Hsnd & Hextra).
  rewrite Hsnd in Hb. destruct (brand_loop _ _) as [s0 ob] eqn:E. cbn [snd] in Hb. subst ob.
  apply brand_loop_some in E. rewrite Hds in E. change (default [] (Some ds)) with ds in E.
  assert (Hex : existsb (includes (lower u)) ds = true).
  { apply existsb_exists. exists d. split; [by apply list_elem_of_In|exact Hinc]. }
  rewrite Hex in E. cbn [fst]. rewrite E. cbn [app negb]. intros Hin.
  rewrite Forall_forall in Hextra. specialize (Hextra _ Hin).
  by rewrite ends_with_app in Hextra.
Qed.

Lemma vision_combine_inv iu sus ub a r :
  combine iu sus ub a = Respond r ->
  res_aiAnalysis r = a /\ res_suspicions r = sus /\
  res_confidence r = js_or (get a "confidence") (JNum (if bool_decide (res_verdict r = Phishing) then 85 else 75)) /\
  exists extra, res_threatIndicators r = set_dedup_v (map JStr sus ++ extra).
Proof.
  unfold combine. intros H.
  destruct (prop a "issues") as [i|] eqn:Ei; [|done]. apply prop_some in Ei as ->.
  destruct (if truthy _ then spread _ else Some []) as [extra|]; [|done].
  injection H as <-. cbn. split_and!; [done|done| |by exists extra].
  by destruct (_ || _ || _).
Qed.

Section Handler.
Context {JP : JsonParser} {GW : Gateway vision_request}.

Lemma vision_serve_inv key req r :
  serve key req = Respond r -> exists iu sus ub a, combine iu sus ub a = Respond r.
Proof. unfold serve. intros H. repeat (case_match; try done); eauto. Qed.

(** C28: a successful gateway reply without message content (the content
    defaults to ["{}"], which [JSON.parse] reads as an empty object) makes
    every image "phishing" with confidence 85: [!aiAnalysis.isAuthentic] is
    true for an analysis without [isAuthentic]. *)
Theorem vision_empty_reply_phishing key m fs u aiData :
  json_parse "{}" = Some (JObj []) ->
  String.eqb m "OPTIONS" = false -> get (JObj fs) "imageUrl" = JStr u ->
  u <> EmptyString -> key <> EmptyString ->
  ask (mk_vision_request (JStr u) (analyzeImageUrl u).1 (analyzeImageUrl u).2) = HttpOk (Some aiData) ->
  reply_content aiData = Some (JStr "{}") ->
  exists r, serve (Some key) (mk_request m (Some (JObj fs))) = Respond r /\
    res_verdict r = Phishing /\ res_confidence r = JNum 85.
Proof.
  intros Hjp Hm Hu Hu0 Hk Hask Hc. unfold serve. cbn [method body]. rewrite Hm, Hu.
  apply String.eqb_neq in Hu0, Hk. unfold js_or. cbn [truthy]. rewrite Hu0, Hk.
  cbn [negb]. destruct (analyzeImageUrl u) as [sus ub] eqn:E. cbn [fst snd] in Hask.
  rewrite Hask, Hc. unfold decode_analysis. change (json_block "{}") with (Some "{}").
  cbv beta iota. rewrite Hjp. cbn [truthy]. rewrite Hu0. cbn [negb].
  eexists. split; [reflexivity|]. done.
Qed.

(** When the gateway answers with an HTTP error the default analysis
    (authentic, confidence 50) is used: the verdict is "phishing" exactly when
    the URL raised two suspicions or more, the confidence is 50, and the
    threat indicators are the URL suspicions. *)
Theorem vision_gateway_down key m fs u status :
  String.eqb m "OPTIONS" = false -> get (JObj fs) "imageUrl" = JStr u ->
  u <> EmptyString -> key <> EmptyString ->
  ask (mk_vision_request (JStr u) (analyzeImageUrl u).1 (analyzeImageUrl u).2) = HttpError status ->
  exists r, serve (Some key) (mk_request m (Some (JObj fs))) = Respond r /\
    res_verdict r = (if Nat.leb 2 (length (analyzeImageUrl u).1) then Phishing else Safe) /\
    res_confidence r = JNum 50 /\
    res_threatIndicators r = set_dedup_v (map JStr (analyzeImageUrl u).1).
Proof.
  intros Hm Hu Hu0 Hk Hask. unfold serve. cbn [method body]. rewrite Hm, Hu.
  apply String.eqb_neq in Hu0, Hk. unfold js_or. cbn [truthy]. rewrite Hu0, Hk.
  cbn [negb]. destruct (analyzeImageUrl u) as [sus ub] eqn:E. cbn [fst snd] in Hask |- *.
  rewrite Hask. cbn [truthy]. rewrite Hu0. cbn [negb].
  eexists. split; [reflexivity|]. cbn. rewrite app_nil_r.
  rewrite orb_false_r. split_and!; reflexivity.
Qed.

(** C29: the reported confidence is not checked: any truthy confidence of
    the oracle (250, a string) is reported as is. *)
Theorem vision_confidence_unchecked key req r :
  serve key req = Respond r -> truthy (get (res_aiAnalysis r) "confidence") = true ->
  res_confidence r = get (res_aiAnalysis r) "confidence".
Proof.
  intros (iu & sus & ub & a & Hc)%vision_serve_inv Ht.
  apply vision_combine_inv in Hc as (Ha & _ & -> & _). rewrite Ha in Ht |- *.
  unfold js_or. by rewrite Ht.
Qed.

(** Whatever the oracle answers, the threat indicators of a 200
    response are distinct. *)
Theorem vision_threats_distinct key req r :
  serve key req = Respond r -> NoDup (strings_of (res_threatIndicators r)).
Proof.
  intros (iu & sus & ub & a & Hc)%vision_serve_inv.
  apply vision_combine_inv in Hc as (_ & _ & _ & extra & ->). apply set_dedup_v_NoDup_strings.
Qed.

End Handler.

(** ** Witnesses *)

Lemma brands_without_official_flagged_witness :
  ("instagram" +:+ " logo hosted on unofficial domain") ∈ (analyzeImageUrl instagram_logo_url).1.
Proof. apply brands_without_official_flagged; vm_compute; reflexivity. Defined.

Lemma official_domain_anywhere_witness :
  ("paypal" +:+ " logo hosted on unofficial domain") ∉ (analyzeImageUrl paypal_path_url).1.
Proof.
  apply (official_domain_anywhere _ _ ["paypal.com"; "paypalobjects.com"] "paypal.com");
    [vm_compute; reflexivity | vm_compute; reflexivity | by left | vm_compute; reflexivity].
Defined.

Lemma vision_empty_reply_phishing_witness :
  exists r, serve (JP := json_parse_std) (GW := gw_empty) (Some "key")
              (logo_request [("imageUrl", JStr instagram_logo_url)]) = Respond r /\
    res_verdict r = Phishing /\ res_confidence r = JNum 85.
Proof.
  apply (vision_empty_reply_phishing (JP := json_parse_std) (GW := gw_empty) "key" "POST" _
           instagram_logo_url (JObj []));
    try reflexivity; discriminate.
Defined.

Lemma vision_gateway_down_witness :
  exists r, serve (JP := json_parse_std) (GW := gw_status 503) (Some "key")
              (logo_request [("imageUrl", JStr "https://suspicious-site.xyz/paypal-logo-modified.png")])
            = Respond r /\
    res_verdict r = (if Nat.leb 2 (length (analyzeImageUrl
                       "https://suspicious-site.xyz/paypal-logo-modified.png").1) then Phishing else Safe) /\
    res_confidence r = JNum 50 /\
    res_threatIndicators r = set_dedup_v (map JStr (analyzeImageUrl
                       "https://suspicious-site.xyz/paypal-logo-modified.png").1).
Proof.
  apply (vision_gateway_down (JP := json_parse_std) (GW := gw_status 503) "key" "POST" _ _ 503);
    try reflexivity; discriminate.
Defined.

Lemma vision_confidence_unchecked_witness :
  res_confidence (response_result (serve (JP := json_parse_std) (GW := gw_says demo_content_250)
                    (Some "key") (logo_request [("imageUrl", JStr instagram_logo_url)])))
  = JNum 250.
Proof.
  rewrite (vision_confidence_unchecked (JP := json_parse_std) (GW := gw_says demo_content_250)
             (Some "key") (logo_request [("imageUrl", JStr instagram_logo_url)]));
    vm_compute; reflexivity.
Defined.

Lemma vision_threats_distinct_witness :
  NoDup (strings_of (res_threatIndicators
    (response_result (serve (JP := json_parse_std) (GW := gw_status 503) (Some "key")
       (logo_request [("imageUrl", JStr "https://suspicious-site.xyz/paypal-logo-modified.png")]))))).
Proof.
  apply (vision_threats_distinct (JP := json_parse_std) (GW := gw_status 503) (Some "key")
           (logo_request [("imageUrl", JStr "https://suspicious-site.xyz/paypal-logo-modified.png")])).
  vm_compute. reflexivity.
Defined.

End LogoVision.
