(* ===== verification/Database.v ===== *)
(** * The database: tables, row-level security and the sign-up trigger

    Models src/unnamed/part_003, the SQL migration: the [profiles],
    [user_roles] and [scans] tables with their CHECK constraints, the
    security-definer functions [has_role] and [is_admin], the row-level
    security policies, and the [handle_new_user] trigger that runs when a user
    signs up.  A database state is a record of tables (lists, newest row
    last); the operations the client performs through the Supabase API are
    functions on it, each taking the caller's [auth.uid()], and [db_step] is
    the relation of all of them.  Invariants are proved by rule induction on
    [reachable]: the roles the trigger gives, the keys, and the column types
    and CHECKs of every scan row ([db_well_typed]). *)

From Stdlib Require Import Ascii String QArith Qround Qabs ZArith Lia Lqa.
From stdpp Require Import base list strings.
From S2P Require Import Prelude Json.

Local Open Scope list_scope.

Module Database.

(** [CREATE TYPE public.app_role AS ENUM ('admin', 'user')] *)
Inductive app_role := Admin | User.

#[export] Instance app_role_eq_dec : EqDecision app_role.
Proof. solve_decision. Defined.

(** A row of [auth.users], as far as the trigger reads it; ids are handed
    out by the database ([gen_random_uuid()], here a counter). *)
Record auth_user := mk_auth_user {
  au_id : nat; au_email : string; au_full_name : option string  (** [raw_user_meta_data->>'full_name'] *)
}.

(** [display_name] is nullable in the table, but the trigger always fills
    it; [created_at] and [last_sign_in_at] default to [now()] (lines 11-13). *)
Record profile := mk_profile {
  p_user_id : nat; p_email : string; p_display_name : string;
  p_created_at : nat; p_last_sign_in_at : option nat
}.

Record role_row := mk_role_row { r_user_id : nat; r_role : app_role }.

Record scan_row := mk_scan_row {
  sc_id : nat;
  sc_user_id : nat;
  sc_url : string;
  sc_result : string;
  sc_confidence : Q;
  sc_threat_indicators : list jvalue;   (** JSONB *)
  sc_blockchain_hash : option string;
  sc_scanned_at : nat
}.

Record db := mk_db {
  users : list auth_user;
  profiles : list profile;
  user_roles : list role_row;
  scans : list scan_row;
  next_id : nat;      (** the next [gen_random_uuid()] *)
  clock : nat         (** [now()] *)
}.

Definition empty_db : db := mk_db [] [] [] [] 1 0.

(** ** Functions (lines 43-73) *)

Definition has_role (d : db) (u : nat) (role : app_role) : bool :=
  existsb (fun r => Nat.eqb (r_user_id r) u && bool_decide (r_role r = role)) (user_roles d).

Definition is_admin (d : db) (u : nat) : bool := has_role d u Admin.

(** ** The sign-up trigger (lines 114-142) *)

(** [split_part(email, '@', 1)] *)
Definition split_part_at (email : string) : string :=
  match js_split "@" email with w :: _ => w | [] => EmptyString end.

Definition handle_new_user (d : db) (u : auth_user) : db :=
  let display := match au_full_name u with Some n => n | None => split_part_at (au_email u) end in
  let role := if String.eqb (au_email u) "admin@phishshield.ai" then Admin else User in
  mk_db (users d) (profiles d ++ [mk_profile (au_id u) (au_email u) display (clock d) (Some (clock d))])
    (user_roles d ++ [mk_role_row (au_id u) role]) (scans d) (next_id d) (clock d).

(** [supabase.auth.signUp]: a new [auth.users] row, refused when the e-mail
    is already registered, then the trigger.  The account exists, and the
    trigger has run, before the address is confirmed. *)
Definition sign_up (d : db) (email : string) (full_name : option string) : option (db * nat) :=
  if existsb (fun u => String.eqb (au_email u) email) (users d) then None else
  let uid := next_id d in
  let u := mk_auth_user uid email full_name in
  let d1 := mk_db (users d ++ [u]) (profiles d) (user_roles d) (scans d) (S uid) (clock d) in
  Some (handle_new_user d1 u, uid).

(** ** The [scans] table (lines 25-36) and its policies (lines 101-112) *)

Definition valid_result (r : string) : bool :=
  existsb (String.eqb r) ["safe"; "phishing"; "suspicious"].

(** [DECIMAL(5,2)]: the value is rounded to two decimals, half away from zero. *)
Definition numeric_5_2 (q : Q) : Q :=
  if Qle_bool 0 q then inject_Z (Qfloor (q * 100 + (1 # 2))) / 100
  else - (inject_Z (Qfloor (- q * 100 + (1 # 2))) / 100).

(** Why an insert is refused. *)
Inductive insert_error :=
  | NumericOverflow | RlsViolation | NotNullViolation | CheckViolation | ForeignKeyViolation.

(** The columns the client sends; [None] for a JSON [null]. *)
Record scan_insert := mk_scan_insert {
  si_user_id : nat; si_url : string; si_result : string; si_confidence : option Q;
  si_threat_indicators : list jvalue; si_blockchain_hash : option string
}.

(** [supabase.from("scans").insert([...])] by the caller [uid], in the order
    PostgreSQL checks it: the conversion to [DECIMAL(5,2)], the policy
    [WITH CHECK (auth.uid() = user_id)] (line 108), the NOT NULL and CHECK
    constraints, the foreign key to [auth.users]. *)
Definition insert_scan (d : db) (uid : option nat) (si : scan_insert) : insert_error + db :=
  let conf := option_map numeric_5_2 (si_confidence si) in
  if (match conf with Some c => Qle_bool 1000 (Qabs c) | None => false end) then inl NumericOverflow
  else if negb (bool_decide (uid = Some (si_user_id si))) then inl RlsViolation
  else match conf with
  | None => inl NotNullViolation
  | Some c =>
      if negb (valid_result (si_result si) && Qle_bool 0 c && Qle_bool c 100) then inl CheckViolation
      else if negb (existsb (fun u => Nat.eqb (au_id u) (si_user_id si)) (users d))
      then inl ForeignKeyViolation
      else
        let row := mk_scan_row (next_id d) (si_user_id si) (si_url si) (si_result si) c
                     (si_threat_indicators si) (si_blockchain_hash si) (clock d) in
        inr (mk_db (users d) (profiles d) (user_roles d) (scans d ++ [row])
               (S (next_id d)) (S (clock d)))
  end.

(** The rows a [SELECT] of [uid] sees: its own (line 104) and, for an admin,
    all (line 112). *)
Definition scan_visible (d : db) (uid : option nat) (r : scan_row) : bool :=
  match uid with
  | Some u => Nat.eqb u (sc_user_id r) || is_admin d u
  | None => false
  end.

Definition select_scans (d : db) (uid : option nat) : list scan_row :=
  filter (fun r => scan_visible d uid r = true) (scans d).

(** The [FOR DELETE] policies of [scans]: the migration declares none, so
    row-level security lets a [DELETE] see no row. *)
Definition scan_deletable (d : db) (uid : option nat) (r : scan_row) : bool := false.

(** [DELETE FROM scans WHERE p]: the rows matched and visible to the
    statement are removed; the others stay, and no error is reported. *)
Definition delete_scans (d : db) (uid : option nat) (p : scan_row -> bool) : db :=
  mk_db (users d) (profiles d) (user_roles d)
    (filter (fun r => negb (p r && scan_deletable d uid r) = true) (scans d)) (next_id d) (clock d).

(** [SELECT] on [profiles]: one's own (line 78) and, for an admin, all (line 90). *)
Definition select_profiles (d : db) (uid : option nat) : list profile :=
  filter (fun p => match uid with
                   | Some u => Nat.eqb u (p_user_id p) || is_admin d u
                   | None => false
                   end = true) (profiles d).

(** [SELECT] on [user_roles]: one's own (line 95) and, for an admin, all (line 99). *)
Definition select_roles (d : db) (uid : option nat) : list role_row :=
  filter (fun r => match uid with
                   | Some u => Nat.eqb u (r_user_id r) || is_admin d u
                   | None => false
                   end = true) (user_roles d).

(** ** Every operation of the API on the tables *)

Inductive db_step : db -> db -> Prop :=
  | step_sign_up d email name d' uid :
      sign_up d email name = Some (d', uid) -> db_step d d'
  | step_insert d uid si d' :
      insert_scan d uid si = inr d' -> db_step d d'
  | step_delete d uid p : db_step d (delete_scans d uid p).

Inductive reachable : db -> Prop :=
  | reach_init : reachable empty_db
  | reach_step d d' : reachable d -> db_step d d' -> reachable d'.

(** ** Invariants of the reachable states *)

Definition role_of (u : auth_user) : role_row :=
  mk_role_row (au_id u) (if String.eqb (au_email u) "admin@phishshield.ai" then Admin else User).

(** Every user has the one role the trigger gave it. *)
Definition roles_inv (d : db) : Prop := user_roles d = map role_of (users d).

(** Every scan row satisfies the CHECK constraints and belongs to a user. *)
Definition scans_inv (d : db) : Prop :=
  Forall (fun r => valid_result (sc_result r) = true /\ (0 <= sc_confidence r <= 100)%Q /\
                   exists u, u ∈ users d /\ au_id u = sc_user_id r) (scans d).

(** A value of [DECIMAL(5,2)]: at most two decimals, fewer than five digits. *)
Definition decimal_5_2 (q : Q) : Prop := exists m : Z, q == inject_Z m / 100 /\ (Z.abs m < 100000)%Z.

(** The keys of the migration: [auth.users.id] and [scans.id] are primary
    keys drawn from the counter, and [profiles.user_id] is [UNIQUE]: one
    profile per user, in the order of sign-up. *)
Definition keys_inv (d : db) : Prop :=
  NoDup (map au_id (users d)) /\ Forall (fun u => au_id u < next_id d)%nat (users d) /\
  NoDup (map sc_id (scans d)) /\ Forall (fun r => sc_id r < next_id d)%nat (scans d) /\
  map p_user_id (profiles d) = map au_id (users d).

(** Every state of the tables is a value of the migration's schema: one
    role and one profile per user, distinct keys, and every scan row
    within the column types ([DECIMAL(5,2)]) and constraints. *)
Definition db_well_typed (d : db) : Prop :=
  roles_inv d /\ keys_inv d /\ scans_inv d /\ Forall (fun r => decimal_5_2 (sc_confidence r)) (scans d).

Lemma sign_up_shape d email name d' uid :
  sign_up d email name = Some (d', uid) ->
  users d' = users d ++ [mk_auth_user uid email name] /\
  user_roles d' = user_roles d ++ [role_of (mk_auth_user uid email name)] /\ scans d' = scans d.
Proof.
  unfold sign_up. destruct (existsb _ _); [done|]. intros [= <- <-]. done.
Qed.

Lemma insert_scan_shape d uid si d' :
  insert_scan d uid si = inr d' ->
  users d' = users d /\ user_roles d' = user_roles d /\
  exists c, scans d' = scans d ++ [mk_scan_row (next_id d) (si_user_id si) (si_url si) (si_result si) c
                                     (si_threat_indicators si) (si_blockchain_hash si) (clock d)] /\
    valid_result (si_result si) = true /\ (0 <= c <= 100)%Q /\
    exists u, u ∈ users d /\ au_id u = si_user_id si.
Proof.
  unfold insert_scan. destruct (match _ with Some c => _ | None => _ end); [done|].
  destruct (negb _); [done|]. destruct (option_map _ _) as [c|]; [|done].
  destruct (valid_result _) eqn:Hv, (Qle_bool 0 c) eqn:H0, (Qle_bool c 100) eqn:H1; try done.
  destruct (existsb _ _) eqn:Hu; [|done]. intros [= <-]. cbn. split_and!; [done|done|].
  exists c. apply Qle_bool_iff in H0, H1. split_and!; [done|done|done|done|].
  apply existsb_exists in Hu as (u & Hin & Hid%Nat.eqb_eq). exists u.
  split; [by apply list_elem_of_In|exact Hid].
Qed.

Lemma roles_inv_step d d' : db_step d d' -> roles_inv d -> roles_inv d'.
Proof.
  unfold roles_inv. intros [? ? ? ? ? (-> & -> & _)%sign_up_shape
                         |? ? ? ? (-> & -> & _)%insert_scan_shape|? ? ?]; intros H; [|done|done].
  rewrite H, map_app. done.
Qed.

Lemma scans_inv_step d d' : db_step d d' -> scans_inv d -> scans_inv d'.
Proof.
  unfold scans_inv. intros [? ? ? ? ? (Hu & _ & ->)%sign_up_shape
                         |? ? ? ? (Hu & _ & c & -> & Hv & Hc & u & Hin & Hid)%insert_scan_shape
                         |? ? ?]; intros H.
  - eapply Forall_impl; [exact H|]. intros r (? & ? & u & ? & ?). rewrite Hu.
    split; [done|split; [done|]]. exists u. split; [apply elem_of_app; by left|done].
  - rewrite Hu. apply Forall_app. split; [done|]. apply Forall_singleton. cbn.
    split; [exact Hv|split; [exact Hc|eauto]].
  - cbn. rewrite Forall_forall in H |- *. intros r Hr.
    apply list_elem_of_filter in Hr as [_ Hr]. by apply H.
Qed.

Lemma reachable_inv d : reachable d -> roles_inv d /\ scans_inv d.
Proof.
  induction 1 as [|d d' _ [IH1 IH2] Hs]; [split; [reflexivity|constructor]|].
  split; [by eapply roles_inv_step|by eapply scans_inv_step].
Qed.

Lemma decimal_bound (m : Z) : (Qabs (inject_Z m / 100) < 1000)%Q -> (Z.abs m < 100000)%Z.
Proof.
  intros H. apply Qabs_Qlt_condition in H as [H1 H2].
  unfold Qdiv in H1, H2. change (/ 100)%Q with (1 # 100)%Q in H1, H2.
  assert (A : (inject_Z (-100000) < inject_Z m)%Q) by (change (inject_Z (-100000)) with (-100000)%Q; lra).
  assert (B : (inject_Z m < inject_Z 100000)%Q) by (change (inject_Z 100000) with 100000%Q; lra).
  rewrite <- Zlt_Qlt in A, B. lia.
Qed.

Lemma numeric_5_2_decimal q : (Qabs (numeric_5_2 q) < 1000)%Q -> decimal_5_2 (numeric_5_2 q).
Proof.
  unfold numeric_5_2. destruct (Qle_bool 0 q).
  - intros H. eexists. split; [reflexivity|]. by apply decimal_bound.
  - set (k := Qfloor _). intros H. exists (- k)%Z.
    assert (E : (- (inject_Z k / 100) == inject_Z (- k) / 100)%Q) by (unfold Qdiv; rewrite inject_Z_opp; ring).
    split; [exact E|]. apply decimal_bound. by rewrite <- E.
Qed.

Lemma sign_up_keys d email name d' uid :
  sign_up d email name = Some (d', uid) ->
  uid = next_id d /\ next_id d' = S (next_id d) /\
  map p_user_id (profiles d') = map p_user_id (profiles d) ++ [uid].
Proof. unfold sign_up. destruct (existsb _ _); [done|]. intros [= <- <-]. cbn. by rewrite map_app. Qed.

Lemma insert_scan_keys d uid si d' :
  insert_scan d uid si = inr d' ->
  next_id d' = S (next_id d) /\ profiles d' = profiles d /\
  exists q, (Qabs (numeric_5_2 q) < 1000)%Q /\
    scans d' = scans d ++ [mk_scan_row (next_id d) (si_user_id si) (si_url si) (si_result si)
                             (numeric_5_2 q) (si_threat_indicators si) (si_blockchain_hash si) (clock d)].
Proof.
  unfold insert_scan. destruct (si_confidence si) as [q|]; cbn [option_map];
    [|destruct (negb _); done].
  destruct (Qle_bool 1000 (Qabs (numeric_5_2 q))) eqn:Ho; [done|].
  repeat (case_match; try done). intros [= <-]. cbn. split_and!; [done|done|].
  exists q. split; [|done]. apply Qnot_le_lt. intros Hle. apply Qle_bool_iff in Hle. congruence.
Qed.

Lemma keys_inv_step d d' : db_step d d' -> keys_inv d -> keys_inv d'.
Proof.
  unfold keys_inv.
  intros [? ? ? ? ? Hs|? ? ? ? Hs|? ? ?]; intros (Hu & Hlt & Hs1 & Hlt2 & Hp).
  - destruct (sign_up_shape _ _ _ _ _ Hs) as (-> & _ & ->).
    destruct (sign_up_keys _ _ _ _ _ Hs) as (-> & -> & ->). rewrite map_app. cbn.
    split_and!.
    + apply NoDup_app. split_and!; [done| |by apply NoDup_singleton].
      intros x Hx ->%list_elem_of_singleton. apply list_elem_of_fmap in Hx as (u & Hid & Hin).
      rewrite Forall_forall in Hlt. specialize (Hlt u Hin). lia.
    + apply Forall_app. split; [|apply Forall_singleton; cbn; lia].
      eapply Forall_impl; [exact Hlt|]. cbn. lia.
    + done.
    + eapply Forall_impl; [exact Hlt2|]. cbn. lia.
    + by rewrite Hp.
  - destruct (insert_scan_shape _ _ _ _ Hs) as (-> & _ & _).
    destruct (insert_scan_keys _ _ _ _ Hs) as (-> & -> & q & _ & ->). rewrite map_app. cbn.
    split_and!.
    + done.
    + eapply Forall_impl; [exact Hlt|]. cbn. lia.
    + apply NoDup_app. split_and!; [done| |by apply NoDup_singleton].
      intros x Hx ->%list_elem_of_singleton. apply list_elem_of_fmap in Hx as (r & Hid & Hin).
      rewrite Forall_forall in Hlt2. specialize (Hlt2 r Hin). lia.
    + apply Forall_app. split; [|apply Forall_singleton; cbn; lia].
      eapply Forall_impl; [exact Hlt2|]. cbn. lia.
    + done.
  - cbn. split_and!; [done|done| | |done].
    + eapply sublist_NoDup; [exact Hs1|]. apply sublist_map, sublist_filter.
    + rewrite Forall_forall in Hlt2 |- *. intros r Hr.
      apply list_elem_of_filter in Hr as [_ Hr]. by apply Hlt2.
Qed.

Lemma decimals_inv_step d d' :
  db_step d d' -> Forall (fun r => decimal_5_2 (sc_confidence r)) (scans d) ->
  Forall (fun r => decimal_5_2 (sc_confidence r)) (scans d').
Proof.
  intros [? ? ? ? ? (_ & _ & ->)%sign_up_shape|? ? ? ? (_ & _ & q & Hq & ->)%insert_scan_keys|? ? ?] H.
  - done.
  - apply Forall_app. split; [done|]. apply Forall_singleton. by apply numeric_5_2_decimal.
  - cbn. rewrite Forall_forall in H |- *. intros r Hr. apply list_elem_of_filter in Hr as [_ Hr]. by apply H.
Qed.


Lemma reachable_keys d :
  reachable d -> keys_inv d /\ Forall (fun r => decimal_5_2 (sc_confidence r)) (scans d).
Proof.
  induction 1 as [|d d' _ [IH1 IH2] Hs]; [split; [repeat split; constructor|constructor]|].
  split; [by eapply keys_inv_step|by eapply decimals_inv_step].
Qed.

(** C31: every reachable state of the tables is a value of the migration's
    schema: each user has exactly one role row and one profile, in the
    order of sign-up; user and scan ids are distinct; every scan row has a
    result among safe, phishing and suspicious, a confidence in [0, 100]
    with at most two decimals ([DECIMAL(5,2)]), and a user that exists. *)
Theorem reachable_well_typed d : reachable d -> db_well_typed d.
Proof.
  intros Hr. destruct (reachable_inv d Hr), (reachable_keys d Hr). by split_and!.
Qed.

(** C30: in every reachable state, a user is an administrator exactly when
    the e-mail it signed up with is admin@phishshield.ai.  The role is given
    by the sign-up trigger, before the address is confirmed: whoever first
    registers that address becomes an administrator. *)
Theorem admin_iff_admin_email d u :
  reachable d ->
  is_admin d u = true <->
  exists au, au ∈ users d /\ au_id au = u /\ au_email au = "admin@phishshield.ai".
Proof.
  intros [Hroles _]%reachable_inv. unfold is_admin, has_role. rewrite Hroles.
  rewrite existsb_exists. split.
  - intros (r & (au & <- & Hin)%in_map_iff & Hr). apply andb_true_iff in Hr as [Hid Hadm].
    apply Nat.eqb_eq in Hid. apply bool_decide_eq_true in Hadm. exists au.
    split; [by apply list_elem_of_In|]. split; [exact Hid|].
    unfold role_of in Hadm. cbn in Hadm. by destruct (String.eqb_spec (au_email au) "admin@phishshield.ai").
  - intros (au & Hin & Hid & Hem). exists (role_of au). split.
    + apply in_map. by apply list_elem_of_In.
    + unfold role_of. cbn. rewrite Hem, Hid, Nat.eqb_refl. reflexivity.
Qed.

(** ** Examples *)

(** The state after the first sign-up, with the administrator's address. *)
Definition admin_db : db :=
  match sign_up empty_db "admin@phishshield.ai" None with Some (d, _) => d | None => empty_db end.

Lemma admin_iff_admin_email_witness : is_admin admin_db 1 = true.
Proof.
  apply (proj2 (admin_iff_admin_email admin_db 1
    ltac:(eapply reach_step; [constructor|]; eapply step_sign_up; reflexivity))).
  exists (mk_auth_user 1 "admin@phishshield.ai" None). split; [by left|done].
Defined.

(** The administrator scans a URL; the confidence 92.345 is stored as 92.35. *)
Definition admin_scan_db : db :=
  match insert_scan admin_db (Some 1)
          (mk_scan_insert 1 "http://192.168.1.5/login" "phishing" (Some (92345 # 1000)) [] None) with
  | inr d => d | inl _ => admin_db end.

Lemma admin_scan_db_reachable : reachable admin_scan_db.
Proof.
  apply (reach_step admin_db).
  - eapply reach_step; [constructor|]. eapply step_sign_up. reflexivity.
  - eapply (step_insert _ (Some 1)
      (mk_scan_insert 1 "http://192.168.1.5/login" "phishing" (Some (92345 # 1000)) [] None)).
    vm_compute. reflexivity.
Qed.

Lemma reachable_well_typed_witness :
  db_well_typed admin_scan_db /\ map sc_confidence (scans admin_scan_db) = [9235 # 100].
Proof.
  split; [|vm_compute; reflexivity].
  apply (reachable_well_typed admin_scan_db admin_scan_db_reachable).
Defined.

End Database.
