(* ===== verification/ScanClient.v ===== *)
(** * The client's scan store and dashboard

    Models the [useScans] hook of src/unnamed/part_008 (lines 474-623): the
    scan list, the loading flag and the current result as explicit state;
    [fetchScans] as a [SELECT] under the caller's row-level security
    ([Database]); [analyzeUrl] as a call of the [analyze-url] handler
    ([UrlHandler.serve]) followed by the [INSERT] of its result and a fetch;
    [deleteScan] as a [DELETE] followed by the local removal of the row.
    From src/unnamed/part_009 (lines 53-86): the statistics of the dashboard
    and [exportToCSV], with an RFC 4180 reader to state the round trip.  A
    toast is recorded by its kind only (the emoji of the messages are not
    modelled). *)

From Stdlib Require Import Ascii String QArith Qabs ZArith Lia Lqa.
From stdpp Require Import base list strings sorting.
From S2P Require Import Prelude Json Verdict UrlAnalyzer UrlHandler Database.

Local Open Scope list_scope.

Module ScanClient.
Import Database.

Inductive toast := ToastError | ToastWarning | ToastSuccess | ToastInfo.

Record hook_state := mk_hook {
  hs_scans : list scan_row;
  hs_isLoading : bool;
  hs_currentResult : option UrlHandler.result;
  hs_toasts : list toast
}.

Definition initial_hook : hook_state := mk_hook [] false None [].

Definition set_scans (l : list scan_row) (hs : hook_state) : hook_state :=
  mk_hook l (hs_isLoading hs) (hs_currentResult hs) (hs_toasts hs).
Definition set_loading (b : bool) (hs : hook_state) : hook_state :=
  mk_hook (hs_scans hs) b (hs_currentResult hs) (hs_toasts hs).
Definition set_current (r : option UrlHandler.result) (hs : hook_state) : hook_state :=
  mk_hook (hs_scans hs) (hs_isLoading hs) r (hs_toasts hs).
Definition push_toast (t : toast) (hs : hook_state) : hook_state :=
  mk_hook (hs_scans hs) (hs_isLoading hs) (hs_currentResult hs) (hs_toasts hs ++ [t]).

(** [a] comes no later than [b] in [ORDER BY scanned_at DESC]. *)
Definition newer (a b : scan_row) : Prop := (sc_scanned_at b <= sc_scanned_at a)%nat.

#[export] Instance newer_dec : RelDecision newer.
Proof. intros a b. unfold newer. apply _. Defined.

(** [.order("scanned_at", { ascending: false })]: a stable sort, newest first. *)
Definition newest_first (rows : list scan_row) : list scan_row := merge_sort newer rows.

(** [fetchScans] (lines 486-507):
    [select("*").eq("user_id", userId).order(...).limit(50)]. *)
Definition fetchScans (d : db) (userId : option nat) (hs : hook_state) : hook_state :=
  match userId with
  | None => hs
  | Some u =>
      set_scans (take 50 (newest_first
                   (filter (fun r => Nat.eqb (sc_user_id r) u = true) (select_scans d (Some u))))) hs
  end.

(** The toast that reports a result (lines 578-590). *)
Definition result_toast (v : verdict) : toast :=
  match v with Phishing => ToastError | Suspicious => ToastWarning | _ => ToastSuccess end.

(** [analyzeUrl] (lines 530-597).  The request goes to the [analyze-url]
    handler; a non-2xx answer is thrown and toasted.  A successful result is
    shown, then inserted (an insert error is only logged), then the list is
    fetched again.  [hash] is the result's [blockchainHash]. *)
Definition analyzeUrl {JP : JsonParser} {GW : Gateway UrlHandler.oracle_request}
    (apiKey : option string) (hash : option string)
    (d : db) (userId : option nat) (url : string) (hs : hook_state) : db * hook_state :=
  match userId with
  | None => (d, push_toast ToastError hs)
  | Some u =>
      let hs1 := set_current None (set_loading true hs) in
      match UrlHandler.serve apiKey (UrlHandler.mk_request "POST" (Some (JObj [("url", JStr url)]))) with
      | UrlHandler.Respond r =>
          let hs2 := set_current (Some r) hs1 in
          let si := mk_scan_insert u (UrlHandler.res_url r) (verdict_string (UrlHandler.res_verdict r))
                      (UrlHandler.res_confidence r) (UrlHandler.res_threatIndicators r) hash in
          let d' := match insert_scan d (Some u) si with inr d' => d' | inl _ => d end in
          let hs3 := fetchScans d' (Some u) hs2 in
          (d', set_loading false (push_toast (result_toast (UrlHandler.res_verdict r)) hs3))
      | _ => (d, set_loading false (push_toast ToastError hs1))
      end
  end.

(** [deleteScan] (lines 599-613): [delete().eq("id", id).eq("user_id", userId)];
    without an error the row is removed from the local list.  Without a user
    the filter [user_id = undefined] is not a uuid and the request fails. *)
Definition deleteScan (d : db) (userId : option nat) (id : nat) (hs : hook_state) : db * hook_state :=
  match userId with
  | None => (d, push_toast ToastError hs)
  | Some u =>
      let d' := delete_scans d userId (fun r => Nat.eqb (sc_id r) id && Nat.eqb (sc_user_id r) u) in
      (d', push_toast ToastSuccess (set_scans (filter (fun s => negb (Nat.eqb (sc_id s) id) = true)
                                                 (hs_scans hs)) hs))
  end.

(** ** The dashboard (part_009, lines 53-86) *)

Definition count_result (res : string) (scans : list scan_row) : nat :=
  length (filter (fun s => String.eqb (sc_result s) res = true) scans).

Record stats := mk_stats { totalScans : nat; phishingCount : nat; safeCount : nat; suspiciousCount : nat }.

Definition dashboard_stats (scans : list scan_row) : stats :=
  mk_stats (length scans) (count_result "phishing" scans) (count_result "safe" scans)
    (count_result "suspicious" scans).

(** [exportToCSV] (lines 53-80): each cell in double quotes, cells joined by
    commas, rows by newlines; a quote inside a cell is not escaped.  The
    timestamp is rendered by [iso] ([toISOString], not modelled). *)
Definition nl : ascii := "010"%char.

Definition csv_cell (cell : string) : string := String quote (cell +:+ String quote EmptyString).
Definition csv_line (cells : list string) : string := join "," (map csv_cell cells).
Definition csv_text (rows : list (list string)) : string := join (String nl EmptyString) (map csv_line rows).

Definition csv_headers : list string := ["URL"; "Result"; "Confidence"; "Scanned At"].

Definition exportToCSV {NF : NumberFormat} (iso : nat -> string) (scans : list scan_row) : option string :=
  match scans with
  | [] => None                                     (** [toast.info("No scans to export")] *)
  | _ => Some (csv_text (csv_headers ::
              map (fun s => [sc_url s; sc_result s; number_to_string (sc_confidence s) +:+ "%";
                             iso (sc_scanned_at s)]) scans))
  end.

(** ** A reader of the exported file (RFC 4180), to state the round trip *)

(** The rest of a quoted cell, after its opening quote: a doubled quote
    stands for one quote, a single quote closes the cell. *)
Fixpoint read_quoted (l : list ascii) (acc : list ascii) : option (list ascii * list ascii) :=
  match l with
  | [] => None
  | c :: l' =>
      if Ascii.eqb c quote then
        match l' with
        | c2 :: l'' => if Ascii.eqb c2 quote then read_quoted l'' (acc ++ [quote]) else Some (acc, l')
        | [] => Some (acc, [])
        end
      else read_quoted l' (acc ++ [c])
  end.

Definition is_cell_end (c : ascii) : bool := Ascii.eqb c "," || Ascii.eqb c nl.

Definition read_cell (l : list ascii) : option (string * list ascii) :=
  match l with
  | c :: l' =>
      if Ascii.eqb c quote then
        (fun '(v, rest) => (string_of_list_ascii v, rest)) <$> read_quoted l' []
      else Some (string_of_list_ascii (take_while (fun c => negb (is_cell_end c)) l),
                 drop_while (fun c => negb (is_cell_end c)) l)
  | [] => Some (EmptyString, [])
  end.

(** A record: its cells, and what follows its newline ([None] at the end). *)
Fixpoint read_row (fuel : nat) (l : list ascii) : option (list string * option (list ascii)) :=
  match fuel with
  | O => None
  | S f =>
      match read_cell l with
      | None => None
      | Some (c, rest) =>
          match rest with
          | [] => Some ([c], None)
          | d :: rest' =>
              if Ascii.eqb d "," then (fun '(cs, more) => (c :: cs, more)) <$> read_row f rest'
              else if Ascii.eqb d nl then Some ([c], Some rest')
              else None
          end
      end
  end.

Fixpoint read_rows (fuel : nat) (l : list ascii) : option (list (list string)) :=
  match fuel with
  | O => None
  | S f =>
      match read_row (S (length l)) l with
      | Some (cells, None) => Some [cells]
      | Some (cells, Some rest) => cons cells <$> read_rows f rest
      | None => None
      end
  end.

Definition csv_parse (s : string) : option (list (list string)) :=
  let l := list_ascii_of_string s in read_rows (S (length l)) l.

(** ** Concrete states *)

Definition user_db : db :=
  match sign_up empty_db "alice@example.com" None with Some (d, _) => d | None => empty_db end.

(** A row the dashboard saves: a phishing result at 92 percent. *)
Definition scan_db : db :=
  match insert_scan user_db (Some 1)
          (mk_scan_insert 1 "http://192.168.1.5/login" "phishing" (Some 92%Q) [] None) with
  | inr d => d | inl _ => user_db end.

Definition csv_demo_rows : list (list string) :=
  [csv_headers; ["https://login.example/verify?a=1,2"; "phishing"; "92%"; "2026-11-09T10:00:00.000Z"]].

(** ** Properties *)

(** [DELETE] under the migration's policies leaves the table as it is. *)
Lemma delete_scans_noop d uid p : delete_scans d uid p = d.
Proof.
  destruct d as [us ps rs ss n c]. unfold delete_scans, scan_deletable. cbn.
  rewrite filter_all; [done|]. intros r. by rewrite andb_false_r.
Qed.

(** C32: [deleteScan] removes the row from the list on screen and reports
    success, but the row stays in the database (no DELETE policy): the next
    fetch, on any realtime event or refresh, shows the list as it was. *)
Theorem delete_scan_reappears d u id hs :
  let hs0 := fetchScans d (Some u) hs in
  let res := deleteScan d (Some u) id hs0 in
  res.1 = d /\ Forall (fun s => sc_id s <> id) (hs_scans res.2) /\
  last (hs_toasts res.2) = Some ToastSuccess /\
  hs_scans (fetchScans res.1 (Some u) res.2) = hs_scans hs0.
Proof.
  cbn zeta. unfold deleteScan. rewrite delete_scans_noop. cbn [fst snd]. split_and!.
  - done.
  - apply Forall_forall. intros s Hs. cbn in Hs. apply list_elem_of_filter in Hs as [Hs _].
    by apply negb_true_iff, Nat.eqb_neq in Hs.
  - cbn. apply last_snoc.
  - done.
Qed.

(** Every row the hook shows is a row of the table. *)
Lemma fetchScans_sub d u hs r :
  r ∈ hs_scans (fetchScans d (Some u) hs) -> r ∈ scans d.
Proof.
  cbn. set (l := newest_first _). intros Hin0.
  assert (Hin : r ∈ l) by (rewrite <- (take_drop 50 l); apply elem_of_app; by left).
  unfold l, newest_first in Hin. rewrite (merge_sort_Permutation newer) in Hin.
  apply list_elem_of_filter in Hin as [_ Hin]. apply list_elem_of_filter in Hin as [_ Hin]. exact Hin.
Qed.

Lemma count_partition (l : list scan_row) :
  Forall (fun s => valid_result (sc_result s) = true) l ->
  length l = (count_result "phishing" l + count_result "safe" l + count_result "suspicious" l)%nat.
Proof.
  unfold count_result. induction 1 as [|s l Hs _ IH]; [done|].
  assert (E : sc_result s = "phishing" \/ sc_result s = "safe" \/ sc_result s = "suspicious").
  { unfold valid_result in Hs. cbn [existsb] in Hs.
    destruct (String.eqb_spec (sc_result s) "safe"); [auto|].
    destruct (String.eqb_spec (sc_result s) "phishing"); [auto|].
    destruct (String.eqb_spec (sc_result s) "suspicious"); [auto|done]. }
  rewrite !filter_cons. destruct E as [E|[E|E]]; rewrite E; cbn;
    repeat case_decide; try discriminate; cbn [length]; lia.
Qed.

(** On a reachable database, the dashboard's counters partition the
    scans it shows: total = phishing + safe + suspicious, because the CHECK
    constraint of [scans.result] admits no other value (a logo result
    "unknown" could not be stored). *)
Theorem dashboard_counts_partition d u hs :
  reachable d ->
  let st := dashboard_stats (hs_scans (fetchScans d (Some u) hs)) in
  totalScans st = (phishingCount st + safeCount st + suspiciousCount st)%nat.
Proof.
  intros [_ Hscans]%reachable_inv. cbn zeta. apply count_partition.
  apply Forall_forall. intros r Hr%fetchScans_sub. unfold scans_inv in Hscans.
  rewrite Forall_forall in Hscans. by destruct (Hscans r Hr).
Qed.

Lemma verdict_string_valid v : v <> Unknown -> valid_result (verdict_string v) = true.
Proof. by destruct v. Qed.

Lemma no_new_row (l : list scan_row) : ~ exists row, l = l ++ [row].
Proof. intros [row H]. apply (f_equal length) in H. rewrite length_app in H. cbn in H. lia. Qed.

Section Analyze.
Context {JP : JsonParser} {GW : Gateway UrlHandler.oracle_request}.

(** C33: a URL analysed from the dashboard by a signed-up user is stored in
    the history exactly when the confidence of the handler's answer, rounded
    to [DECIMAL(5,2)], lies in [0, 100]; otherwise the insert fails, the
    error is only logged, and the result shown is never saved (a confidence
    of 102 from the URL handler is lost this way). *)
Theorem analyzeUrl_stores_iff apiKey hash d u url hs r :
  (exists au, au ∈ users d /\ au_id au = u) ->
  UrlHandler.serve apiKey (UrlHandler.mk_request "POST" (Some (JObj [("url", JStr url)])))
    = UrlHandler.Respond r ->
  let d' := (analyzeUrl apiKey hash d (Some u) url hs).1 in
  (exists row, scans d' = scans d ++ [row]) <->
  (exists c, UrlHandler.res_confidence r = Some c /\ (0 <= numeric_5_2 c <= 100)%Q).
Proof.
  intros (au & Hau & Hid) Hserve. cbn zeta. unfold analyzeUrl. rewrite Hserve. cbn [fst].
  pose proof (verdict_string_valid _ (UrlHandler.serve_verdict_known _ _ _ Hserve)) as Hv.
  assert (Hfk : existsb (fun v => Nat.eqb (au_id v) u) (users d) = true).
  { apply existsb_exists. exists au. split; [by apply list_elem_of_In|by apply Nat.eqb_eq]. }
  unfold insert_scan. cbn [si_confidence si_user_id si_result].
  rewrite bool_decide_eq_true_2 by done. cbn [negb].
  destruct (UrlHandler.res_confidence r) as [c|]; cbn [option_map];
    [|split; [intros H; by apply no_new_row in H|intros (? & ? & _); discriminate]].
  rewrite Hv, Hfk.
  destruct (Qle_bool 1000 (Qabs (numeric_5_2 c))) eqn:Ho.
  - split; [intros H; by apply no_new_row in H|]. intros (c' & [= <-] & H0 & H100).
    apply Qle_bool_iff in Ho. rewrite Qabs_pos in Ho by exact H0. lra.
  - destruct (Qle_bool 0 (numeric_5_2 c)) eqn:H0, (Qle_bool (numeric_5_2 c) 100) eqn:H1; cbn.
    + split; [intros _|eauto]. exists c. apply Qle_bool_iff in H0, H1. done.
    + split; [intros H; by apply no_new_row in H|]. intros (c' & [= <-] & _ & H).
      apply Qle_bool_iff in H. congruence.
    + split; [intros H; by apply no_new_row in H|]. intros (c' & [= <-] & H & _).
      apply Qle_bool_iff in H. congruence.
    + split; [intros H; by apply no_new_row in H|]. intros (c' & [= <-] & H & _).
      apply Qle_bool_iff in H. congruence.
Qed.

End Analyze.

(** ** The CSV round trip *)

Definition no_quote (cell : string) : Prop := quote ∉ list_ascii_of_string cell.

(** What may follow a cell: nothing, or a character other than a quote. *)
Definition cell_follow (rest : list ascii) : Prop :=
  match rest with [] => True | d :: _ => d <> quote end.

Lemma read_quoted_ok (w : list ascii) acc rest :
  quote ∉ w -> cell_follow rest -> read_quoted (w ++ quote :: rest) acc = Some (acc ++ w, rest).
Proof.
  revert acc. induction w as [|c w IH]; intros acc Hw Hr; cbn [read_quoted app].
  - rewrite Ascii.eqb_refl, app_nil_r. destruct rest as [|d r]; [done|].
    cbn in Hr. apply Ascii.eqb_neq in Hr. by rewrite Hr.
  - apply not_elem_of_cons in Hw as [Hc Hw]. assert (Hc' : c <> quote) by congruence.
    apply Ascii.eqb_neq in Hc'. rewrite Hc', IH by done. by rewrite <- app_assoc.
Qed.

Lemma csv_cell_chars (cell : string) :
  list_ascii_of_string (csv_cell cell) = quote :: list_ascii_of_string cell ++ [quote].
Proof. unfold csv_cell. cbn. by rewrite list_ascii_of_string_app. Qed.

Lemma read_cell_ok cell rest :
  no_quote cell -> cell_follow rest ->
  read_cell (list_ascii_of_string (csv_cell cell) ++ rest) = Some (cell, rest).
Proof.
  intros Hq Hr. rewrite csv_cell_chars. cbn [app read_cell]. rewrite Ascii.eqb_refl, <- app_assoc.
  cbn [app]. rewrite read_quoted_ok by done. cbn. by rewrite string_of_list_ascii_of_string.
Qed.

Lemma csv_line_cons c c' cs :
  list_ascii_of_string (csv_line (c :: c' :: cs)) =
  list_ascii_of_string (csv_cell c) ++ ","%char :: list_ascii_of_string (csv_line (c' :: cs)).
Proof. unfold csv_line. cbn [map]. unfold join. cbn [String.concat]. by rewrite !list_ascii_of_string_app. Qed.

Lemma csv_line_length cells : (length cells <= length (list_ascii_of_string (csv_line cells)))%nat.
Proof.
  induction cells as [|c [|c' cs] IH]; [cbn; lia| |].
  - unfold csv_line, join. cbn. rewrite list_ascii_of_string_app. cbn. lia.
  - rewrite csv_line_cons, length_app, csv_cell_chars. cbn in *. lia.
Qed.

(** What follows a line: the end of the file, or a newline. *)
Definition line_follow (tail : list ascii) : option (list ascii) :=
  match tail with [] => None | _ :: rest => Some rest end.

Lemma read_row_ok cells tail n :
  cells <> [] -> Forall no_quote cells -> (length cells <= n)%nat ->
  (tail = [] \/ exists rest, tail = nl :: rest) ->
  read_row n (list_ascii_of_string (csv_line cells) ++ tail) = Some (cells, line_follow tail).
Proof.
  revert n. induction cells as [|c [|c' cs] IH]; intros n Hne Hq Hn Ht; [done| |].
  - destruct n as [|n]; [cbn in Hn; lia|]. apply Forall_cons in Hq as [Hc _].
    unfold csv_line, join. cbn [map String.concat read_row].
    rewrite read_cell_ok by (done || (destruct Ht as [->|[rest ->]]; done)).
    destruct Ht as [->|[rest ->]]; [done|]. done.
  - destruct n as [|n]; [cbn in Hn; lia|]. apply Forall_cons in Hq as [Hc Hq].
    rewrite csv_line_cons, <- app_assoc. cbn [app read_row].
    rewrite read_cell_ok by done. cbn. rewrite IH by (done || (cbn in *; lia)). done.
Qed.

Lemma csv_text_cons r r' rs :
  list_ascii_of_string (csv_text (r :: r' :: rs)) =
  list_ascii_of_string (csv_line r) ++ nl :: list_ascii_of_string (csv_text (r' :: rs)).
Proof. unfold csv_text. cbn [map]. unfold join. cbn [String.concat]. by rewrite !list_ascii_of_string_app. Qed.

Definition csv_ok (rows : list (list string)) : Prop :=
  Forall (fun cells => cells <> [] /\ Forall no_quote cells) rows.

Lemma csv_text_length rows : csv_ok rows -> (length rows <= length (list_ascii_of_string (csv_text rows)))%nat.
Proof.
  induction 1 as [|r rs [Hr _] Hrs IH]; [cbn; lia|]. destruct rs as [|r' rs].
  - unfold csv_text, join. cbn [map String.concat length]. pose proof (csv_line_length r).
    destruct r; [done|]. cbn in *. lia.
  - rewrite csv_text_cons, length_app. cbn in *. lia.
Qed.

Lemma read_rows_ok rows n :
  rows <> [] -> csv_ok rows -> (length rows <= n)%nat ->
  read_rows n (list_ascii_of_string (csv_text rows)) = Some rows.
Proof.
  revert n. induction rows as [|r [|r' rs] IH]; intros n Hne Hok Hn; [done| |].
  - destruct n as [|n]; [cbn in Hn; lia|]. apply Forall_cons in Hok as [[Hr Hq] _].
    unfold csv_text, join. cbn [map String.concat read_rows].
    pose proof (read_row_ok r [] (S (length (list_ascii_of_string (csv_line r)))) Hr Hq) as H.
    rewrite app_nil_r in H. rewrite H; [done| |by left]. pose proof (csv_line_length r). lia.
  - destruct n as [|n]; [cbn in Hn; lia|]. pose proof Hok as Hok'.
    apply Forall_cons in Hok as [[Hr Hq] Hok]. rewrite csv_text_cons. cbn [read_rows].
    rewrite read_row_ok; [| done | done | | by right; eexists].
    + cbn [line_follow fmap option_fmap option_map]. rewrite IH by (done || (cbn in *; lia)). done.
    + rewrite length_app. pose proof (csv_line_length r). lia.
Qed.

(** C34: the export round-trips: when no cell contains a double quote, an
    RFC 4180 reader gives back exactly the rows written, commas and newlines
    inside cells included.  A quote inside a cell (a URL such as
    [http://e.test/?q="x"]) is not escaped and breaks the file. *)
Theorem csv_roundtrip rows :
  rows <> [] -> csv_ok rows -> csv_parse (csv_text rows) = Some rows.
Proof.
  intros Hne Hok. unfold csv_parse. apply read_rows_ok; [done|done|].
  pose proof (csv_text_length rows Hok). lia.
Qed.

(** ** Witnesses *)

Lemma user_db_reachable : reachable user_db.
Proof. eapply reach_step; [constructor|]. eapply step_sign_up. reflexivity. Qed.

Lemma dashboard_counts_partition_witness :
  let st := dashboard_stats (hs_scans (fetchScans scan_db (Some 1) initial_hook)) in
  totalScans st = (phishingCount st + safeCount st + suspiciousCount st)%nat /\ totalScans st = 1%nat.
Proof.
  split; [|vm_compute; reflexivity].
  apply (dashboard_counts_partition scan_db 1 initial_hook).
  eapply reach_step; [apply user_db_reachable|].
  eapply (step_insert _ (Some 1) (mk_scan_insert 1 "http://192.168.1.5/login" "phishing" (Some 92%Q) [] None)).
  vm_compute. reflexivity.
Defined.

(** The 102 case: the result is shown, but no row is saved. *)
Lemma analyzeUrl_stores_iff_witness :
  let d' := (analyzeUrl (JP := json_parse_std) (GW := UrlHandler.gw_says UrlHandler.safe10_content)
               (Some "key") None user_db (Some 1) UrlHandler.login_url initial_hook).1 in
  ~ exists row, scans d' = scans user_db ++ [row].
Proof.
  intros d' Hrow.
  apply (analyzeUrl_stores_iff (JP := json_parse_std) (GW := UrlHandler.gw_says UrlHandler.safe10_content)
           (Some "key") None user_db 1 UrlHandler.login_url initial_hook
           (UrlHandler.response_result (UrlHandler.serve (JP := json_parse_std)
              (GW := UrlHandler.gw_says UrlHandler.safe10_content) (Some "key") UrlHandler.login_request))) in Hrow.
  - destruct Hrow as (c & Hc & _ & H100). vm_compute in Hc. injection Hc as <-.
    vm_compute in H100. by apply H100.
  - exists (mk_auth_user 1 "alice@example.com" None). split; [by left|done].
  - vm_compute. reflexivity.
Defined.

Lemma csv_roundtrip_witness : csv_parse (csv_text csv_demo_rows) = Some csv_demo_rows.
Proof.
  apply csv_roundtrip; [done|]. unfold csv_ok, no_quote.
  apply (bool_decide_eq_true_1 _). vm_compute. reflexivity.
Defined.

(** A quote in a URL is written as it is: the file no longer reads back. *)
Lemma csv_quote_breaks :
  csv_parse (csv_text [["http://e.test/?q=" +:+ String quote "x" +:+ String quote EmptyString]]) = None.
Proof. vm_compute. reflexivity. Qed.

End ScanClient.
