(* ===== verification/Tabs.v ===== *)
(** * The scan tabs of the dashboard: URL input, e-mail tab, logo tab

    Models the client components that send an artifact to an analyser
    and show the answer: [ScanInput.handleSubmit] (src/unnamed/part_004,
    lines 565-573), [EmailScanTab] (part_004, lines 32-127), [LogoScanTab]
    (src/unnamed/part_008, lines 39-153), and the status mappings of
    [ScanResult] (part_004, lines 377-410) and [ScanHistory]
    (src/unnamed/part_005, lines 29-50).  The tab sees a function through
    the [Endpoint] interface: what it reads of the answer ([response.ok],
    [result], [confidence], [detectedBrand]).  Instances connect the tabs
    to the handlers of [EmailHybrid], [EmailHeuristic] and [LogoHeuristic].
    A toast is recorded by its kind; the [FileReader] is read at once. *)

From Stdlib Require Import Ascii String QArith ZArith Lia.
From stdpp Require Import base list strings.
From S2P Require Import Prelude Json Verdict EmailHybrid LogoHeuristic EmailHeuristic ScanClient.

Local Open Scope list_scope.

Module Tabs.
Import ScanClient.

(** The part of a function's answer a tab reads: a 2xx body, or an error. *)
Inductive reply :=
  | ReplyOk (result : verdict) (confidence : jsnum) (detectedBrand : option string)
  | ReplyError.

(** A deployed edge function, as a tab calls it with [fetch]. *)
Class Endpoint (Req : Type) := call : Req -> reply.

(** ** The URL input ([ScanInput], part_004 lines 565-573) *)

(** [if (url.trim()) onScan(url.trim())] *)
Definition scanInput_submit (url : string) : option string :=
  let u := EmailHeuristic.trim url in
  if String.eqb u EmptyString then None else Some u.

(** ** The e-mail tab ([EmailScanTab], part_004 lines 32-127) *)

Record email_tab := mk_email_tab {
  et_sender : string; et_subject : string; et_body : string;
  et_result : option reply; et_toasts : list toast
}.

Definition email_tab0 : email_tab := mk_email_tab EmptyString EmptyString EmptyString None [].

(** The body [JSON.stringify({ sender, subject, body })], fields untrimmed. *)
Definition email_request (s : email_tab) : EmailHybrid.request :=
  EmailHybrid.mk_request "POST"
    (Some (JObj [("sender", JStr (et_sender s)); ("subject", JStr (et_subject s)); ("body", JStr (et_body s))])).

Definition email_toast (v : verdict) : toast :=
  match v with Phishing => ToastError | Suspicious => ToastWarning | _ => ToastSuccess end.

Definition email_push (t : toast) (r : option reply) (s : email_tab) : email_tab :=
  mk_email_tab (et_sender s) (et_subject s) (et_body s) r (et_toasts s ++ [t]).

(** [handleScan] (lines 39-94): every field non-blank, a user, then the
    call; the answer is shown and toasted, an error toasted. *)
Definition email_handleScan {E : Endpoint EmailHybrid.request} (userId : option nat) (s : email_tab)
    : email_tab :=
  if String.eqb (EmailHeuristic.trim (et_sender s)) EmptyString
     || String.eqb (EmailHeuristic.trim (et_subject s)) EmptyString
     || String.eqb (EmailHeuristic.trim (et_body s)) EmptyString
  then email_push ToastError (et_result s) s
  else match userId with
  | None => email_push ToastError (et_result s) s
  | Some _ =>
      match call (email_request s) with
      | ReplyOk v c b => email_push (email_toast v) (Some (ReplyOk v c b)) s
      | ReplyError => email_push ToastError None s
      end
  end.

(** [loadTestCase] (lines 96-127). *)
Definition email_loadTestCase (phishing : bool) (s : email_tab) : email_tab :=
  if phishing then
    mk_email_tab EmailHybrid.phishing_sender EmailHybrid.phishing_subject EmailHybrid.phishing_body
      (et_result s) (et_toasts s)
  else mk_email_tab EmailHybrid.safe_sender EmailHybrid.safe_subject EmailHybrid.safe_body
      (et_result s) (et_toasts s).

(** ** The logo tab ([LogoScanTab], part_008 lines 39-153) *)

Record logo_tab := mk_logo_tab {
  lt_imageUrl : string; lt_preview : option string; lt_result : option reply; lt_toasts : list toast
}.

Definition logo_tab0 : logo_tab := mk_logo_tab EmptyString None None [].

(** [handleFileUpload] (lines 46-62): the file's MIME type and its data
    URL; a file that is not an image is refused. *)
Definition logo_handleFileUpload (file : option (string * string)) (s : logo_tab) : logo_tab :=
  match file with
  | None => s
  | Some (mime, dataUrl) =>
      if String.prefix "image/" mime then mk_logo_tab EmptyString (Some dataUrl) (lt_result s) (lt_toasts s)
      else mk_logo_tab (lt_imageUrl s) (lt_preview s) (lt_result s) (lt_toasts s ++ [ToastError])
  end.

(** [handleUrlChange] (lines 64-69): the preview follows only URLs that
    start with "http"; otherwise it keeps what it showed. *)
Definition logo_handleUrlChange (url : string) (s : logo_tab) : logo_tab :=
  mk_logo_tab url (if String.prefix "http" url then Some url else lt_preview s) (lt_result s) (lt_toasts s).

Definition wiki_paypal_url : string :=
  "https://upload.wikimedia.org/wikipedia/commons/thumb/b/b5/PayPal.svg/320px-PayPal.svg.png".

(** [loadTestCase] (lines 71-82). *)
Definition logo_loadTestCase (phishing : bool) (s : logo_tab) : logo_tab :=
  if phishing then mk_logo_tab LogoHeuristic.fake_paypal_url (Some wiki_paypal_url) (lt_result s) (lt_toasts s)
  else mk_logo_tab LogoHeuristic.amazon_logo_url (Some LogoHeuristic.amazon_logo_url) (lt_result s) (lt_toasts s).

Definition truthy_str (o : option string) : bool :=
  match o with Some p => negb (String.eqb p EmptyString) | None => false end.

(** The payload (lines 99-107): the typed URL, else an uploaded data URL
    as [base64Image], else the preview as [imageUrl]. *)
Definition logo_payload (s : logo_tab) : list (string * jvalue) :=
  if negb (String.eqb (lt_imageUrl s) EmptyString) then [("imageUrl", JStr (lt_imageUrl s))]
  else match lt_preview s with
  | Some p => if String.prefix "data:" p then [("base64Image", JStr p)]
              else if String.eqb p EmptyString then [] else [("imageUrl", JStr p)]
  | None => []
  end.

Definition logo_toast (v : verdict) : toast :=
  match v with Phishing => ToastError | Safe => ToastSuccess | _ => ToastInfo end.

(** [handleScan] (lines 84-153). *)
Definition logo_handleScan {E : Endpoint LogoHeuristic.request} (userId : option nat) (s : logo_tab)
    : logo_tab :=
  if String.eqb (lt_imageUrl s) EmptyString && negb (truthy_str (lt_preview s)) then
    mk_logo_tab (lt_imageUrl s) (lt_preview s) (lt_result s) (lt_toasts s ++ [ToastError])
  else match userId with
  | None => mk_logo_tab (lt_imageUrl s) (lt_preview s) (lt_result s) (lt_toasts s ++ [ToastError])
  | Some _ =>
      match call (LogoHeuristic.mk_request "POST" (Some (JObj (logo_payload s)))) with
      | ReplyOk v c b =>
          mk_logo_tab (lt_imageUrl s) (lt_preview s) (Some (ReplyOk v c b)) (lt_toasts s ++ [logo_toast v])
      | ReplyError => mk_logo_tab (lt_imageUrl s) (lt_preview s) None (lt_toasts s ++ [ToastError])
      end
  end.

(** ** Status mappings *)

(** [ScanResult.getStatusConfig] (part_004 lines 377-410): a title for
    the three results; any other value falls out of the [switch], and
    [config.icon] then throws. *)
Definition getStatusConfig (result : string) : option string :=
  if String.eqb result "safe" then Some "URL VERIFIED SAFE"
  else if String.eqb result "phishing" then Some "PHISHING THREAT DETECTED"
  else if String.eqb result "suspicious" then Some "SUSPICIOUS ACTIVITY"
  else None.

(** [ScanHistory.getStatusBadge] (part_005 lines 40-50); [default] takes
    every other value. *)
Definition getStatusBadge (result : string) : string :=
  let base := "px-2 py-1 rounded-full text-xs font-medium uppercase tracking-wider" in
  if String.eqb result "safe" then base +:+ " badge-safe"
  else if String.eqb result "phishing" then base +:+ " badge-danger"
  else base +:+ " badge-warning".

(** ** The deployed functions as endpoints *)

Definition email_hybrid_endpoint {NF : NumberFormat} {JP : JsonParser}
    {GW : Gateway EmailHybrid.oracle_request} (apiKey : option string) : Endpoint EmailHybrid.request :=
  fun req => match EmailHybrid.serve apiKey req with
             | EmailHybrid.Respond r => ReplyOk (EmailHybrid.res_verdict r) (EmailHybrid.res_confidence r) None
             | _ => ReplyError
             end.

Definition email_heuristic_endpoint : Endpoint EmailHybrid.request :=
  fun req => match EmailHeuristic.serve req with
             | EmailHeuristic.Respond r =>
                 ReplyOk (EmailHeuristic.res_verdict r) (Some (inject_Z (EmailHeuristic.res_confidence r))) None
             | _ => ReplyError
             end.

Definition logo_endpoint : Endpoint LogoHeuristic.request :=
  fun req => match LogoHeuristic.serve req with
             | LogoHeuristic.Respond r =>
                 ReplyOk (LogoHeuristic.res_verdict r) (Some (LogoHeuristic.res_confidence r))
                   (LogoHeuristic.res_detectedBrand r)
             | _ => ReplyError
             end.

(** ** Properties *)

Lemma http_not_data (u : string) : String.prefix "http" u = true -> String.prefix "data:" u = false.
Proof. destruct u as [|c u]; [done|]. cbn. repeat case_match; subst; done. Qed.

Lemma http_nonempty (u : string) : String.prefix "http" u = true -> String.eqb u EmptyString = false.
Proof. by destruct u. Qed.

(** C36: the logo tab analyses a URL the user has erased: after an http URL
    is typed and the field cleared, the preview still holds the old URL and
    the request sends it as [imageUrl], instead of asking for an image. *)
Theorem logo_cleared_url_scanned s u :
  String.prefix "http" u = true ->
  logo_payload (logo_handleUrlChange EmptyString (logo_handleUrlChange u s)) = [("imageUrl", JStr u)].
Proof.
  intros Hu. unfold logo_payload, logo_handleUrlChange. cbn [lt_imageUrl lt_preview String.prefix].
  rewrite Hu. cbn. by rewrite http_not_data, http_nonempty.
Qed.

(** ** Witnesses *)

(** The fake PayPal URL, typed then erased, is still analysed: phishing. *)
Lemma logo_cleared_url_scanned_witness :
  let s := logo_handleUrlChange EmptyString (logo_handleUrlChange LogoHeuristic.fake_paypal_url logo_tab0) in
  logo_payload s = [("imageUrl", JStr LogoHeuristic.fake_paypal_url)] /\
  lt_toasts (logo_handleScan (E := logo_endpoint) (Some 1) s) = [ToastError] /\
  match lt_result (logo_handleScan (E := logo_endpoint) (Some 1) s) with
  | Some (ReplyOk v _ _) => v = Phishing | _ => False end.
Proof.
  split; [apply logo_cleared_url_scanned; reflexivity|]. split; vm_compute; reflexivity.
Defined.

End Tabs.
