(* ===== verification/ResultView.v ===== *)
(** * What the dashboard shows of a URL result and of a stored scan

    Models the values [ScanResult] renders from a [ScanResultData]
    (src/unnamed/part_004, lines 364-550): the status title of
    [getStatusConfig], [confidence.toFixed(0)], the method label, the
    width of the confidence bar, the first five threat indicators, and the
    "Visit" link; and a row of [ScanHistory] (src/unnamed/part_005, lines
    32-60).  Rendering is partial: a result the [switch] does not know, a
    confidence that arrives as [null] (a NaN serialised by
    [JSON.stringify]), or a shown threat indicator that is not a valid
    React child (an object) makes the render throw, which is [None] here.
    [toFixed(0)] picks the nearer integer and the larger one on a tie,
    that is [floor (x + 1/2)]; the number printed by a template literal is
    the [NumberFormat] interface. *)

From Stdlib Require Import String QArith Qround ZArith Lia DecimalString.
From stdpp Require Import base list strings.
From S2P Require Import Prelude Json Verdict Scoring UrlAnalyzer UrlHandler Database Tabs.

Local Open Scope list_scope.

Module ResultView.
Import UrlAnalyzer UrlHandler.

(** [x.toFixed(0)] on a finite number. *)
Definition toFixed0 (x : Q) : Z := Qfloor (x + (1 # 2)).

Definition Z_to_string (z : Z) : string := NilEmpty.string_of_int (Z.to_int z).

(** A number printer for the examples: the integer part. *)
Definition integer_format_demo : NumberFormat := fun q => Z_to_string (Qfloor q).

Record view := mk_view {
  vw_title : string;            (** [config.title] *)
  vw_confidence : string;       (** [{result.confidence.toFixed(0)}%] *)
  vw_method : string;           (** the method label *)
  vw_bar_width : string;        (** [width: `${result.confidence}%`] *)
  vw_threats : list jvalue;     (** [threatIndicators.slice(0, 5)] *)
  vw_visit_href : string;       (** [result.result === "safe" ? result.url : "#"] *)
  vw_visit_label : string
}.

(** Whether React renders a value as a child ([<span>{threat}</span>]):
    strings and numbers are printed, [null], [undefined] and booleans
    render nothing, an array renders its elements, and a plain object
    throws "Objects are not valid as a React child". *)
Fixpoint renderable_child (v : jvalue) : bool :=
  match v with
  | JObj _ => false
  | JArr l => forallb renderable_child l
  | _ => true
  end.

(** The render of [ScanResult] for a non-null [result]: [config.icon]
    throws for a result the [switch] does not know, [toFixed(0)] throws on
    a [null] confidence, and the first five threat indicators must be
    valid React children. *)
Definition render {NF : NumberFormat} (r : UrlHandler.result) : option view :=
  match Tabs.getStatusConfig (verdict_string (res_verdict r)), res_confidence r with
  | Some title, Some c =>
      let shown := take 5 (res_threatIndicators r) in
      let safe := String.eqb (verdict_string (res_verdict r)) "safe" in
      if forallb renderable_child shown then
        Some (mk_view title (Z_to_string (toFixed0 c) +:+ "%")
                (if String.eqb (d_method (res_details r)) "hybrid-ai" then "AI + Rule-Based" else "Rule-Based")
                (number_to_string c +:+ "%")
                shown
                (if safe then res_url r else "#")
                (if safe then "Visit Safely" else "Do Not Visit"))
      else None
  | _, _ => None
  end.

(** A row of [ScanHistory]: the URL, the badge, [confidence.toFixed(0)]%. *)
Definition history_row (s : Database.scan_row) : list string :=
  [Database.sc_url s; Tabs.getStatusBadge (Database.sc_result s);
   Z_to_string (toFixed0 (Database.sc_confidence s)) +:+ "%"].

(** ** Properties *)

Lemma getStatusConfig_known v : v <> Unknown -> is_Some (Tabs.getStatusConfig (verdict_string v)).
Proof. destruct v; [by eexists..|done]. Qed.

Lemma render_threats_at_most_5 {NF : NumberFormat} r v :
  render r = Some v -> (length (vw_threats v) <= 5)%nat.
Proof.
  unfold render. destruct (Tabs.getStatusConfig _), (res_confidence r); intros H; try discriminate.
  destruct (forallb _ _); [|discriminate]. injection H as <-. cbn. rewrite length_take. lia.
Qed.

(** A list of strings renders. *)
Lemma renderable_map_JStr (l : list string) : forallb renderable_child (map JStr l) = true.
Proof. induction l; cbn; auto. Qed.

(** C37: a 200 answer of the URL handler is rendered by the result view
    unless its confidence is NaN (the number reaches the client as [null]
    and [confidence.toFixed(0)] throws) or one of the first five threat
    indicators is not a valid React child (an object the oracle put in
    [additionalThreats] or [reasoning]); the answers of the rule-based
    path are always rendered. *)
Theorem render_fails_iff_nan_or_object {NF : NumberFormat} {JP : JsonParser}
    {GW : Gateway oracle_request} key req r :
  UrlHandler.serve key req = Respond r ->
  (render r = None <->
   res_confidence r = None \/ forallb renderable_child (take 5 (res_threatIndicators r)) = false) /\
  (d_method (res_details r) = "rule-based" -> is_Some (render r)).
Proof.
  intros Hs. destruct (getStatusConfig_known _ (serve_verdict_known _ _ _ Hs)) as [t Ht].
  split.
  - unfold render. rewrite Ht. destruct (res_confidence r); [|naive_solver].
    destruct (forallb _ _); naive_solver.
  - destruct (serve_respond_cases _ _ _ Hs) as (url & [-> | [a Ha]]).
    + intros _. unfold render. rewrite Ht. cbn [res_confidence rule_based_result res_threatIndicators].
      pose proof (min100_bounds _ (run_rules_nonneg _ (url_rules_nonneg (extractUrlFeatures url))))
        as Hb.
      destruct (rule_based_confidence (calculateRiskScore (extractUrlFeatures url)).1 Hb)
        as (c & -> & _).
      rewrite firstn_map, renderable_map_JStr. by eexists.
    + apply hybrid_response_inv in Ha as (_ & _ & _ & -> & _). done.
Qed.

(** ** Witnesses *)

(** The oracle lists an additional threat as an object. *)
Definition demo_content_object : string :=
  "{" +:+ dq "isPhishing" +:+ ": true, " +:+ dq "confidence" +:+ ": 80, "
  +:+ dq "additionalThreats" +:+ ": [{" +:+ dq "type" +:+ ": " +:+ dq "spoof" +:+ "}]}".

Definition demo_object : UrlHandler.result :=
  response_result (serve (JP := json_parse_std) (GW := gw_says demo_content_object) (Some "key")
                     demo_request).

(** Neither the NaN answer nor the answer with an object among its threats
    is rendered. *)
Lemma render_fails_iff_nan_or_object_witness :
  render (NF := integer_format_demo) demo_nan = None /\
  render (NF := integer_format_demo) demo_object = None.
Proof.
  split.
  - apply (proj2 (proj1 (render_fails_iff_nan_or_object (NF := integer_format_demo)
                  (JP := json_parse_std) (GW := gw_says demo_content_nan) (Some "key") demo_request
                  demo_nan ltac:(vm_compute; reflexivity)))).
    left. vm_compute. reflexivity.
  - apply (proj2 (proj1 (render_fails_iff_nan_or_object (NF := integer_format_demo)
                  (JP := json_parse_std) (GW := gw_says demo_content_object) (Some "key") demo_request
                  demo_object ltac:(vm_compute; reflexivity)))).
    right. vm_compute. reflexivity.
Defined.

End ResultView.
