(* ===== verification/AdminPage.v ===== *)
(** * The administrator's page and the navigation bar's role check

    Models src/unnamed/part_010 ([AdminDashboard]): the role check
    [checkAdminAndLoad] (a [SELECT] on [user_roles] with [.single()]), the
    load of every profile and of the 100 newest scans ([loadData]) under
    the row-level security of [Database], the reload on a realtime event,
    the counters of the page, [getUserEmail] and [exportUsers]; and from
    src/unnamed/part_006 ([Navbar]) [checkAdminStatus] and
    [handleSignOut].  A notification of the auth listener or of
    [getSession] is an event; the [setTimeout(..., 0)] of the listener only
    delays the same call.  Dates are the database's clock: [toISOString]
    and the test for today are parameters. *)

From Stdlib Require Import Ascii String QArith Lia.
From stdpp Require Import base list strings sorting.
From S2P Require Import Prelude Json Verdict Database ScanClient Tabs ResultView.

Local Open Scope list_scope.

Module AdminPage.
Import Database ScanClient.

Record admin_state := mk_admin {
  ad_user : option nat;
  ad_isAdmin : bool;
  ad_profiles : list profile;
  ad_allScans : list scan_row;
  ad_isLoading : bool;
  ad_route : string;
  ad_toasts : list toast
}.

(** [useState]: not an admin, nothing loaded, loading. *)
Definition initial_admin : admin_state := mk_admin None false [] [] true "/admin" [].

(** [.single()]: the one row, or an error (no row or several), read as [data = null]. *)
Definition single {A} (l : list A) : option A :=
  match l with [x] => Some x | _ => None end.

(** [supabase.from("user_roles").select("role").eq("user_id", userId).single()]
    (lines 75-79; the same query in the navigation bar, part_006 lines 49-53). *)
Definition role_query (d : db) (u : nat) : option app_role :=
  r_role <$> single (filter (fun r => Nat.eqb (r_user_id r) u = true) (select_roles d (Some u))).

(** [.order("created_at", { ascending: false })] on profiles. *)
Definition profile_newer (a b : profile) : Prop := (p_created_at b <= p_created_at a)%nat.

#[export] Instance profile_newer_dec : RelDecision profile_newer.
Proof. intros a b. unfold profile_newer. apply _. Defined.

(** [loadData] (lines 91-119): every visible profile, newest first, and the
    100 newest visible scans.  A [SELECT] under row-level security filters
    rows and does not fail, so the [catch] is not reached. *)
Definition loadData (d : db) (u : nat) (s : admin_state) : admin_state :=
  mk_admin (ad_user s) (ad_isAdmin s) (merge_sort profile_newer (select_profiles d (Some u)))
    (take 100 (newest_first (select_scans d (Some u)))) false (ad_route s) (ad_toasts s).

(** [checkAdminAndLoad] (lines 74-89). *)
Definition checkAdminAndLoad (d : db) (u : nat) (s : admin_state) : admin_state :=
  match role_query d u with
  | Some Admin =>
      loadData d u (mk_admin (ad_user s) true (ad_profiles s) (ad_allScans s) (ad_isLoading s)
                      (ad_route s) (ad_toasts s))
  | _ => mk_admin (ad_user s) (ad_isAdmin s) (ad_profiles s) (ad_allScans s) (ad_isLoading s)
           "/dashboard" (ad_toasts s ++ [ToastError])
  end.

(** A notification (lines 48-69): [setUser], then the role check for a
    user and [navigate("/")] without one.  The page listens while it is
    shown at [/admin]. *)
Definition admin_notify (d : db) (s : admin_state) (o : option nat) : admin_state :=
  if String.eqb (ad_route s) "/admin" then
    let s1 := mk_admin o (ad_isAdmin s) (ad_profiles s) (ad_allScans s) (ad_isLoading s)
                (ad_route s) (ad_toasts s) in
    match o with
    | Some u => checkAdminAndLoad d u s1
    | None => mk_admin o (ad_isAdmin s) (ad_profiles s) (ad_allScans s) (ad_isLoading s) "/" (ad_toasts s)
    end
  else s.

(** The realtime channel (lines 122-137), subscribed once [isAdmin] holds:
    any change of [scans] loads the data again. *)
Definition admin_realtime (d : db) (s : admin_state) : admin_state :=
  match ad_isAdmin s, ad_user s with
  | true, Some u => loadData d u s
  | _, _ => s
  end.

(** The counters (lines 163-168); [today] is the test
    [new Date(s.scanned_at).toDateString() === new Date().toDateString()]. *)
Record admin_stats := mk_admin_stats {
  totalUsers : nat; totalScans_all : nat; phishingDetected : nat; todayScans : nat
}.

Definition admin_counters (today : nat -> bool) (s : admin_state) : admin_stats :=
  mk_admin_stats (length (ad_profiles s)) (length (ad_allScans s))
    (count_result "phishing" (ad_allScans s))
    (length (filter (fun r => today (sc_scanned_at r) = true) (ad_allScans s))).

(** [getUserEmail] (lines 170-173): the e-mail of the user's profile, or
    the first eight characters of its id ([uuid] renders an id). *)
Definition getUserEmail (uuid : nat -> string) (s : admin_state) (uid : nat) : string :=
  match List.find (fun p => Nat.eqb (p_user_id p) uid) (ad_profiles s) with
  | Some p => if String.eqb (p_email p) EmptyString then substring 0 8 (uuid uid) else p_email p
  | None => substring 0 8 (uuid uid)
  end.

(** [exportUsers] (lines 139-161): one row per loaded profile, in the CSV
    shape of [exportToCSV]; an empty name or a missing last sign-in is
    written N/A. *)
Definition user_csv_headers : list string := ["Email"; "Display Name"; "Created At"; "Last Sign In"].

Definition exportUsers (iso : nat -> string) (s : admin_state) : string :=
  csv_text (user_csv_headers ::
    map (fun p => [p_email p;
                   if String.eqb (p_display_name p) EmptyString then "N/A" else p_display_name p;
                   iso (p_created_at p);
                   match p_last_sign_in_at p with Some t => iso t | None => "N/A" end])
        (ad_profiles s)).

(** ** The tables of the page (lines 254-336) *)

(** U+2014, written for an empty name or a missing date. *)
Definition em_dash : string := String "226"%char (String "128"%char (String "148"%char EmptyString)).

(** [userScans] (line 255): the user's scans among those loaded. *)
Definition user_scan_count (s : admin_state) (p : profile) : nat :=
  length (filter (fun r => Nat.eqb (sc_user_id r) (p_user_id p) = true) (ad_allScans s)).

(** A row of the users table (lines 254-278), dates left out. *)
Definition profile_row (s : admin_state) (p : profile) : list string :=
  [p_email p; if String.eqb (p_display_name p) EmptyString then em_dash else p_display_name p;
   ResultView.Z_to_string (Z.of_nat (user_scan_count s p))].

(** The recent scans table (lines 311-336): the first 20 loaded scans,
    each with the owner's e-mail, the URL, the badge, the result and
    [confidence.toFixed(0)]%. *)
Definition recent_scan_rows (uuid : nat -> string) (s : admin_state) : list (list string) :=
  map (fun r => [getUserEmail uuid s (sc_user_id r); sc_url r; Tabs.getStatusBadge (sc_result r);
                 sc_result r; ResultView.Z_to_string (ResultView.toFixed0 (sc_confidence r)) +:+ "%"])
      (take 20 (ad_allScans s)).

(** ** The navigation bar (part_006, lines 17-63) *)

Record navbar_state := mk_navbar { nb_user : option nat; nb_isAdmin : bool; nb_route : string }.

(** [checkAdminStatus] (lines 48-56): [setIsAdmin(data?.role === "admin")];
    the link to [/admin] is shown when [isAdmin] holds. *)
Definition checkAdminStatus (d : db) (u : nat) (s : navbar_state) : navbar_state :=
  mk_navbar (nb_user s) (bool_decide (role_query d u = Some Admin)) (nb_route s).

(** The auth listener (lines 25-36): without a user, [setIsAdmin(false)]. *)
Definition navbar_on_auth (d : db) (s : navbar_state) (o : option nat) : navbar_state :=
  match o with
  | Some u => checkAdminStatus d u (mk_navbar o (nb_isAdmin s) (nb_route s))
  | None => mk_navbar None false (nb_route s)
  end.

(** [getSession] (lines 38-43): without a user, [isAdmin] is left as it is. *)
Definition navbar_on_session (d : db) (s : navbar_state) (o : option nat) : navbar_state :=
  match o with
  | Some u => checkAdminStatus d u (mk_navbar o (nb_isAdmin s) (nb_route s))
  | None => mk_navbar None (nb_isAdmin s) (nb_route s)
  end.

(** [handleSignOut] (lines 58-63). *)
Definition handleSignOut (s : navbar_state) : navbar_state := mk_navbar None false "/".

(** ** Properties *)

Section Reachable.
Variable d : db.
Hypothesis Hreach : reachable d.

(** A user's own role rows are the one row the trigger gave it. *)
Lemma own_roles au :
  au ∈ users d -> filter (fun r => Nat.eqb (r_user_id r) (au_id au) = true) (user_roles d) = [role_of au].
Proof.
  intros Hin. destruct (reachable_inv d Hreach) as [Hroles _].
  destruct (reachable_keys d Hreach) as [(Hnd & _) _].
  rewrite Hroles. apply (filter_key_single r_user_id (map role_of (users d)) (role_of au)).
  - rewrite map_map. exact Hnd.
  - apply list_elem_of_In, in_map, list_elem_of_In, Hin.
Qed.

Lemma role_query_reachable au :
  au ∈ users d -> role_query d (au_id au) = Some (r_role (role_of au)).
Proof.
  intros Hin. unfold role_query, select_roles. rewrite list_filter_filter.
  rewrite (list_filter_iff _ (fun r => Nat.eqb (r_user_id r) (au_id au) = true)).
  - by rewrite own_roles.
  - intros r. split; [by intros []|]. intros H. split; [done|]. apply Nat.eqb_eq in H.
    by rewrite H, Nat.eqb_refl.
Qed.

Lemma is_admin_reachable au :
  au ∈ users d -> is_admin d (au_id au) = String.eqb (au_email au) "admin@phishshield.ai".
Proof.
  intros Hin. unfold is_admin, has_role. rewrite existsb_filter_and, own_roles by done.
  unfold role_of. cbn. by destruct (String.eqb _ _).
Qed.

End Reachable.

Lemma loadData_admin d u s :
  is_admin d u = true ->
  ad_profiles (loadData d u s) ≡ₚ profiles d /\
  ad_allScans (loadData d u s) = take 100 (newest_first (scans d)) /\
  length (ad_allScans (loadData d u s)) = min 100 (length (scans d)).
Proof.
  intros Hadm. cbn. unfold select_profiles, select_scans, scan_visible. rewrite Hadm.
  rewrite !filter_all by (intros x; by rewrite orb_true_r).
  split_and!; [apply merge_sort_Permutation|done|].
  rewrite length_take. unfold newest_first. by rewrite (Permutation_length (merge_sort_Permutation _ _)).
Qed.

(** C38: the administrator's page, opened by a signed-up user of a reachable
    database, loads every profile and the 100 newest scans of all users
    exactly when the user signed up with the administrator's address; its
    "Total Scans" counter is then the number of scans capped at 100.  Any
    other user is sent to [/dashboard] with an error and nothing is loaded. *)
Theorem admin_page_access d au today :
  reachable d -> au ∈ users d ->
  let s := admin_notify d initial_admin (Some (au_id au)) in
  (au_email au = "admin@phishshield.ai" ->
     ad_isAdmin s = true /\ ad_profiles s ≡ₚ profiles d /\
     ad_allScans s = take 100 (newest_first (scans d)) /\
     totalScans_all (admin_counters today s) = min 100 (length (scans d))) /\
  (au_email au <> "admin@phishshield.ai" ->
     ad_isAdmin s = false /\ ad_route s = "/dashboard" /\ ad_profiles s = [] /\ ad_allScans s = []).
Proof.
  intros Hr Hin. cbn zeta. unfold admin_notify, initial_admin. cbn [ad_route]. rewrite String.eqb_refl.
  unfold checkAdminAndLoad. rewrite (role_query_reachable d Hr au Hin).
  unfold role_of. cbn [r_role]. split; intros Hem.
  - rewrite Hem, String.eqb_refl.
    assert (Hadm : is_admin d (au_id au) = true) by (rewrite is_admin_reachable, Hem by done; done).
    match goal with |- context [loadData d _ ?s0] =>
      destruct (loadData_admin d (au_id au) s0 Hadm) as (Hp & Hs & Hl) end.
    split_and!; [done|exact Hp|exact Hs|]. unfold admin_counters. cbn [totalScans_all]. exact Hl.
  - apply String.eqb_neq in Hem. by rewrite Hem.
Qed.

Lemma role_admin_email au :
  bool_decide (r_role (role_of au) = Admin) = String.eqb (au_email au) "admin@phishshield.ai".
Proof. unfold role_of. cbn. by destruct (String.eqb _ _). Qed.

(** C39: the three tests of administrator rights agree on every reachable
    database: the navigation bar shows the link to [/admin] (after the
    auth listener's or [getSession]'s notification), the admin page lets
    the user in, and the row-level-security function [is_admin] holds, all
    for the same users. *)
Theorem admin_checks_agree d au s0 :
  reachable d -> au ∈ users d ->
  nb_isAdmin (navbar_on_auth d s0 (Some (au_id au))) = is_admin d (au_id au) /\
  nb_isAdmin (navbar_on_session d s0 (Some (au_id au))) = is_admin d (au_id au) /\
  ad_isAdmin (admin_notify d initial_admin (Some (au_id au))) = is_admin d (au_id au).
Proof.
  intros Hr Hin. rewrite (is_admin_reachable d Hr au Hin), <- role_admin_email.
  cbn [navbar_on_auth navbar_on_session checkAdminStatus nb_isAdmin].
  rewrite (role_query_reachable d Hr au Hin). split_and!.
  - apply bool_decide_ext. split; [by intros [=]|by intros ->].
  - apply bool_decide_ext. split; [by intros [=]|by intros ->].
  - unfold admin_notify, initial_admin. cbn [ad_route]. rewrite String.eqb_refl.
    unfold checkAdminAndLoad. rewrite (role_query_reachable d Hr au Hin).
    destruct (r_role (role_of au)); cbn; [by rewrite bool_decide_eq_true_2|by rewrite bool_decide_eq_false_2].
Qed.

(** A user's scan count on the page counts only the 100 scans loaded. *)
Lemma user_scan_count_le s p : (user_scan_count s p <= length (ad_allScans s))%nat.
Proof. unfold user_scan_count. apply length_filter. Qed.

(** ** Witnesses *)

(** A user who is not the administrator: no link, no access. *)
Definition two_user_db : db :=
  match sign_up admin_scan_db "alice@example.com" None with Some (d, _) => d | None => admin_scan_db end.

Lemma admin_checks_agree_witness :
  nb_isAdmin (navbar_on_auth two_user_db (mk_navbar None false "/") (Some 3)) = false /\
  ad_isAdmin (admin_notify two_user_db initial_admin (Some 3)) = false /\
  nb_isAdmin (navbar_on_session two_user_db (mk_navbar None false "/") (Some 1)) = true.
Proof.
  assert (Hr : reachable two_user_db).
  { eapply reach_step; [apply admin_scan_db_reachable|].
    eapply (step_sign_up _ "alice@example.com" None). vm_compute. reflexivity. }
  destruct (admin_checks_agree two_user_db (mk_auth_user 3 "alice@example.com" None)
              (mk_navbar None false "/") Hr ltac:(vm_compute; right; left)) as (H1 & _ & H3).
  destruct (admin_checks_agree two_user_db (mk_auth_user 1 "admin@phishshield.ai" None)
              (mk_navbar None false "/") Hr ltac:(vm_compute; left)) as (_ & H2 & _).
  cbn [au_id] in H1, H2, H3. rewrite H1, H2, H3. split_and!; vm_compute; reflexivity.
Defined.

Lemma admin_page_access_witness :
  let s := admin_notify admin_scan_db initial_admin (Some 1) in
  ad_isAdmin s = true /\ ad_allScans s = take 100 (newest_first (scans admin_scan_db)) /\
  length (ad_allScans s) = 1%nat.
Proof.
  destruct (proj1 (admin_page_access admin_scan_db (mk_auth_user 1 "admin@phishshield.ai" None)
                     (fun _ => true) admin_scan_db_reachable ltac:(by left)) eq_refl)
    as (H1 & _ & H2 & H3).
  split_and!; [exact H1|exact H2|exact H3].
Defined.

End AdminPage.
