(* ===== verification/Pages.v ===== *)
(** * The pages that drive a scan: landing page, sign-in modal, dashboard

    Index.tsx ([handleScan], lines 35-44), AuthModal.tsx ([handleSubmit],
    lines 24-60) and the two effects of the dashboard (src/unnamed/part_009,
    lines 24-51).  React's semantics is written out: a state update with a
    value [Object.is]-equal to the current one is dropped, and after each
    commit an effect runs again exactly when one of its dependencies
    changed by [Object.is].  A supabase-js [User] object is a record with
    an identity ([uo_ref]), since the dependency test compares identities.
    The auth listener and [getSession] are events; [analyzeUrl] runs to its
    end when called (the interleaving of its awaits is not modelled).
    [settle] is React's render loop (commit again while an effect is due),
    whose termination is proved. *)

From Stdlib Require Import String QArith Lia.
From stdpp Require Import base list strings decidable.
From S2P Require Import Prelude Json Verdict UrlHandler Database ScanClient.

Local Open Scope list_scope.

Module Pages.
Import Database ScanClient.

(** A [User] object: its identity and the [id] it carries. *)
Record user_obj := mk_user_obj { uo_ref : nat; uo_id : nat }.

#[export] Instance user_obj_eq_dec : EqDecision user_obj.
Proof. solve_decision. Defined.

(** ** Landing page (Index.tsx) *)

Record index_state := mk_index { ix_user : option user_obj; ix_isAuthOpen : bool; ix_toasts : list toast }.

Inductive nav := Stay | NavigateDashboard (scanUrl : string).

(** [handleScan] (lines 35-44): without a user, open the modal and ask to
    sign in; otherwise go to the dashboard with [state: { scanUrl: url }]. *)
Definition handleScan (s : index_state) (url : string) : index_state * nav :=
  match ix_user s with
  | None => (mk_index None true (ix_toasts s ++ [ToastInfo]), Stay)
  | Some _ => (s, NavigateDashboard url)
  end.

(** ** Sign-in modal (AuthModal.tsx) *)

Inductive auth_mode := SignInMode | SignUpMode.

Record modal_state := mk_modal {
  am_mode : auth_mode; am_email : string; am_fullName : string; am_toasts : list toast
}.

(** [handleSubmit] (lines 24-60).  Sign-up sends [full_name: fullName] as
    the user's metadata, an empty string when the optional field is left
    blank; an e-mail already registered is an error.  Sign-in asks the auth
    service ([signin_ok]: whether the credentials are accepted) and calls
    [onSuccess] (the boolean result) when they are. *)
Definition handleSubmit (signin_ok : bool) (d : db) (m : modal_state) : db * modal_state * bool :=
  match am_mode m with
  | SignUpMode =>
      match sign_up d (am_email m) (Some (am_fullName m)) with
      | Some (d', _) => (d', mk_modal SignInMode (am_email m) (am_fullName m) (am_toasts m ++ [ToastSuccess]), false)
      | None => (d, mk_modal SignUpMode (am_email m) (am_fullName m) (am_toasts m ++ [ToastError]), false)
      end
  | SignInMode =>
      if signin_ok then (d, mk_modal SignInMode (am_email m) (am_fullName m) (am_toasts m ++ [ToastSuccess]), true)
      else (d, mk_modal SignInMode (am_email m) (am_fullName m) (am_toasts m ++ [ToastError]), false)
  end.

(** [resetForm] (lines 62-66); the password is not modelled. *)
Definition resetForm (m : modal_state) : modal_state :=
  mk_modal (am_mode m) EmptyString EmptyString (am_toasts m).

(** The mode switch (lines 216-221): the other mode, and an empty form. *)
Definition toggleMode (m : modal_state) : modal_state :=
  resetForm (mk_modal (match am_mode m with SignInMode => SignUpMode | SignUpMode => SignInMode end)
               (am_email m) (am_fullName m) (am_toasts m)).

(** ** Dashboard (part_009, lines 17-51) *)

Record dash_state := mk_dash {
  ds_user : option user_obj;                          (** [user] *)
  ds_scanUrl : option string;                         (** [location.state?.scanUrl] *)
  ds_route : string;                                  (** the current route *)
  ds_hook_deps : option (option nat);                 (** [[userId]] at the hook's last effect *)
  ds_scan_deps : option (option string * option user_obj); (** [[location.state, user]] *)
  ds_hook : hook_state;
  ds_db : db;
  ds_calls : list string                              (** the URLs passed to [analyzeUrl] *)
}.

Definition set_user (o : option user_obj) (s : dash_state) : dash_state :=
  mk_dash o (ds_scanUrl s) (ds_route s) (ds_hook_deps s) (ds_scan_deps s) (ds_hook s) (ds_db s) (ds_calls s).
Definition set_route (r : string) (s : dash_state) : dash_state :=
  mk_dash (ds_user s) (ds_scanUrl s) r (ds_hook_deps s) (ds_scan_deps s) (ds_hook s) (ds_db s) (ds_calls s).

(** The effect of [useScans] on [[userId]] (part_008, lines 479-484): fetch
    (the realtime subscription only fetches again). *)
Definition hook_effect (s : dash_state) : dash_state :=
  let uid := uo_id <$> ds_user s in
  if decide (ds_hook_deps s = Some uid) then s else
  let hs := fetchScans (ds_db s) uid (ds_hook s) in
  mk_dash (ds_user s) (ds_scanUrl s) (ds_route s) (Some uid) (ds_scan_deps s) hs (ds_db s) (ds_calls s).

(** No effect is due: both dependency arrays equal those of the last run. *)
Definition stable (s : dash_state) : bool :=
  bool_decide (ds_hook_deps s = Some (uo_id <$> ds_user s)) &&
  bool_decide (ds_scan_deps s = Some (ds_scanUrl s, ds_user s)).

Section Effects.
Context {JP : JsonParser} {GW : Gateway UrlHandler.oracle_request}.
Variables (apiKey hash : option string).

(** The effect on [[location.state, user]] (lines 45-51): when [scanUrl]
    and [user] are truthy, [analyzeUrl(scanUrl)], then
    [window.history.replaceState({}, ...)], which rewrites the browser's
    history entry but not the router's [location.state]. *)
Definition scan_effect (s : dash_state) : dash_state :=
  let deps := (ds_scanUrl s, ds_user s) in
  if decide (ds_scan_deps s = Some deps) then s else
  let s' := mk_dash (ds_user s) (ds_scanUrl s) (ds_route s) (ds_hook_deps s) (Some deps)
              (ds_hook s) (ds_db s) (ds_calls s) in
  match ds_scanUrl s, ds_user s with
  | Some url, Some u =>
      if String.eqb url EmptyString then s' else
      let '(d', hs') := analyzeUrl apiKey hash (ds_db s) (Some (uo_id u)) url (ds_hook s) in
      mk_dash (ds_user s) (ds_scanUrl s) (ds_route s) (ds_hook_deps s) (Some deps) hs' d'
        (ds_calls s ++ [url])
  | _, _ => s'
  end.

(** A commit runs the effects in their order of declaration. *)
Definition commit (s : dash_state) : dash_state := scan_effect (hook_effect s).

(** Mounting the page at [/dashboard] with the router state of the link. *)
Definition mount (d : db) (scanUrl : option string) : dash_state :=
  commit (mk_dash None scanUrl "/dashboard" None None initial_hook d []).

(** A notification of the auth listener or of [getSession] (lines 24-39):
    [setUser(session?.user ?? null)], and without a user [navigate("/")],
    which unmounts the page: later notifications reach no listener. *)
Definition notify (s : dash_state) (o : option user_obj) : dash_state :=
  if String.eqb (ds_route s) "/dashboard" then
    let s1 := if decide (ds_user s = o) then s else set_user o s in
    let s2 := match o with None => set_route "/" s1 | Some _ => s1 end in
    commit s2
  else s.

Definition run_notifications (s : dash_state) (os : list (option user_obj)) : dash_state :=
  foldl notify s os.

(** React's render loop: while an effect is due, commit again (an effect
    that sets state triggers another render).  [fuel] bounds the rounds. *)
Fixpoint settle (fuel : nat) (s : dash_state) : option dash_state :=
  match fuel with
  | O => None
  | S f => if stable s then Some s else settle f (commit s)
  end.

(** Two notifications for the same account, each with its own object. *)
Definition fresh_sessions : list user_obj := [mk_user_obj 1 1; mk_user_obj 2 1].

Definition bob_signup : modal_state := mk_modal SignUpMode "bob@example.com" EmptyString [].

(** ** Properties *)

Lemma hook_effect_shape s :
  exists hd hs, hook_effect s =
    mk_dash (ds_user s) (ds_scanUrl s) (ds_route s) hd (ds_scan_deps s) hs (ds_db s) (ds_calls s).
Proof. unfold hook_effect. case_decide; [destruct s; by do 2 eexists|by do 2 eexists]. Qed.

(** The page shows the scan handed over by the landing page, and the scan
    effect has last run with the current user. *)
Definition pending_scan (url : string) (s : dash_state) : Prop :=
  ds_route s = "/dashboard" /\ ds_scanUrl s = Some url /\ ds_scan_deps s = Some (Some url, ds_user s).

Lemma mount_pending d url : pending_scan url (mount d (Some url)) /\ ds_user (mount d (Some url)) = None
  /\ ds_calls (mount d (Some url)) = [].
Proof. unfold mount, commit, hook_effect, scan_effect. cbn. by repeat (case_decide; cbn). Qed.

(** A notification with a user object other than the current one runs the
    scan effect again, and the scan is analysed once more. *)
Lemma notify_fresh s url o :
  url <> EmptyString -> pending_scan url s -> Some o <> ds_user s ->
  pending_scan url (notify s (Some o)) /\ ds_user (notify s (Some o)) = Some o /\
  ds_calls (notify s (Some o)) = ds_calls s ++ [url].
Proof.
  intros Hu (Hr & Hs & Hd) Ho. unfold notify. rewrite Hr, String.eqb_refl.
  case_decide; [congruence|]. unfold commit.
  destruct (hook_effect_shape (set_user (Some o) s)) as (hd & hs & ->). unfold scan_effect.
  cbn [ds_user ds_scanUrl ds_route ds_scan_deps ds_db ds_calls ds_hook set_user].
  rewrite Hs, Hd. destruct (decide (Some (Some url, ds_user s) = Some (Some url, Some o))); [congruence|].
  apply String.eqb_neq in Hu. rewrite Hu.
  destruct (analyzeUrl apiKey hash (ds_db s) (Some (uo_id o)) url hs). unfold pending_scan. cbn. by rewrite Hr.
Qed.

Lemma notify_fresh_all s url os :
  url <> EmptyString -> pending_scan url s -> NoDup os -> (forall o, o ∈ os -> Some o <> ds_user s) ->
  ds_calls (run_notifications s (Some <$> os)) = ds_calls s ++ replicate (length os) url.
Proof.
  unfold run_notifications. revert s. induction os as [|o os IH]; intros s Hu Hp Hnd Hfresh.
  - by rewrite app_nil_r.
  - apply list.NoDup_cons in Hnd as [Hno Hnd]. cbn [fmap list_fmap foldl length replicate].
    destruct (notify_fresh s url o Hu Hp) as (Hp' & Hus & Hc); [apply Hfresh; by left|].
    rewrite IH, Hc by (done || (intros o' Ho'; rewrite Hus; intros [= ->]; done)).
    by rewrite <- app_assoc.
Qed.

(** C35: the comment of the dashboard says that the scan handed over by
    the landing page is cleared so that it does not run again, but
    [replaceState] leaves the router's [location.state] as it was: every
    notification that brings a new [User] object (the initial session, a
    token refresh) analyses the URL once more, and each analysis inserts
    another row. *)
Theorem scan_retriggered d url os :
  url <> EmptyString -> NoDup os ->
  ds_calls (run_notifications (mount d (Some url)) (Some <$> os)) = replicate (length os) url.
Proof.
  intros Hu Hnd. destruct (mount_pending d url) as (Hp & Hn & Hc).
  rewrite (notify_fresh_all _ url), Hc by (done || (intros o _; rewrite Hn; done)). done.
Qed.

Lemma hook_effect_stable s :
  ds_hook_deps (hook_effect s) = Some (uo_id <$> ds_user s) /\
  ds_user (hook_effect s) = ds_user s /\ ds_scanUrl (hook_effect s) = ds_scanUrl s.
Proof. unfold hook_effect. by case_decide. Qed.

(** After one commit no effect is due: neither effect changes the values
    its dependency array reads. *)
Lemma scan_effect_deps s :
  ds_user (scan_effect s) = ds_user s /\ ds_scanUrl (scan_effect s) = ds_scanUrl s /\
  ds_hook_deps (scan_effect s) = ds_hook_deps s /\
  ds_scan_deps (scan_effect s) = Some (ds_scanUrl s, ds_user s).
Proof.
  unfold scan_effect. case_decide as Hdep; [done|].
  destruct (ds_scanUrl s) as [url|], (ds_user s) as [u|]; try done.
  destruct (String.eqb url EmptyString); [done|].
  by destruct (analyzeUrl apiKey hash (ds_db s) (Some (uo_id u)) url (ds_hook s)).
Qed.

(** After one commit no effect is due: neither effect changes the values
    its dependency array reads. *)
Lemma commit_stable s : stable (commit s) = true.
Proof.
  unfold commit. destruct (hook_effect_stable s) as (Hd & Hu & Hs).
  destruct (scan_effect_deps (hook_effect s)) as (Hu' & Hs' & Hd' & Hsd).
  unfold stable. rewrite Hu', Hs', Hd', Hsd, Hd, Hu. by rewrite !bool_decide_eq_true_2.
Qed.

(** C40: the render loop of the dashboard terminates: from any state, with
    two rounds of fuel or more, it stops, after at most one commit, in a
    state where no effect is due; the scan effect's own state updates
    (the analysis, the insert, the fetch) never make it due again. *)
Theorem render_loop_terminates s fuel :
  (2 <= fuel)%nat ->
  settle fuel s = Some (if stable s then s else commit s) /\
  stable (if stable s then s else commit s) = true.
Proof.
  intros Hf. destruct fuel as [|[|f]]; [lia|lia|]. cbn [settle].
  destruct (stable s) eqn:Hs; [done|]. rewrite commit_stable. by split.
Qed.

End Effects.

(** ** Witnesses *)

(** With the gateway failing, the URL handed over by the landing page is
    analysed twice, and two rows are stored for one click. *)
Lemma scan_retriggered_witness :
  let s := run_notifications (JP := json_parse_std) (GW := UrlHandler.gw_down) (Some "key") None
             (mount (JP := json_parse_std) (GW := UrlHandler.gw_down) (Some "key") None user_db
                (Some UrlHandler.login_url)) (Some <$> fresh_sessions) in
  ds_calls s = [UrlHandler.login_url; UrlHandler.login_url] /\ length (scans (ds_db s)) = 2%nat.
Proof.
  split; [|vm_compute; reflexivity].
  apply (scan_retriggered (JP := json_parse_std) (GW := UrlHandler.gw_down) (Some "key") None
           user_db UrlHandler.login_url fresh_sessions); [done|].
  apply (bool_decide_eq_true_1 (NoDup fresh_sessions)). vm_compute. reflexivity.
Defined.

(** A sign-up with the optional name left blank stores an empty display
    name: [COALESCE('', split_part(...))] is [''], not the e-mail's local part. *)
Lemma render_loop_terminates_witness :
  let s := mk_dash (Some (mk_user_obj 1 1)) (Some UrlHandler.login_url) "/dashboard" None None initial_hook user_db [] in
  settle (JP := json_parse_std) (GW := UrlHandler.gw_down) (Some "key") None 2 s =
    Some (commit (JP := json_parse_std) (GW := UrlHandler.gw_down) (Some "key") None s) /\
  length (scans (ds_db (commit (JP := json_parse_std) (GW := UrlHandler.gw_down) (Some "key") None s))) = 1%nat.
Proof.
  split; [|vm_compute; reflexivity].
  destruct (render_loop_terminates (JP := json_parse_std) (GW := UrlHandler.gw_down) (Some "key") None
              (mk_dash (Some (mk_user_obj 1 1)) (Some UrlHandler.login_url) "/dashboard" None None initial_hook user_db [])
              2 ltac:(lia)) as [H _].
  exact H.
Defined.

Lemma blank_name_display :
  map p_display_name (profiles (handleSubmit false user_db bob_signup).1.1) = ["alice"; EmptyString].
Proof. vm_compute. reflexivity. Qed.

End Pages.
